(** * The agent test console: selection, status polling, chat and lifecycle

    A shallow embedding of [TestAgentComponent]
    (frontend/src/app/components/test-agent/test-agent.component.ts) together
    with the part of the RxJS / HttpClient run time its methods rely on:

    - every [HttpClient] call is a cold observable: subscribing sends one
      request, the response is delivered later as [next] followed by
      [complete], or as [error]; unsubscribing aborts the request;
    - [interval(5000)] emits for the first time one period after it is
      subscribed and then once per period;
    - [takeWhile(p)] completes the stream at the first emission where [p]
      is false; [switchMap(f)] unsubscribes the previous inner observable
      when a new outer value arrives, forwards inner values and errors, and
      completes once the outer and the inner are both complete.

    The component is event driven, so the model is a state record and one
    function per method and per callback; asynchronous results are delivered
    by the environment through [deliver], timers fire through [advance].
    The bindings of the template (test-agent.component.html) that call the
    methods or write the fields are modelled next to them. *)

From Stdlib Require Import ZArith Lia.
From stdpp Require Import base option list strings gmap.

(** ** Data model (frontend/src/app/models/agent.ts) *)

Inductive AgentStatus := IDLE | RUNNING | PAUSED | COMPLETED | FAILED | ERROR.

Inductive Role := user | assistant | function.

(** An ISO-8601 string and the [Date] it denotes are both represented by the
    instant itself, in milliseconds; [new Date(iso)] and [toISOString()] are
    the two directions of that representation. *)
Definition IsoString := Z.
Definition Date := Z.
Definition newDate (iso : IsoString) : Date := iso.
Definition toISOString (d : Date) : IsoString := d.

Record HistoryEntry := {
  h_role : Role;
  h_content : string;
  h_timestamp : IsoString;
  h_name : option string
}.

Record AgentContext := { chat_history : option (list HistoryEntry) }.

Record Agent := {
  id : string;
  name : string;
  description : string;
  prompt : string;
  tools : list string;
  hitl_enabled : bool;
  status : AgentStatus;
  created_at : IsoString;
  updated_at : IsoString;
  context : option AgentContext
}.

Record AgentUpdate := {
  u_name : option string;
  u_description : option string;
  u_tools : option (list string);
  u_prompt : option string;
  u_hitl_enabled : option bool;
  u_status : option AgentStatus
}.

(** Element type of the component's [messages] array. *)
Record Message := { role : Role; content : string; timestamp : Date }.

Definition status_eqb (a b : AgentStatus) : bool :=
  match a, b with
  | IDLE, IDLE | RUNNING, RUNNING | PAUSED, PAUSED
  | COMPLETED, COMPLETED | FAILED, FAILED | ERROR, ERROR => true
  | _, _ => false
  end.

Definition role_eqb (a b : Role) : bool :=
  match a, b with
  | user, user | assistant, assistant | function, function => true
  | _, _ => false
  end.

(** [a.context = c] on the object [a]. *)
Definition with_context (c : option AgentContext) (a : Agent) : Agent :=
  {| id := id a; name := name a; description := description a;
     prompt := prompt a; tools := tools a; hitl_enabled := hitl_enabled a;
     status := status a; created_at := created_at a;
     updated_at := updated_at a; context := c |}.

(** [a.context?.chat_history] *)
Definition history_of (a : Agent) : option (list HistoryEntry) :=
  match context a with
  | Some c => chat_history c
  | None => None
  end.

(** ** [String.prototype.trim]

    A [string] holds the UTF-8 encoding of the JavaScript string, as the
    string literals of this file do.  [trim] removes from both ends the
    code points ECMAScript counts as WhiteSpace or LineTerminator:
    U+0009 to U+000D, U+0020, U+00A0, U+1680, U+2000 to U+200A, U+2028,
    U+2029, U+202F, U+205F, U+3000 and U+FEFF.  Each of them is encoded in
    one, two or three bytes, and in UTF-8 such a byte sequence at either
    end of a string is that code point. *)

Definition byte (c : Ascii.ascii) : N := Ascii.N_of_ascii c.

(** U+0009 to U+000D and U+0020. *)
Definition is_space (c : Ascii.ascii) : bool :=
  (byte c =? 32)%N || ((9 <=? byte c)%N && (byte c <=? 13)%N).

(** U+00A0, encoded as C2 A0. *)
Definition is_space2 (c1 c2 : Ascii.ascii) : bool :=
  (byte c1 =? 194)%N && (byte c2 =? 160)%N.

(** U+1680 (E1 9A 80); U+2000 to U+200A, U+2028, U+2029 and U+202F
    (E2 80 80 to E2 80 8A, E2 80 A8, E2 80 A9, E2 80 AF); U+205F
    (E2 81 9F); U+3000 (E3 80 80); U+FEFF (EF BB BF). *)
Definition is_space3 (c1 c2 c3 : Ascii.ascii) : bool :=
  ((byte c1 =? 225)%N && (byte c2 =? 154)%N && (byte c3 =? 128)%N) ||
  ((byte c1 =? 226)%N && (byte c2 =? 128)%N &&
   (((128 <=? byte c3)%N && (byte c3 <=? 138)%N) ||
    (byte c3 =? 168)%N || (byte c3 =? 169)%N || (byte c3 =? 175)%N)) ||
  ((byte c1 =? 226)%N && (byte c2 =? 129)%N && (byte c3 =? 159)%N) ||
  ((byte c1 =? 227)%N && (byte c2 =? 128)%N && (byte c3 =? 128)%N) ||
  ((byte c1 =? 239)%N && (byte c2 =? 187)%N && (byte c3 =? 191)%N).

Fixpoint trim_start (s : string) : string :=
  match s with
  | String c1 r1 =>
    if is_space c1 then trim_start r1
    else
      match r1 with
      | String c2 r2 =>
        if is_space2 c1 c2 then trim_start r2
        else
          match r2 with
          | String c3 r3 => if is_space3 c1 c2 c3 then trim_start r3 else s
          | EmptyString => s
          end
      | EmptyString => s
      end
  | EmptyString => EmptyString
  end.

(** The same on a reversed string, whose bytes come last first. *)
Fixpoint trim_start_rev (s : string) : string :=
  match s with
  | String c1 r1 =>
    if is_space c1 then trim_start_rev r1
    else
      match r1 with
      | String c2 r2 =>
        if is_space2 c2 c1 then trim_start_rev r2
        else
          match r2 with
          | String c3 r3 =>
            if is_space3 c3 c2 c1 then trim_start_rev r3 else s
          | EmptyString => s
          end
      | EmptyString => s
      end
  | EmptyString => EmptyString
  end.

Fixpoint rev_string (acc s : string) : string :=
  match s with
  | String c r => rev_string (String c acc) r
  | EmptyString => acc
  end.

Definition trim (s : string) : string :=
  rev_string EmptyString
    (trim_start_rev (rev_string EmptyString (trim_start s))).

Definition is_empty (s : string) : bool :=
  match s with EmptyString => true | _ => false end.

(** ** Requests, responses and observable effects *)

(** The HTTP calls of [AgentService] the component subscribes to, tagged by
    the subscription site, which fixes the callbacks that receive the
    result. *)
Inductive Request :=
| ListFetch                               (* getAgents, in loadAgents *)
| SelectFetch (agentId : string)          (* getAgent, in selectAgent *)
| PollFetch (agentId : string)            (* getAgent, inner of switchMap *)
| StartCommand (agentId : string)         (* startAgent *)
| StopCommand (agentId : string)          (* stopAgent *)
| ChatPost (agentId : string) (message : string)   (* sendMessage *)
| UpdatePut (agentId : string) (update : AgentUpdate).
                                          (* updateAgent, in openEditDialog *)

Inductive Response :=
| AgentBody (a : Agent)
| AgentListBody (l : list Agent)
| ChatBody (reply : string)
| HttpError (detail : option string).     (* error.error?.detail *)

Inductive Effect :=
| HttpSent (rid : nat) (rq : Request) (time : Z)
| HttpAborted (rid : nat)
| Unsubscribe
| ConsoleError (msg : string)
| SnackBar (msg : string).

(** ** The polling subscription

    The object returned by
    [interval(5000).pipe(takeWhile(..), switchMap(..)).subscribe(..)]. *)
Record Subscription := {
  sub_agentId : string;      (* the [agentId] captured by both closures *)
  sub_closed : bool;         (* unsubscribed, errored or completed *)
  sub_timer : option Z;      (* time of the next interval emission, while
                                the interval is still subscribed *)
  sub_inner : option nat     (* the in-flight inner getAgent request *)
}.

Definition POLL_PERIOD : Z := 5000.

(** ** Component and run-time state *)

Record State := {
  (* fields of the component *)
  agents : list nat;                  (* references to objects of [heap] *)
  selectedAgent : option nat;         (* reference to an object of [heap] *)
  messages : list Message;
  newMessage : string;
  isLoading : bool;
  statusSubscription : option Subscription;
  (* run time *)
  heap : list Agent;                  (* the Agent objects allocated so far *)
  pending : gmap nat Request;         (* requests in flight *)
  nextReq : nat;
  openDialogs : nat;                  (* edit dialogs not yet closed *)
  now : Z;
  log : list Effect                   (* effects, oldest first *)
}.

Definition init : State :=
  {| agents := []; selectedAgent := None; messages := [];
     newMessage := EmptyString; isLoading := false;
     statusSubscription := None;
     heap := []; pending := ∅; nextReq := 0; openDialogs := 0;
     now := 0; log := [] |}.

Definition set_agents (v : list nat) (s : State) : State :=
  {| agents := v; selectedAgent := selectedAgent s; messages := messages s;
     newMessage := newMessage s; isLoading := isLoading s;
     statusSubscription := statusSubscription s; heap := heap s;
     pending := pending s; nextReq := nextReq s;
     openDialogs := openDialogs s; now := now s; log := log s |}.

Definition set_selectedAgent (v : option nat) (s : State) : State :=
  {| agents := agents s; selectedAgent := v; messages := messages s;
     newMessage := newMessage s; isLoading := isLoading s;
     statusSubscription := statusSubscription s; heap := heap s;
     pending := pending s; nextReq := nextReq s;
     openDialogs := openDialogs s; now := now s; log := log s |}.

Definition set_messages (v : list Message) (s : State) : State :=
  {| agents := agents s; selectedAgent := selectedAgent s; messages := v;
     newMessage := newMessage s; isLoading := isLoading s;
     statusSubscription := statusSubscription s; heap := heap s;
     pending := pending s; nextReq := nextReq s;
     openDialogs := openDialogs s; now := now s; log := log s |}.

Definition set_newMessage (v : string) (s : State) : State :=
  {| agents := agents s; selectedAgent := selectedAgent s;
     messages := messages s; newMessage := v; isLoading := isLoading s;
     statusSubscription := statusSubscription s; heap := heap s;
     pending := pending s; nextReq := nextReq s;
     openDialogs := openDialogs s; now := now s; log := log s |}.

Definition set_isLoading (v : bool) (s : State) : State :=
  {| agents := agents s; selectedAgent := selectedAgent s;
     messages := messages s; newMessage := newMessage s; isLoading := v;
     statusSubscription := statusSubscription s; heap := heap s;
     pending := pending s; nextReq := nextReq s;
     openDialogs := openDialogs s; now := now s; log := log s |}.

Definition set_statusSubscription (v : option Subscription) (s : State)
  : State :=
  {| agents := agents s; selectedAgent := selectedAgent s;
     messages := messages s; newMessage := newMessage s;
     isLoading := isLoading s; statusSubscription := v; heap := heap s;
     pending := pending s; nextReq := nextReq s;
     openDialogs := openDialogs s; now := now s; log := log s |}.

Definition set_heap (v : list Agent) (s : State) : State :=
  {| agents := agents s; selectedAgent := selectedAgent s;
     messages := messages s; newMessage := newMessage s;
     isLoading := isLoading s; statusSubscription := statusSubscription s;
     heap := v; pending := pending s; nextReq := nextReq s;
     openDialogs := openDialogs s; now := now s; log := log s |}.

Definition set_pending (v : gmap nat Request) (s : State) : State :=
  {| agents := agents s; selectedAgent := selectedAgent s;
     messages := messages s; newMessage := newMessage s;
     isLoading := isLoading s; statusSubscription := statusSubscription s;
     heap := heap s; pending := v; nextReq := nextReq s;
     openDialogs := openDialogs s; now := now s; log := log s |}.

Definition set_nextReq (v : nat) (s : State) : State :=
  {| agents := agents s; selectedAgent := selectedAgent s;
     messages := messages s; newMessage := newMessage s;
     isLoading := isLoading s; statusSubscription := statusSubscription s;
     heap := heap s; pending := pending s; nextReq := v;
     openDialogs := openDialogs s; now := now s; log := log s |}.

Definition set_openDialogs (v : nat) (s : State) : State :=
  {| agents := agents s; selectedAgent := selectedAgent s;
     messages := messages s; newMessage := newMessage s;
     isLoading := isLoading s; statusSubscription := statusSubscription s;
     heap := heap s; pending := pending s; nextReq := nextReq s;
     openDialogs := v; now := now s; log := log s |}.

Definition set_now (v : Z) (s : State) : State :=
  {| agents := agents s; selectedAgent := selectedAgent s;
     messages := messages s; newMessage := newMessage s;
     isLoading := isLoading s; statusSubscription := statusSubscription s;
     heap := heap s; pending := pending s; nextReq := nextReq s;
     openDialogs := openDialogs s; now := v; log := log s |}.

Definition emit (e : Effect) (s : State) : State :=
  {| agents := agents s; selectedAgent := selectedAgent s;
     messages := messages s; newMessage := newMessage s;
     isLoading := isLoading s; statusSubscription := statusSubscription s;
     heap := heap s; pending := pending s; nextReq := nextReq s;
     openDialogs := openDialogs s; now := now s; log := log s ++ [e] |}.

(** The object [this.selectedAgent] refers to, with its address. *)
Definition selected (s : State) : option (nat * Agent) :=
  match selectedAgent s with
  | Some p => match heap s !! p with
              | Some a => Some (p, a)
              | None => None
              end
  | None => None
  end.

(** A response body is deserialised into a fresh object. *)
Definition alloc (a : Agent) (s : State) : nat * State :=
  (length (heap s), set_heap (heap s ++ [a]) s).

(** Subscribing to an [HttpClient] observable sends the request. *)
Definition http_send (rq : Request) (s : State) : State :=
  let rid := nextReq s in
  emit (HttpSent rid rq (now s))
    (set_nextReq (S rid) (set_pending (<[rid := rq]> (pending s)) s)).

(** Unsubscribing from it while the request is in flight aborts the
    request: no callback will run for it. *)
Definition http_abort (rid : nat) (s : State) : State :=
  match pending s !! rid with
  | Some _ => emit (HttpAborted rid) (set_pending (delete rid (pending s)) s)
  | None => s
  end.

Definition abort_inner (sub : Subscription) (s : State) : State :=
  match sub_inner sub with
  | Some rid => http_abort rid s
  | None => s
  end.

(** [sub.unsubscribe()]: no effect on a closed subscription; otherwise the
    interval timer is cleared and the inner request aborted. *)
Definition unsubscribe (sub : Subscription) (s : State) : State :=
  let s := emit Unsubscribe s in
  if sub_closed sub then s else abort_inner sub s.

Definition closed_sub (sub : Subscription) : Subscription :=
  {| sub_agentId := sub_agentId sub; sub_closed := true;
     sub_timer := None; sub_inner := None |}.

(** ** The methods of [TestAgentComponent]

    A method that subscribes to an HTTP observable is split into the call
    itself and its [next] and [error] callbacks. *)

Definition stopStatusPolling (s : State) : State :=
  match statusSubscription s with
  | Some sub => set_statusSubscription None (unsubscribe sub s)
  | None => s
  end.

Definition ngOnDestroy (s : State) : State := stopStatusPolling s.

Definition loadAgents (s : State) : State := http_send ListFetch s.

Definition loadAgents_next (ps : list nat) (s : State) : State :=
  set_agents ps s.

Definition loadAgents_error (s : State) : State :=
  emit (SnackBar "Failed to load agents")
    (emit (ConsoleError "Error loading agents:") s).

(** [interval(5000)] schedules its first emission one period from now. *)
Definition startStatusPolling (agentId : string) (s : State) : State :=
  let s := stopStatusPolling s in
  set_statusSubscription
    (Some {| sub_agentId := agentId; sub_closed := false;
             sub_timer := Some (now s + POLL_PERIOD)%Z;
             sub_inner := None |}) s.

(** [next] of the polling subscription; [p] is the received object. *)
Definition poll_next (p : nat) (s : State) : State :=
  match selectedAgent s with
  | Some _ => set_selectedAgent (Some p) s
  | None => s
  end.

Definition poll_error (s : State) : State :=
  emit (ConsoleError "Error polling agent status:") s.

Definition to_message (msg : HistoryEntry) : Message :=
  {| role := h_role msg; content := h_content msg;
     timestamp := newDate (h_timestamp msg) |}.

Definition selectAgent (agentId : string) (s : State) : State :=
  http_send (SelectFetch agentId) s.

Definition selectAgent_next (p : nat) (agent : Agent) (s : State) : State :=
  let s := set_selectedAgent (Some p) s in
  let s :=
    match history_of agent with
    | Some h => set_messages (to_message <$> h) s
    | None => set_messages [] s
    end in
  startStatusPolling (id agent) s.

Definition selectAgent_error (s : State) : State :=
  emit (SnackBar "Failed to load agent details")
    (emit (ConsoleError "Error loading agent:") s).

(** [routeId] is [this.route.snapshot.paramMap.get('id')]. *)
Definition ngOnInit (routeId : option string) (s : State) : State :=
  let s := loadAgents s in
  match routeId with
  | Some agentId => if is_empty agentId then s else selectAgent agentId s
  | None => s
  end.

Definition startAgent (s : State) : State :=
  match selected s with
  | None => s
  | Some (_, a) => http_send (StartCommand (id a)) s
  end.

Definition startAgent_next (p : nat) (s : State) : State :=
  emit (SnackBar "Agent started successfully") (set_selectedAgent (Some p) s).

Definition startAgent_error (s : State) : State :=
  emit (SnackBar "Failed to start agent")
    (emit (ConsoleError "Error starting agent:") s).

Definition stopAgent (s : State) : State :=
  match selected s with
  | None => s
  | Some (_, a) => http_send (StopCommand (id a)) s
  end.

Definition stopAgent_next (p : nat) (s : State) : State :=
  emit (SnackBar "Agent stopped successfully") (set_selectedAgent (Some p) s).

Definition stopAgent_error (s : State) : State :=
  emit (SnackBar "Failed to stop agent")
    (emit (ConsoleError "Error stopping agent:") s).

(** [a.context.chat_history.push(e)], creating [context] and
    [chat_history] first when they are missing. *)
Definition push_history (e : HistoryEntry) (a : Agent) : Agent :=
  let h := match history_of a with Some h => h | None => [] end in
  with_context (Some {| chat_history := Some (h ++ [e]) |}) a.

Definition sendMessage (s : State) : State :=
  match selected s with
  | None => s
  | Some (p, a) =>
    let message := trim (newMessage s) in
    if is_empty message then s
    else
      let timestamp := now s in
      let s := set_messages
                 (messages s ++
                  [{| role := user; content := message;
                      timestamp := timestamp |}]) s in
      let s := set_newMessage EmptyString s in
      let s := set_isLoading true s in
      let s := set_heap
                 (<[p := push_history
                           {| h_role := user; h_content := message;
                              h_timestamp := toISOString timestamp;
                              h_name := None |} a]> (heap s)) s in
      http_send (ChatPost (id a) message) s
  end.

Definition sendMessage_next (reply : string) (s : State) : State :=
  let responseTimestamp := now s in
  let s := set_messages
             (messages s ++
              [{| role := assistant; content := reply;
                  timestamp := responseTimestamp |}]) s in
  let s :=
    match selected s with
    | Some (p, a) =>
      match history_of a with
      | Some _ =>
        set_heap
          (<[p := push_history
                    {| h_role := assistant; h_content := reply;
                       h_timestamp := toISOString responseTimestamp;
                       h_name := None |} a]> (heap s)) s
      | None => s
      end
    | None => s
    end in
  set_isLoading false s.

Definition sendMessage_error (s : State) : State :=
  set_isLoading false
    (emit (SnackBar "Failed to send message")
       (emit (ConsoleError "Error sending message:") s)).

Definition canSendMessage (s : State) : bool :=
  match selected s with
  | None => false
  | Some (_, a) =>
    status_eqb (status a) RUNNING || status_eqb (status a) COMPLETED
  end.

(** [openEditDialog()] opens the dialog; [dialog_afterClosed] is the
    callback of [dialogRef.afterClosed()], run when a dialog closes with
    [result]. *)
Definition openEditDialog (s : State) : State :=
  match selectedAgent s with
  | None => s
  | Some _ => set_openDialogs (S (openDialogs s)) s
  end.

Definition missing_agent_id (s : State) : State :=
  emit (SnackBar "Error: Missing agent ID")
    (emit (ConsoleError "No agent ID available") s).

Definition dialog_afterClosed (result : option AgentUpdate) (s : State)
  : State :=
  match openDialogs s with
  | O => s
  | S n =>
    let s := set_openDialogs n s in
    match result with
    | None => s
    | Some update =>
      match selected s with
      | Some (_, a) =>
        if is_empty (id a) then missing_agent_id s
        else http_send (UpdatePut (id a) update) s
      | None => missing_agent_id s
      end
    end
  end.

Definition updateAgent_next (p : nat) (s : State) : State :=
  emit (SnackBar "Agent updated successfully") (set_selectedAgent (Some p) s).

(** The first line of the log is the [tap] of [AgentService.updateAgent]. *)
Definition updateAgent_error (detail : option string) (s : State) : State :=
  let msg :=
    match detail with
    | Some d =>
      if is_empty d then "Failed to update agent. Please try again."
      else d
    | None => "Failed to update agent. Please try again."
    end in
  emit (SnackBar msg)
    (emit (ConsoleError "Error updating agent:")
       (emit (ConsoleError "Update failed:") s)).

(** ** The template (test-agent.component.html)

    The message input is [disabled] unless [canSendMessage()]; the send
    button is [disabled] when the trimmed draft is empty or
    [canSendMessage()] is false.  A disabled control raises no event.  The
    agent details, with the menu, are shown only while an agent is
    selected. *)

(** The agent selector binds [[(ngModel)]="selectedAgent"] over the options
    [agents] and calls [selectAgent($event.value.id)] on [selectionChange]:
    choosing option [i] first writes the listed object into the field, then
    calls the method.  Choosing the option already shown raises no event. *)
Definition select_option (i : nat) (s : State) : State :=
  match agents s !! i with
  | Some p =>
    if bool_decide (selectedAgent s = Some p) then s
    else
      match heap s !! p with
      | Some a => selectAgent (id a) (set_selectedAgent (Some p) s)
      | None => s
      end
  | None => s
  end.

(** The menu shows "Start Agent" unless the held status is RUNNING, and
    "Stop Agent" when it is. *)
Definition menu_start (s : State) : State :=
  match selected s with
  | Some (_, a) => if status_eqb (status a) RUNNING then s else startAgent s
  | None => s
  end.

Definition menu_stop (s : State) : State :=
  match selected s with
  | Some (_, a) => if status_eqb (status a) RUNNING then stopAgent s else s
  | None => s
  end.

Definition menu_edit (s : State) : State :=
  match selected s with
  | Some _ => openEditDialog s
  | None => s
  end.

Definition input_keyup_enter (s : State) : State :=
  if canSendMessage s then sendMessage s else s.

Definition button_click (s : State) : State :=
  if is_empty (trim (newMessage s)) || negb (canSendMessage s) then s
  else sendMessage s.

(** ** The polling pipeline *)

(** The predicate of [takeWhile]: [this.selectedAgent?.id === agentId]. *)
Definition still_selected (agentId : string) (s : State) : bool :=
  match selected s with
  | Some (_, a) => String.eqb (id a) agentId
  | None => false
  end.

(** One emission of the interval, through [takeWhile] and [switchMap]. *)
Definition interval_emit (s : State) : State :=
  match statusSubscription s with
  | Some sub =>
    match sub_timer sub with
    | Some t =>
      if still_selected (sub_agentId sub) s then
        let s := abort_inner sub s in
        let rid := nextReq s in
        let s := http_send (PollFetch (sub_agentId sub)) s in
        set_statusSubscription
          (Some {| sub_agentId := sub_agentId sub;
                   sub_closed := sub_closed sub;
                   sub_timer := Some (t + POLL_PERIOD)%Z;
                   sub_inner := Some rid |}) s
      else
        set_statusSubscription
          (Some {| sub_agentId := sub_agentId sub;
                   sub_closed :=
                     match sub_inner sub with
                     | Some _ => sub_closed sub
                     | None => true
                     end;
                   sub_timer := None;
                   sub_inner := sub_inner sub |}) s
    | None => s
    end
  | None => s
  end.

(** The inner request completed after its value was delivered. *)
Definition inner_complete (sub : Subscription) : Subscription :=
  {| sub_agentId := sub_agentId sub;
     sub_closed := match sub_timer sub with
                   | Some _ => sub_closed sub
                   | None => true
                   end;
     sub_timer := sub_timer sub;
     sub_inner := None |}.

Definition owns (rid : nat) (s : State) : option Subscription :=
  match statusSubscription s with
  | Some sub =>
    match sub_inner sub with
    | Some r => if (r =? rid)%nat && negb (sub_closed sub) then Some sub
                else None
    | None => None
    end
  | None => None
  end.

(** ** The environment: responses and time *)

(** The response [r] to the request [rid] arrives.  Nothing happens when
    [rid] is not in flight (never sent, already answered, or aborted) or
    when the body has the wrong type for the request. *)
Definition deliver (rid : nat) (r : Response) (s : State) : State :=
  match pending s !! rid with
  | None => s
  | Some rq =>
    let s' := set_pending (delete rid (pending s)) s in
    match rq, r with
    | ListFetch, AgentListBody l =>
      loadAgents_next (seq (length (heap s')) (length l))
        (set_heap (heap s' ++ l) s')
    | ListFetch, HttpError _ => loadAgents_error s'
    | SelectFetch _, AgentBody a =>
      let '(p, s1) := alloc a s' in selectAgent_next p a s1
    | SelectFetch _, HttpError _ => selectAgent_error s'
    | PollFetch _, AgentBody a =>
      match owns rid s' with
      | Some sub =>
        let '(p, s1) := alloc a s' in
        set_statusSubscription (Some (inner_complete sub)) (poll_next p s1)
      | None => s'
      end
    | PollFetch _, HttpError _ =>
      match owns rid s' with
      | Some sub =>
        set_statusSubscription (Some (closed_sub sub)) (poll_error s')
      | None => s'
      end
    | StartCommand _, AgentBody a =>
      let '(p, s1) := alloc a s' in startAgent_next p s1
    | StartCommand _, HttpError _ => startAgent_error s'
    | StopCommand _, AgentBody a =>
      let '(p, s1) := alloc a s' in stopAgent_next p s1
    | StopCommand _, HttpError _ => stopAgent_error s'
    | ChatPost _ _, ChatBody reply => sendMessage_next reply s'
    | ChatPost _ _, HttpError _ => sendMessage_error s'
    | UpdatePut _ _, AgentBody a =>
      let '(p, s1) := alloc a s' in updateAgent_next p s1
    | UpdatePut _ _, HttpError detail => updateAgent_error detail s'
    | _, _ => s
    end
  end.

(** The next interval emission, when it is due at time [t]. *)
Definition due (t : Z) (s : State) : option Z :=
  match statusSubscription s with
  | Some sub =>
    match sub_timer sub with
    | Some tf => if (tf <=? t)%Z then Some tf else None
    | None => None
    end
  | None => None
  end.

Fixpoint fire (fuel : nat) (t : Z) (s : State) : State :=
  match fuel with
  | O => s
  | S n =>
    match due t s with
    | Some tf => fire n t (interval_emit (set_now (Z.max (now s) tf) s))
    | None => s
    end
  end.

(** Number of emissions due up to [t]: each one moves the timer one period
    forward or clears it. *)
Definition emissions_until (t : Z) (s : State) : nat :=
  match due t s with
  | Some tf => Z.to_nat ((t - tf) / POLL_PERIOD + 1)
  | None => 0
  end.

(** The clock runs to time [t]; due emissions fire in order on the way. *)
Definition advance (t : Z) (s : State) : State :=
  let s := fire (emissions_until t s) t s in
  set_now (Z.max (now s) t) s.

Inductive Event :=
(* calls of the methods *)
| CallNgOnInit (routeId : option string)
| CallSelectAgent (agentId : string)
| CallStartAgent
| CallStopAgent
| Draft (text : string)            (* this.newMessage = text *)
| CallSendMessage
| CallOpenEditDialog
| CallNgOnDestroy
(* events of the template *)
| PickAgent (i : nat)
| ClickStart
| ClickStop
| ClickEdit
| ClickSend
| PressEnter
(* the environment *)
| DialogClosed (result : option AgentUpdate)
| Arrive (rid : nat) (r : Response)
| Clock (t : Z).

Definition step (s : State) (e : Event) : State :=
  match e with
  | CallNgOnInit routeId => ngOnInit routeId s
  | CallSelectAgent agentId => selectAgent agentId s
  | CallStartAgent => startAgent s
  | CallStopAgent => stopAgent s
  | Draft text => set_newMessage text s
  | CallSendMessage => sendMessage s
  | CallOpenEditDialog => openEditDialog s
  | CallNgOnDestroy => ngOnDestroy s
  | PickAgent i => select_option i s
  | ClickStart => menu_start s
  | ClickStop => menu_stop s
  | ClickEdit => menu_edit s
  | ClickSend => button_click s
  | PressEnter => input_keyup_enter s
  | DialogClosed result => dialog_afterClosed result s
  | Arrive rid r => deliver rid r s
  | Clock t => advance t s
  end.

Definition run (es : list Event) (s : State) : State := fold_left step es s.

(** ** Observations *)

(** The snapshot currently held. *)
Definition snapshot (s : State) : option Agent := snd <$> selected s.

Definition is_poll (e : Effect) : bool :=
  match e with HttpSent _ (PollFetch _) _ => true | _ => false end.

Definition sent_time (e : Effect) : Z :=
  match e with HttpSent _ _ t => t | _ => 0%Z end.

(** Times at which poll requests were sent, oldest first. *)
Definition poll_times (s : State) : list Z :=
  sent_time <$> filter (fun e => is_poll e = true) (log s).


Definition is_chat (e : Effect) : bool :=
  match e with HttpSent _ (ChatPost _ _) _ => true | _ => false end.

Definition is_unsubscribe (e : Effect) : bool :=
  match e with Unsubscribe => true | _ => false end.

Definition count (f : Effect -> bool) (s : State) : nat :=
  length (filter (fun e => f e = true) (log s)).

(** ** Relations between states *)

(** The fields a helper leaves alone, gathered so that one lemma per helper
    suffices. *)
Definition same_fields (s s' : State) : Prop :=
  selectedAgent s' = selectedAgent s /\ messages s' = messages s /\
  newMessage s' = newMessage s /\ isLoading s' = isLoading s /\
  heap s' = heap s /\ nextReq s' = nextReq s /\ now s' = now s /\
  agents s' = agents s /\ openDialogs s' = openDialogs s.

(** What the component shows, apart from the subscription. *)
Definition same_data (s s' : State) : Prop :=
  selectedAgent s' = selectedAgent s /\ messages s' = messages s /\
  newMessage s' = newMessage s /\ isLoading s' = isLoading s /\
  heap s' = heap s.

(** [s'] comes after [s]: the request counter has not gone back, and every
    request in flight in [s'] was in flight in [s] or was sent since. *)
Definition evolves (s s' : State) : Prop :=
  nextReq s <= nextReq s' /\
  forall r rq, pending s' !! r = Some rq ->
    pending s !! r = Some rq \/ (nextReq s <= r /\ r < nextReq s').

(** [s'] has the subscription of [s], and no poll was sent in between. *)
Definition quiet (s s' : State) : Prop :=
  statusSubscription s' = statusSubscription s /\
  poll_times s' = poll_times s.

(** The session as the component and its poller see it: every field of the
    component, the clock, the request counter and the polls sent so far. *)
Definition session (s : State) :=
  (selectedAgent s, heap s, messages s, newMessage s, isLoading s,
   statusSubscription s, nextReq s, now s, poll_times s,
   agents s, openDialogs s).

(** ** Reachable states *)

(** The states the component can be in: from [init], by any events. *)
Inductive reachable : State -> Prop :=
| reachable_init : reachable init
| reachable_step s e : reachable s -> reachable (step s e).

Definition is_poll_request (rq : Request) : bool :=
  match rq with PollFetch _ => true | _ => false end.

(** A closed subscription has no timer; every poll request in flight is the
    inner request of the open subscription held in [statusSubscription];
    identifiers in flight are below the counter. *)
Definition wf (s : State) : Prop :=
  (forall sub, statusSubscription s = Some sub ->
     sub_closed sub = true -> sub_timer sub = None) /\
  (forall rid rq, pending s !! rid = Some rq -> is_poll_request rq = true ->
     exists sub, statusSubscription s = Some sub /\
       sub_inner sub = Some rid /\ sub_closed sub = false) /\
  (forall rid rq, pending s !! rid = Some rq -> rid < nextReq s).

(** No interval is running. *)
Definition no_timer (s : State) : Prop :=
  forall sub, statusSubscription s = Some sub -> sub_timer sub = None.

(** ** Classes of events *)

(** The events whose handlers write into the held snapshot object: the
    [sendMessage()] call, directly or from the template, and the arrival of
    a chat reply. *)
Definition writes_history (s : State) (e : Event) : bool :=
  match e with
  | CallSendMessage | ClickSend | PressEnter => true
  | Arrive rid (ChatBody _) =>
    match pending s !! rid with
    | Some (ChatPost _ _) => true
    | _ => false
    end
  | _ => false
  end.

(** The only event that starts a polling subscription: the arrival of a
    snapshot for a [selectAgent] call. *)
Definition restarts_polling (s : State) (e : Event) : bool :=
  match e with
  | Arrive rid (AgentBody _) =>
    match pending s !! rid with
    | Some (SelectFetch _) => true
    | _ => false
    end
  | _ => false
  end.

(** No event of [es], run from [s], restarts polling. *)
Fixpoint no_restart (es : list Event) (s : State) : bool :=
  match es with
  | [] => true
  | e :: es' => negb (restarts_polling s e) && no_restart es' (step s e)
  end.

(** The entry the event [e] pushes onto the chat history of the held
    snapshot [a], when it pushes one: the trimmed draft, when it is not
    empty, on a [sendMessage()] call (from the template, when the control
    is enabled); the reply, on its arrival, when [a] has a chat history. *)
Definition pushed_entry (s : State) (e : Event) (a : Agent)
  : option HistoryEntry :=
  let sent :=
    if is_empty (trim (newMessage s)) then None
    else Some {| h_role := user; h_content := trim (newMessage s);
                 h_timestamp := toISOString (now s); h_name := None |} in
  match e with
  | CallSendMessage => sent
  | ClickSend | PressEnter => if canSendMessage s then sent else None
  | Arrive rid (ChatBody reply) =>
    match pending s !! rid, history_of a with
    | Some (ChatPost _ _), Some _ =>
      Some {| h_role := assistant; h_content := reply;
              h_timestamp := toISOString (now s); h_name := None |}
    | _, _ => None
    end
  | _ => None
  end.

(** ** Comparing transcripts *)

(** Messages are compared by role and content. *)
Definition same_message (r : Role) (c : string) (m : Message) : bool :=
  role_eqb (role m) r && String.eqb (content m) c.

Definition same_entry (r : Role) (c : string) (e : HistoryEntry) : bool :=
  role_eqb (h_role e) r && String.eqb (h_content e) c.

Definition copies (r : Role) (c : string) (ms : list Message) : nat :=
  length (filter (fun m => same_message r c m = true) ms).

Definition copies_in_history (r : Role) (c : string)
    (h : list HistoryEntry) : nat :=
  length (filter (fun e => same_entry r c e = true) h).

(** ** The schedule of an interval *)

(** The first [n] emission times of an interval whose first emission is at
    [t0]. *)
Definition emission_times (t0 : Z) (n : nat) : list Z :=
  (fun k => (t0 + POLL_PERIOD * Z.of_nat k)%Z) <$> seq 0 n.

(** ** Sample data and scenarios *)

Definition mk_agent (i : string) (st : AgentStatus)
  (h : option (list HistoryEntry)) : Agent :=
  {| id := i; name := i; description := EmptyString;
     prompt := EmptyString; tools := []; hitl_enabled := false;
     status := st; created_at := 0%Z; updated_at := 0%Z;
     context := match h with
                | Some _ => Some {| chat_history := h |}
                | None => None
                end |}.

Definition entry (r : Role) (c : string) (t : Z) : HistoryEntry :=
  {| h_role := r; h_content := c; h_timestamp := t; h_name := None |}.

Definition agentA : Agent := mk_agent "A" IDLE None.
Definition agentB : Agent := mk_agent "B" RUNNING (Some []).

(** A has been selected at time 0 and is held in status IDLE; polling has
    just started. *)
Definition idle_selected : State :=
  run [CallSelectAgent "A"; Arrive 0 (AgentBody agentA)] init.

(** The same, with the draft "hi" typed. *)
Definition idle_session : State :=
  run [CallSelectAgent "A"; Arrive 0 (AgentBody agentA); Draft "hi"] init.

(** U+00A0 and U+3000 in UTF-8. *)
Definition nbsp : string :=
  String (Ascii.ascii_of_nat 194) (String (Ascii.ascii_of_nat 160) EmptyString).

Definition ideographic_space : string :=
  String (Ascii.ascii_of_nat 227)
    (String (Ascii.ascii_of_nat 128)
       (String (Ascii.ascii_of_nat 128) EmptyString)).

(** A is held and the draft holds white space only: a no-break space, a
    blank and an ideographic space. *)
Definition blank_session : State :=
  run [CallSelectAgent "A"; Arrive 0 (AgentBody agentA);
       Draft (nbsp +:+ " " +:+ ideographic_space)] init.

(** B is held in status RUNNING and "hi" has been sent; the reply is
    awaited. *)
Definition chatting : State :=
  run [CallSelectAgent "B"; Arrive 0 (AgentBody agentB);
       Draft "hi"; CallSendMessage] init.

(** A is held and its first poll (request 1) is in flight. *)
Definition first_poll : State :=
  run [CallSelectAgent "A"; Arrive 0 (AgentBody agentA); Clock 5000] init.

(** From [first_poll], B is being selected (request 2). *)
Definition switching : State := selectAgent "B" first_poll.

Definition agentW : Agent := mk_agent "W" IDLE None.
Definition agentX : Agent := mk_agent "X" RUNNING None.

(** X is selected and its first poll (request 3) is in flight, while a
    start command for the previously selected W (request 1) is still
    unanswered. *)
Definition polling_X : State :=
  run [CallSelectAgent "W"; Arrive 0 (AgentBody agentW); CallStartAgent;
       CallSelectAgent "X"; Arrive 2 (AgentBody agentX); Clock 5000] init.

Definition agentY : Agent := mk_agent "Y" IDLE None.

(** The list of agents is loaded, X is chosen in the selector and fetched,
    and its first poll (request 2) is in flight. *)
Definition picked_X : State :=
  run [CallNgOnInit None; Arrive 0 (AgentListBody [agentX; agentY]);
       PickAgent 0; Arrive 1 (AgentBody agentX); Clock 5000] init.

(** From [polling_X], W is selected again (request 4). *)
Definition reselecting : State := selectAgent "W" polling_X.

(** ** Further invariants *)

(** Every reference the component holds points to an object. *)
Definition refs_valid (s : State) : Prop :=
  (forall p, selectedAgent s = Some p -> p < length (heap s)) /\
  (forall p, p ∈ agents s -> p < length (heap s)).

(** [s'] holds the references of [s] over a heap of the same size. *)
Definition same_refs (s s' : State) : Prop :=
  selectedAgent s' = selectedAgent s /\ agents s' = agents s /\
  length (heap s') = length (heap s).

(** While a polling subscription exists an agent is selected, and a poll in
    flight asks for the agent the subscription was started for. *)
Definition poller_ok (s : State) : Prop :=
  (forall sub, statusSubscription s = Some sub -> is_Some (selectedAgent s)) /\
  (forall rid x sub, pending s !! rid = Some (PollFetch x) ->
     statusSubscription s = Some sub -> x = sub_agentId sub).

(** The inner request of the subscription was sent, and while it is in
    flight it is a poll. *)
Definition inner_ok (s : State) : Prop :=
  forall sub r, statusSubscription s = Some sub -> sub_inner sub = Some r ->
    r < nextReq s /\
    forall rq, pending s !! r = Some rq -> is_poll_request rq = true.

(** The subscription is polling agent [x]: its latest poll, sent as request
    [n] or later, is in flight and [x] is still selected. *)
Definition polling_since (x : string) (n : nat) (s : State) : Prop :=
  exists sub r, statusSubscription s = Some sub /\
    sub_agentId sub = x /\
    sub_inner sub = Some r /\ n <= r /\ r < nextReq s /\
    pending s !! r = Some (PollFetch x) /\
    still_selected x s = true.

(** Agent Y as the selector of [picked_X] holds it once Y is chosen, while
    the poller of X is still subscribed. *)
Definition picked_Y : State := step picked_X (PickAgent 1).

(** The requests whose failure is only reported: the list of agents, the
    lifecycle commands and the update. *)
Definition failure_only_reported (rq : Request) : bool :=
  match rq with
  | ListFetch | StartCommand _ | StopCommand _ | UpdatePut _ _ => true
  | _ => false
  end.

Definition is_snack (e : Effect) : bool :=
  match e with SnackBar _ => true | _ => false end.

(** [e] is the arrival of a response to the request [rid]. *)
Definition answers (rid : nat) (e : Event) : bool :=
  match e with Arrive r _ => (r =? rid)%nat | _ => false end.

(** A chat message is in flight. *)
Definition chat_in_flight (s : State) : Prop :=
  exists rid x m, pending s !! rid = Some (ChatPost x m).

(** ** The edit dialog
    (frontend/src/app/components/edit-agent-dialog/edit-agent-dialog.component.ts)

    The dialog is opened by [openEditDialog()] with the held object as its
    data; the argument of [dialogRef.close] is what [afterClosed()] emits to
    the component. *)

Module EditAgentDialogComponent.

(** [form.value], one field per control of the reactive form. *)
Record FormValue := {
  f_name : string;
  f_description : string;
  f_prompt : string;
  f_hitl_enabled : bool;
  f_tools : list string
}.

(** [Validators.required] rejects the empty string and the empty array;
    [Validators.minLength(n)] accepts an empty value and rejects a shorter
    non-empty one. *)
Definition required_text (v : string) : bool := negb (is_empty v).

Definition required_list (v : list string) : bool :=
  negb (length v =? 0)%nat.

Definition minLength (n : nat) (v : list string) : bool :=
  (length v =? 0)%nat || (n <=? length v)%nat.

(** [form.valid]: every control passes its validators. *)
Definition valid (v : FormValue) : bool :=
  required_text (f_name v) && required_text (f_description v) &&
  required_text (f_prompt v) &&
  (required_list (f_tools v) && minLength 1 (f_tools v)).

(** The component: its injected data, the form, whether
    [markAllAsTouched()] has run, the argument of [dialogRef.close] once it
    was called, and what was written with [console.error]. *)
Record t := {
  data : Agent;
  form : FormValue;
  touched : bool;
  closed : option (option AgentUpdate);
  errors : list string
}.

(** The constructor builds the form from the data. *)
Definition new (data : Agent) : t :=
  {| data := data;
     form := {| f_name := name data; f_description := description data;
                f_prompt := prompt data;
                f_hitl_enabled := hitl_enabled data;
                f_tools := tools data |};
     touched := false; closed := None; errors := [] |}.

(** The user edits the controls. *)
Definition setValue (v : FormValue) (d : t) : t :=
  {| data := data d; form := v; touched := touched d; closed := closed d;
     errors := errors d |}.

Definition close (result : option AgentUpdate) (d : t) : t :=
  {| data := data d; form := form d; touched := touched d;
     closed := Some result; errors := errors d |}.

Definition markAllAsTouched (d : t) : t :=
  {| data := data d; form := form d; touched := true; closed := closed d;
     errors := errors d |}.

Definition console_error (msg : string) (d : t) : t :=
  {| data := data d; form := form d; touched := touched d;
     closed := closed d; errors := errors d ++ [msg] |}.

(** [v || undefined]. *)
Definition or_undefined (v : string) : option string :=
  if is_empty v then None else Some v.

(** A key whose value is [undefined] is dropped from the object passed to
    [close]: in [AgentUpdate] such a key is [None]. *)
Definition onSubmit (d : t) : t :=
  if valid (form d) then
    if is_empty (id (data d)) then
      close None (console_error "Missing agent ID" d)
    else
      let formValue := form d in
      let updatedAgent :=
        {| u_name := or_undefined (f_name formValue);
           u_description := or_undefined (f_description formValue);
           u_prompt := or_undefined (f_prompt formValue);
           u_hitl_enabled := Some (f_hitl_enabled formValue);
           u_tools := Some (f_tools formValue);
           u_status := None |} in
      close (Some updatedAgent) d
  else markAllAsTouched d.

Definition onCancel (d : t) : t := close None d.

End EditAgentDialogComponent.

(** The dialog [d] is submitted while the component is in state [s]: when
    [onSubmit()] closes it, [afterClosed()] hands the result to the
    component. *)
Definition submit_dialog (d : EditAgentDialogComponent.t) (s : State)
  : State :=
  match EditAgentDialogComponent.closed
          (EditAgentDialogComponent.onSubmit d) with
  | Some result => dialog_afterClosed result s
  | None => s
  end.

(** X and Y are listed, X is chosen and then Y, and the dialog is opened
    for Y; the snapshot of Y arrives before that of X, so that X is held
    while the dialog of Y is open. *)
Definition editing_Y : State :=
  run [CallNgOnInit None; Arrive 0 (AgentListBody [agentX; agentY]);
       PickAgent 0; PickAgent 1; ClickEdit;
       Arrive 2 (AgentBody agentY); Arrive 1 (AgentBody agentX)] init.

(** From [editing_Y], the dialog has closed with an update. *)
Definition update_sent : State :=
  run [CallNgOnInit None; Arrive 0 (AgentListBody [agentX; agentY]);
       PickAgent 0; PickAgent 1; ClickEdit;
       Arrive 2 (AgentBody agentY); Arrive 1 (AgentBody agentX);
       DialogClosed
         (Some {| u_name := Some "Y"; u_description := Some "tester";
                  u_tools := Some ["search"]; u_prompt := Some "be brief";
                  u_hitl_enabled := Some true; u_status := None |})] init.

Definition filled_form : EditAgentDialogComponent.FormValue :=
  {| EditAgentDialogComponent.f_name := "Y";
     EditAgentDialogComponent.f_description := "tester";
     EditAgentDialogComponent.f_prompt := "be brief";
     EditAgentDialogComponent.f_hitl_enabled := true;
     EditAgentDialogComponent.f_tools := ["search"] |}.

(** ** The HTTP calls (frontend/src/app/services/agent.service.ts)

    What each method of [AgentService] asks [HttpClient] for.  An
    identifier is spliced into the URL as it is. *)

Module AgentService.

Inductive Method := GET | POST | PUT | DELETE.

Inductive Body :=
| NoBody
| EmptyObject                          (* {} *)
| ContentBody (content : string)       (* { content: message } *)
| UpdateBody (agent : AgentUpdate).

Record HttpRequest := { method : Method; url : string; body : Body }.

Section calls.

(** [environment.apiUrl]. *)
Variable environment_apiUrl : string.

Definition apiUrl : string := environment_apiUrl +:+ "/agents".

Definition getAgents : HttpRequest :=
  {| method := GET; url := apiUrl; body := NoBody |}.

Definition getAgent (id : string) : HttpRequest :=
  {| method := GET; url := apiUrl +:+ "/" +:+ id; body := NoBody |}.

(** [None]: the method throws instead of returning an observable. *)
Definition updateAgent (id : string) (agent : AgentUpdate)
  : option HttpRequest :=
  if is_empty id then None
  else Some {| method := PUT; url := apiUrl +:+ "/" +:+ id;
               body := UpdateBody agent |}.

Definition deleteAgent (id : string) : HttpRequest :=
  {| method := DELETE; url := apiUrl +:+ "/" +:+ id; body := NoBody |}.

Definition startAgent (id : string) : HttpRequest :=
  {| method := POST; url := apiUrl +:+ "/" +:+ id +:+ "/start";
     body := EmptyObject |}.

Definition pauseAgent (id : string) : HttpRequest :=
  {| method := POST; url := apiUrl +:+ "/" +:+ id +:+ "/pause";
     body := EmptyObject |}.

Definition resumeAgent (id : string) : HttpRequest :=
  {| method := POST; url := apiUrl +:+ "/" +:+ id +:+ "/resume";
     body := EmptyObject |}.

Definition getAgentStatus (id : string) : HttpRequest :=
  {| method := GET; url := apiUrl +:+ "/" +:+ id +:+ "/status";
     body := NoBody |}.

Definition chatWithAgent (agentId message : string) : HttpRequest :=
  {| method := POST; url := apiUrl +:+ "/" +:+ agentId +:+ "/chat";
     body := ContentBody message |}.

Definition stopAgent (id : string) : HttpRequest :=
  {| method := POST; url := apiUrl +:+ "/" +:+ id +:+ "/stop";
     body := EmptyObject |}.

Definition sendMessage (agentId message : string) : HttpRequest :=
  {| method := POST; url := apiUrl +:+ "/" +:+ agentId +:+ "/chat";
     body := ContentBody message |}.

Definition getAvailableTools : HttpRequest :=
  {| method := GET; url := environment_apiUrl +:+ "/tools";
     body := NoBody |}.

End calls.

End AgentService.

(** The call of [AgentService] behind each request of the component:
    [loadAgents()] calls [getAgents()], [selectAgent()] and the poller call
    [getAgent()], and so on. *)
Definition http_request (environment_apiUrl : string) (rq : Request)
  : option AgentService.HttpRequest :=
  match rq with
  | ListFetch => Some (AgentService.getAgents environment_apiUrl)
  | SelectFetch x | PollFetch x =>
    Some (AgentService.getAgent environment_apiUrl x)
  | StartCommand x => Some (AgentService.startAgent environment_apiUrl x)
  | StopCommand x => Some (AgentService.stopAgent environment_apiUrl x)
  | ChatPost x m => Some (AgentService.sendMessage environment_apiUrl x m)
  | UpdatePut x u => AgentService.updateAgent environment_apiUrl x u
  end.

(** The request with the tag of the poller dropped: a poll and the fetch of
    a selection are the same call. *)
Definition fetch_of (rq : Request) : Request :=
  match rq with PollFetch x => SelectFetch x | _ => rq end.

(** An update names its agent. *)
Definition named (rq : Request) : Prop :=
  match rq with UpdatePut x _ => is_empty x = false | _ => True end.

(** Every request in flight in [s'] was in flight in [s] or names its
    agent. *)
Definition adds_named (s s' : State) : Prop :=
  forall r rq, pending s' !! r = Some rq ->
    pending s !! r = Some rq \/ named rq.

(** The requests whose answer replaces the held snapshot without touching
    the poller: the lifecycle commands and the update. *)
Definition answer_replaces_snapshot (rq : Request) : bool :=
  match rq with
  | StartCommand _ | StopCommand _ | UpdatePut _ _ => true
  | _ => false
  end.

(** * Properties *)

(** ** Frame lemmas for the run-time helpers *)

Lemma same_fields_refl s : same_fields s s.
Proof. by repeat split. Qed.

Lemma same_fields_selected s s' : same_fields s s' -> selected s' = selected s.
Proof. intros (Hs & _ & _ & _ & Hh & _). unfold selected. by rewrite Hs, Hh. Qed.

Lemma http_abort_fields rid s : same_fields s (http_abort rid s).
Proof. unfold http_abort. destruct (pending s !! rid); by repeat split. Qed.

Lemma abort_inner_fields sub s : same_fields s (abort_inner sub s).
Proof.
  unfold abort_inner. destruct (sub_inner sub).
  - apply http_abort_fields.
  - apply same_fields_refl.
Qed.

Lemma unsubscribe_fields sub s : same_fields s (unsubscribe sub s).
Proof.
  unfold unsubscribe. destruct (sub_closed sub).
  - by repeat split.
  - destruct (abort_inner_fields sub (emit Unsubscribe s))
      as (? & ? & ? & ? & ? & ? & ? & ? & ?).
    by repeat split.
Qed.

Lemma stopStatusPolling_fields s : same_fields s (stopStatusPolling s).
Proof.
  unfold stopStatusPolling. destruct (statusSubscription s) as [sub|].
  - destruct (unsubscribe_fields sub s) as (? & ? & ? & ? & ? & ? & ? & ? & ?).
    by repeat split.
  - apply same_fields_refl.
Qed.

Lemma stopStatusPolling_sub s : statusSubscription (stopStatusPolling s) = None.
Proof.
  unfold stopStatusPolling.
  by destruct (statusSubscription s) eqn:E.
Qed.

Lemma startStatusPolling_fields agentId s :
  same_fields s (startStatusPolling agentId s).
Proof.
  unfold startStatusPolling.
  destruct (stopStatusPolling_fields s) as (? & ? & ? & ? & ? & ? & ? & ? & ?).
  by repeat split.
Qed.

Lemma startStatusPolling_sub agentId s :
  statusSubscription (startStatusPolling agentId s) =
  Some {| sub_agentId := agentId; sub_closed := false;
          sub_timer := Some (now s + POLL_PERIOD)%Z; sub_inner := None |}.
Proof.
  unfold startStatusPolling. simpl.
  destruct (stopStatusPolling_fields s) as (_ & _ & _ & _ & _ & _ & -> & _).
  done.
Qed.

(** ** Filters over the effect log *)

Lemma count_emit f e s :
  count f (emit e s) = (count f s + if f e then 1 else 0)%nat.
Proof.
  unfold count. simpl. rewrite filter_app, length_app. f_equal.
  rewrite filter_cons, filter_nil. by destruct (f e); case_decide.
Qed.

Lemma poll_times_emit e s :
  poll_times (emit e s) =
  poll_times s ++ (if is_poll e then [sent_time e] else []).
Proof.
  unfold poll_times. simpl. rewrite filter_app, fmap_app. f_equal.
  rewrite filter_cons, filter_nil. by destruct (is_poll e); case_decide.
Qed.

(** ** Dispose *)

(** C9.  Destroying the component twice is the same as destroying it once:
    the second call finds no subscription, so the state, the effect log and
    with it the number of [unsubscribe] calls are those of the first call;
    after the first call no subscription is held and no emission is due. *)
Theorem ngOnDestroy_idempotent (s : State) :
  ngOnDestroy (ngOnDestroy s) = ngOnDestroy s /\
  count is_unsubscribe (ngOnDestroy (ngOnDestroy s)) =
    count is_unsubscribe (ngOnDestroy s) /\
  statusSubscription (ngOnDestroy s) = None /\
  forall t, due t (ngOnDestroy s) = None.
Proof.
  assert (H : ngOnDestroy (ngOnDestroy s) = ngOnDestroy s).
  { unfold ngOnDestroy. unfold stopStatusPolling at 1.
    by rewrite stopStatusPolling_sub. }
  split; [done|]. split; [by rewrite H|].
  unfold ngOnDestroy. split; [apply stopStatusPolling_sub|].
  intros t. unfold due. by rewrite stopStatusPolling_sub.
Qed.

(** ** Selection *)

Lemma selectAgent_next_spec p a s :
  let s' := selectAgent_next p a s in
  selectedAgent s' = Some p /\ heap s' = heap s /\
  messages s' = to_message <$> default [] (history_of a) /\
  statusSubscription s' =
    Some {| sub_agentId := id a; sub_closed := false;
            sub_timer := Some (now s + POLL_PERIOD)%Z; sub_inner := None |}.
Proof.
  unfold selectAgent_next. cbv zeta.
  set (s1 := match history_of a with
             | Some h =>
               set_messages (to_message <$> h) (set_selectedAgent (Some p) s)
             | None => set_messages [] (set_selectedAgent (Some p) s)
             end).
  assert (H1 : selectedAgent s1 = Some p /\ heap s1 = heap s /\
               messages s1 = to_message <$> default [] (history_of a) /\
               now s1 = now s).
  { subst s1. by destruct (history_of a). }
  destruct H1 as (Hsel & Hheap & Hmsg & Hnow).
  destruct (startStatusPolling_fields (id a) s1) as (-> & -> & _ & _ & -> & _).
  rewrite startStatusPolling_sub, Hnow. done.
Qed.

(** C1, as stated, fails.  [selectAgent "A"] then [selectAgent "B"] are
    issued; B's response arrives first, A's afterwards.  The response of the
    superseded call is applied: the component ends up showing A and polling
    A, although B is the most recent selection. *)
Lemma stale_selection_overwrites :
  let s := run [CallSelectAgent "A"; CallSelectAgent "B";
                Arrive 1 (AgentBody agentB); Arrive 0 (AgentBody agentA)]
               init in
  snapshot s = Some agentA /\ snapshot s <> Some agentB /\
  sub_agentId <$> statusSubscription s = Some "A".
Proof. vm_compute. repeat split; discriminate. Qed.

(** C1, amended.  There is no generation counter: every successful response
    to a [selectAgent] call is applied when it arrives, whichever calls were
    issued in between.  The arriving snapshot becomes the held one, the
    transcript is replaced by its chat history, and polling restarts for its
    id; so it is the response that arrives last that stays. *)
Theorem selectAgent_response_applied (s : State) (rid : nat)
    (agentId : string) (a : Agent) :
  pending s !! rid = Some (SelectFetch agentId) ->
  let s' := deliver rid (AgentBody a) s in
  snapshot s' = Some a /\
  messages s' = to_message <$> default [] (history_of a) /\
  statusSubscription s' =
    Some {| sub_agentId := id a; sub_closed := false;
            sub_timer := Some (now s + POLL_PERIOD)%Z; sub_inner := None |}.
Proof.
  intros Hp. unfold deliver. rewrite Hp. cbn [alloc].
  match goal with |- context [selectAgent_next ?p ?a ?s0] =>
    destruct (selectAgent_next_spec p a s0) as (Hsel & Hheap & Hmsg & Hsub)
  end.
  cbv zeta. split; [|split]; [|done|done].
  unfold snapshot, selected. rewrite Hsel, Hheap. simpl.
  by rewrite lookup_app_r, Nat.sub_diag.
Qed.

Lemma selectAgent_response_applied_witness :
  let s := run [CallSelectAgent "A"; CallSelectAgent "B";
                Arrive 1 (AgentBody agentB)] init in
  pending s !! 0 = Some (SelectFetch "A") /\
  snapshot (deliver 0 (AgentBody agentA) s) = Some agentA.
Proof.
  intros s. split; [reflexivity|].
  exact (proj1 (selectAgent_response_applied s 0 "A" agentA eq_refl)).
Defined.

(** ** Sending a message *)

Lemma count_http_send f rq s :
  count f (http_send rq s) =
  (count f s + if f (HttpSent (nextReq s) rq (now s)) then 1 else 0)%nat.
Proof. unfold http_send. by rewrite count_emit. Qed.

(** [trim] on white space outside ASCII: a no-break space and an
    ideographic space are removed at both ends and kept inside; a draft of
    white space only trims to the empty string; the letter a with grave
    accent, whose encoding C3 A0 ends in the second byte of the no-break
    space, is kept. *)
Lemma trim_white_space :
  trim (nbsp +:+ " hi" +:+ nbsp +:+ "there " +:+ ideographic_space) =
    "hi" +:+ nbsp +:+ "there" /\
  trim (newMessage blank_session) = EmptyString /\
  trim (String (Ascii.ascii_of_nat 195)
          (String (Ascii.ascii_of_nat 160) EmptyString)) =
    String (Ascii.ascii_of_nat 195)
      (String (Ascii.ascii_of_nat 160) EmptyString).
Proof. vm_compute. done. Qed.

(** C4, as stated, fails.  With agent A selected in status IDLE and the
    draft "hi", [sendMessage()] is not a no-op: it clears the draft, shows
    the message, sets the busy flag and posts the chat request. *)
Lemma sendMessage_idle_posts :
  status <$> snapshot idle_session = Some IDLE /\
  canSendMessage idle_session = false /\
  let s' := sendMessage idle_session in
  s' <> idle_session /\
  pending s' !! 1 = Some (ChatPost "A" "hi") /\
  count is_chat s' = 1 /\ isLoading s' = true.
Proof. vm_compute. repeat split. discriminate. Qed.

(** C4, amended.  The status policy is [canSendMessage()]: true exactly
    when an agent is selected and its status is RUNNING or COMPLETED.  The
    template enforces it by disabling the message input and the send
    button, so through them nothing is sent while it is false.
    [sendMessage()] itself checks only that an agent is selected and that
    the trimmed draft is not empty: when either fails it returns without
    any effect; otherwise it posts the trimmed draft to the selected agent,
    whatever its status, and the request is the only effect: nothing is
    written to the console and no snack bar is opened.  No error is
    signalled in either case. *)
Theorem sendMessage_guard (s : State) :
  canSendMessage s =
    match snapshot s with
    | Some a => status_eqb (status a) RUNNING || status_eqb (status a) COMPLETED
    | None => false
    end /\
  (canSendMessage s = false ->
   button_click s = s /\ input_keyup_enter s = s) /\
  (snapshot s = None \/ trim (newMessage s) = EmptyString ->
   sendMessage s = s) /\
  (forall a, snapshot s = Some a -> trim (newMessage s) <> EmptyString ->
   let s' := sendMessage s in
   pending s' !! nextReq s = Some (ChatPost (id a) (trim (newMessage s))) /\
   count is_chat s' = S (count is_chat s) /\
   log s' =
     log s ++
     [HttpSent (nextReq s) (ChatPost (id a) (trim (newMessage s))) (now s)]).
Proof.
  split; [|split; [|split]].
  - unfold canSendMessage, snapshot. by destruct (selected s) as [[p a]|].
  - unfold button_click, input_keyup_enter. intros ->.
    by rewrite orb_true_r.
  - unfold sendMessage, snapshot.
    destruct (selected s) as [[p a]|]; [|done].
    intros [?| ->]; done.
  - unfold sendMessage, snapshot.
    destruct (selected s) as [[p a]|]; [|done].
    intros a' [= <-] Hne.
    destruct (trim (newMessage s)) eqn:E; [done|]. simpl. split; [|split].
    + apply lookup_insert_eq.
    + rewrite count_http_send. simpl. unfold count. simpl. lia.
    + done.
Qed.

Lemma sendMessage_guard_witness :
  canSendMessage idle_session = false /\
  button_click idle_session = idle_session /\
  (snapshot init = None \/ trim (newMessage init) = EmptyString) /\
  sendMessage init = init /\
  (snapshot blank_session = None \/
   trim (newMessage blank_session) = EmptyString) /\
  sendMessage blank_session = blank_session /\
  snapshot idle_session = Some agentA /\
  trim (newMessage idle_session) <> EmptyString /\
  count is_chat (sendMessage idle_session) = S (count is_chat idle_session).
Proof.
  destruct (sendMessage_guard idle_session) as (_ & Hui & _ & Hsend).
  destruct (sendMessage_guard init) as (_ & _ & Hnoop & _).
  destruct (sendMessage_guard blank_session) as (_ & _ & Hblank & _).
  assert (Hc : canSendMessage idle_session = false) by reflexivity.
  assert (Hn : snapshot init = None \/ trim (newMessage init) = EmptyString)
    by (left; reflexivity).
  assert (Hb : snapshot blank_session = None \/
               trim (newMessage blank_session) = EmptyString)
    by (right; vm_compute; reflexivity).
  assert (Ha : snapshot idle_session = Some agentA) by reflexivity.
  assert (Hd : trim (newMessage idle_session) <> EmptyString)
    by (vm_compute; discriminate).
  split; [exact Hc|]. split; [exact (proj1 (Hui Hc))|].
  split; [exact Hn|]. split; [exact (Hnoop Hn)|].
  split; [exact Hb|]. split; [exact (Hblank Hb)|].
  split; [exact Ha|]. split; [exact Hd|].
  exact (proj1 (proj2 (Hsend agentA Ha Hd))).
Defined.

(** ** Lifecycle commands *)




(** ** The displayed transcript *)

Lemma copies_to_message r c h :
  copies r c (to_message <$> h) = copies_in_history r c h.
Proof.
  unfold copies, copies_in_history.
  induction h as [|e h IH]; [done|].
  rewrite fmap_cons, !filter_cons.
  assert (E : same_message r c (to_message e) = same_entry r c e) by done.
  rewrite E. case_decide; simpl; by rewrite IH.
Qed.

(** C6, as stated, fails.  After the optimistic message "hi" is shown,
    (1) agent B is fetched again by [selectAgent] and the server's
    transcript holds only an earlier assistant message: the display becomes
    that transcript alone and the unconfirmed "hi" is gone;
    (2) a poll instead returns a transcript holding "hi" and the reply
    "hello": the display is not touched and shows only the local "hi". *)
Lemma unconfirmed_message_dropped :
  messages chatting = [{| role := user; content := "hi"; timestamp := 0%Z |}] /\
  (let s := run [CallSelectAgent "B";
                 Arrive 2 (AgentBody
                   (mk_agent "B" RUNNING (Some [entry assistant "earlier" 7%Z])))]
              chatting in
   messages s =
     [{| role := assistant; content := "earlier"; timestamp := 7%Z |}] /\
   copies user "hi" (messages s) = 0) /\
  (let s := run [Clock 5000;
                 Arrive 2 (AgentBody
                   (mk_agent "B" RUNNING
                      (Some [entry user "hi" 1%Z; entry assistant "hello" 2%Z])))]
              chatting in
   snapshot s =
     Some (mk_agent "B" RUNNING
             (Some [entry user "hi" 1%Z; entry assistant "hello" 2%Z])) /\
   messages s = [{| role := user; content := "hi"; timestamp := 0%Z |}]).
Proof. vm_compute. by repeat split. Qed.

(** C6, amended.  There is no merge.  A snapshot received by [selectAgent]
    replaces the displayed transcript by the snapshot's chat history (by the
    empty transcript when it has none): every message is displayed as many
    times as the server's transcript holds it, so a message held once is
    displayed once, and no local message outside that transcript survives.
    A snapshot received by a poll or as the answer to a start or stop
    command leaves the displayed transcript as it is. *)
Theorem transcript_replaced_not_merged (s : State) (rid : nat)
    (rq : Request) (a : Agent) :
  pending s !! rid = Some rq ->
  let s' := deliver rid (AgentBody a) s in
  match rq with
  | SelectFetch _ =>
    messages s' = to_message <$> default [] (history_of a) /\
    forall r c,
      copies r c (messages s') =
      copies_in_history r c (default [] (history_of a))
  | _ => messages s' = messages s
  end.
Proof.
  intros Hp. unfold deliver. rewrite Hp. cbn [alloc]. cbv zeta.
  destruct rq as [|x|x|x|x|x m|x u]; try done.
  - match goal with |- context [selectAgent_next ?p ?a ?s0] =>
      destruct (selectAgent_next_spec p a s0) as (_ & _ & Hmsg & _)
    end.
    split; [done|]. intros r c. rewrite Hmsg. apply copies_to_message.
  - destruct (owns rid _); [|done]. simpl.
    unfold poll_next. simpl. by destruct (selectedAgent s).
Qed.

Lemma transcript_replaced_not_merged_witness :
  let s := selectAgent "B" chatting in
  let a := mk_agent "B" RUNNING (Some [entry user "hi" 1%Z]) in
  pending s !! 2 = Some (SelectFetch "B") /\
  copies user "hi" (messages (deliver 2 (AgentBody a) s)) = 1.
Proof.
  intros s a. split; [reflexivity|].
  destruct (transcript_replaced_not_merged s 2 (SelectFetch "B") a eq_refl)
    as [_ H].
  rewrite H. reflexivity.
Defined.

(** ** Snapshot objects *)

Lemma same_fields_data s s' : same_fields s s' -> same_data s s'.
Proof. intros (? & ? & ? & ? & ? & _). by repeat split. Qed.

Lemma same_data_trans s1 s2 s3 :
  same_data s1 s2 -> same_data s2 s3 -> same_data s1 s3.
Proof.
  intros (? & ? & ? & ? & ?) (? & ? & ? & ? & ?).
  repeat split; congruence.
Qed.

Lemma same_data_selected s s' : same_data s s' -> selected s' = selected s.
Proof. intros (Hs & _ & _ & _ & Hh). unfold selected. by rewrite Hs, Hh. Qed.

Lemma interval_emit_data s : same_data s (interval_emit s).
Proof.
  unfold interval_emit.
  destruct (statusSubscription s) as [sub|]; [|by repeat split].
  destruct (sub_timer sub); [|by repeat split].
  destruct (still_selected _ _); [|by repeat split].
  destruct (abort_inner_fields sub s) as (? & ? & ? & ? & ? & _).
  by repeat split.
Qed.

Lemma fire_data n t s : same_data s (fire n t s).
Proof.
  revert s. induction n as [|n IH]; intros s; simpl; [by repeat split|].
  destruct (due t s) as [tf|]; [|by repeat split].
  eapply same_data_trans; [|apply IH].
  eapply same_data_trans; [|apply interval_emit_data]. by repeat split.
Qed.

Lemma advance_data t s : same_data s (advance t s).
Proof.
  unfold advance.
  destruct (fire_data (emissions_until t s) t s) as (? & ? & ? & ? & ?).
  by repeat split.
Qed.

(** How the arrival of a response changes the heap: not at all, by fresh
    objects, or by a push onto the chat history of the held object. *)
Lemma deliver_heap rid r s :
  heap (deliver rid r s) = heap s \/
  (exists l, heap (deliver rid r s) = heap s ++ l) \/
  (exists p a e, writes_history s (Arrive rid r) = true /\
     heap s !! p = Some a /\
     heap (deliver rid r s) = <[p := push_history e a]> (heap s)).
Proof.
  unfold deliver, writes_history.
  destruct (pending s !! rid) as [rq|]; [|by left].
  destruct rq as [|x|x|x|x|x m|x u], r as [a|l|reply|d]; cbn [alloc]; cbv zeta;
    try (by left).
  - right; left. by exists l.
  - right; left. exists [a].
    match goal with |- context [selectAgent_next ?p ?a ?s0] =>
      destruct (selectAgent_next_spec p a s0) as (_ & -> & _)
    end.
    done.
  - destruct (owns rid _); [|by left].
    right; left. exists [a]. simpl. unfold poll_next. simpl.
    by destruct (selectedAgent s).
  - destruct (owns rid _); by left.
  - right; left. by exists [a].
  - right; left. by exists [a].
  - unfold sendMessage_next. simpl.
    match goal with |- context [selected ?s0] =>
      assert (Hsel : selected s0 = selected s) by done; rewrite Hsel
    end.
    destruct (selected s) as [[p a]|] eqn:E; [|by left].
    destruct (history_of a); [|by left].
    right; right. eexists p, a, _. split; [done|]. split; [|done].
    unfold selected in E. destruct (selectedAgent s); [|done].
    destruct (heap s !! n) eqn:E2; [|done]. by injection E as <- <-.
  - right; left. by exists [a].
Qed.

(** [sendMessage()] leaves the heap alone or pushes onto the chat history
    of one object. *)
Lemma sendMessage_heap s :
  heap (sendMessage s) = heap s \/
  exists p a e, heap s !! p = Some a /\
    heap (sendMessage s) = <[p := push_history e a]> (heap s).
Proof.
  unfold sendMessage. destruct (selected s) as [[q b]|] eqn:E; [|by left].
  destruct (is_empty _); [by left|]. right. eexists q, b, _. split; [|done].
  unfold selected in E. destruct (selectedAgent s); [|done].
  destruct (heap s !! n) eqn:E2; [|done]. by injection E as <- <-.
Qed.

(** The calls and template events that allocate nothing and write into no
    object. *)
Lemma calls_keep_heap s e :
  match e with
  | CallSendMessage | ClickSend | PressEnter | Arrive _ _ | Clock _ => False
  | _ => True
  end ->
  heap (step s e) = heap s.
Proof.
  destruct e; try done; intros _; simpl.
  - unfold ngOnInit. destruct routeId as [x|]; [|done]. by destruct (is_empty x).
  - unfold startAgent. by destruct (selected s) as [[? ?]|].
  - unfold stopAgent. by destruct (selected s) as [[? ?]|].
  - unfold openEditDialog. by destruct (selectedAgent s).
  - by destruct (stopStatusPolling_fields s) as (_ & _ & _ & _ & H & _).
  - unfold select_option. destruct (agents s !! i); [|done].
    case_bool_decide; [done|]. by destruct (heap s !! n).
  - unfold menu_start, startAgent. destruct (selected s) as [[? ?]|]; [|done].
    by destruct (status_eqb _ _).
  - unfold menu_stop, stopAgent. destruct (selected s) as [[? ?]|]; [|done].
    by destruct (status_eqb _ _).
  - unfold menu_edit, openEditDialog. destruct (selected s) as [[? ?]|]; [|done].
    by destruct (selectedAgent s).
  - unfold dialog_afterClosed. destruct (openDialogs s); [done|].
    destruct result; [|done]. simpl.
    match goal with |- context [selected ?s0] =>
      assert (Hsel : selected s0 = selected s) by done; rewrite Hsel
    end.
    destruct (selected s) as [[? b]|]; [|done]. by destruct (is_empty _).
Qed.

Lemma push_history_fields e a :
  with_context (context a) (push_history e a) = a.
Proof. by destruct a. Qed.

(** C8, as stated, fails.  With A held at address 0 and the draft "hi",
    [sendMessage()] keeps the reference but writes into the object: the
    snapshot received without a context now has one, holding "hi". *)
Lemma sendMessage_mutates_snapshot :
  let s := idle_session in
  let s' := sendMessage s in
  selectedAgent s = Some 0 /\ selectedAgent s' = Some 0 /\
  heap s !! 0 = Some agentA /\
  heap s' !! 0 = Some (mk_agent "A" IDLE (Some [entry user "hi" 0%Z])) /\
  heap s' !! 0 <> heap s !! 0.
Proof. vm_compute. repeat split. discriminate. Qed.

(** An event that does not write into the held snapshot leaves every
    object as it is and pushes nothing. *)
Lemma quiet_event_keeps_objects s e p a :
  writes_history s e = false -> heap s !! p = Some a ->
  heap (step s e) !! p = Some a.
Proof.
  intros Hw Hp.
  destruct e as [rt|x| | |x| | | |i| | | | | |res|rid r|t]; try done;
    try (by rewrite calls_keep_heap).
  - destruct (deliver_heap rid r s) as [H|[(l & H)|(q & b & h & Hw' & _)]].
    + simpl. by rewrite H.
    + simpl. rewrite H. rewrite lookup_app_l; [done|].
      by eapply lookup_lt_Some.
    + congruence.
  - cbn [step]. by destruct (advance_data t s) as (_ & _ & _ & _ & ->).
Qed.

Lemma quiet_event_pushes_nothing s e a :
  writes_history s e = false -> pushed_entry s e a = None.
Proof.
  destruct e as [rt|x| | |x| | | |i| | | | | |res|rid r|t]; try done.
  simpl. destruct r as [b|l|reply|d]; try done.
  destruct (pending s !! rid) as [[|x|x|x|x|x m|x u]|]; done.
Qed.

(** The object [a] is found unchanged; what is left to show is that nothing
    had to be pushed onto it. *)
Ltac unchanged a :=
  exists a; split; [done|]; split; [by destruct a|]; split; [done|].

(** What [sendMessage()] does to the object at address [p]: nothing,
    unless it is the held snapshot and the trimmed draft is not empty; then
    the draft is pushed onto its chat history. *)
Lemma sendMessage_object s p a :
  heap s !! p = Some a ->
  exists a', heap (sendMessage s) !! p = Some a' /\
    with_context (context a) a' = a /\
    (selectedAgent s <> Some p -> a' = a) /\
    (selectedAgent s = Some p ->
     match pushed_entry s CallSendMessage a with
     | Some entry =>
       context a' =
         Some {| chat_history :=
                   Some (default [] (history_of a) ++ [entry]) |}
     | None => a' = a
     end).
Proof.
  intros Hp. unfold sendMessage, selected, pushed_entry.
  destruct (selectedAgent s) as [q|] eqn:Es; [|by unchanged a].
  destruct (heap s !! q) as [b|] eqn:Eq.
  - destruct (is_empty (trim (newMessage s))) eqn:Ee; [by unchanged a|].
    cbv zeta. cbn [heap http_send emit set_nextReq set_pending set_heap].
    destruct (decide (q = p)) as [->|Hne].
    + assert (b = a) as -> by congruence.
      eexists. split.
      { apply list_lookup_insert_eq. by eapply lookup_lt_Some. }
      split; [apply push_history_fields|]. split; [done|]. intros _.
      unfold push_history. simpl. by destruct (history_of a).
    + exists a. rewrite list_lookup_insert_ne by done.
      split; [done|]. split; [by destruct a|]. split; [done|].
      intros [= ?]. done.
  - unchanged a. intros [= ->]. congruence.
Qed.

(** The same for the arrival of a chat reply. *)
Lemma reply_object s rid x m reply p a :
  pending s !! rid = Some (ChatPost x m) ->
  heap s !! p = Some a ->
  exists a', heap (deliver rid (ChatBody reply) s) !! p = Some a' /\
    with_context (context a) a' = a /\
    (selectedAgent s <> Some p -> a' = a) /\
    (selectedAgent s = Some p ->
     match pushed_entry s (Arrive rid (ChatBody reply)) a with
     | Some entry =>
       context a' =
         Some {| chat_history :=
                   Some (default [] (history_of a) ++ [entry]) |}
     | None => a' = a
     end).
Proof.
  intros Hr Hp. unfold deliver, pushed_entry. rewrite Hr.
  unfold sendMessage_next, selected. cbv zeta.
  cbn [selectedAgent heap set_messages set_pending set_isLoading].
  destruct (selectedAgent s) as [q|] eqn:Es; [|by unchanged a].
  destruct (heap s !! q) as [b|] eqn:Eq.
  - destruct (decide (q = p)) as [->|Hne].
    + assert (b = a) as -> by congruence.
      destruct (history_of a) as [h|] eqn:Eh; [|by unchanged a].
      cbn [heap set_heap set_isLoading].
      eexists. split.
      { apply list_lookup_insert_eq. by eapply lookup_lt_Some. }
      split; [apply push_history_fields|]. split; [done|]. intros _.
      unfold push_history. simpl. by rewrite Eh.
    + destruct (history_of b).
      * cbn [heap set_heap set_isLoading set_messages set_pending].
        exists a. rewrite list_lookup_insert_ne by done.
        split; [done|]. split; [by destruct a|]. split; [done|].
        intros [= ?]. done.
      * unchanged a. intros [= ?]. done.
  - unchanged a. intros [= ->]. congruence.
Qed.

(** C8, amended.  A snapshot received by selection, by a poll or as the
    answer to a command is a new object, and the reference is redirected to
    it: under every event other than the [sendMessage()] call and the
    arrival of its reply, every object received so far stays as it was.
    Those two handlers write in place, into the held snapshot only and only
    into its [context.chat_history]: the context and the history are
    created when they are missing and the user message is pushed, and the
    reply is pushed when a chat history exists.  Every other field of every
    object is never changed. *)
Theorem snapshot_fields_never_mutated (s : State) (e : Event)
    (p : nat) (a : Agent) :
  heap s !! p = Some a ->
  exists a', heap (step s e) !! p = Some a' /\
    with_context (context a) a' = a /\
    (writes_history s e = false -> a' = a) /\
    (selectedAgent s <> Some p -> a' = a) /\
    (selectedAgent s = Some p ->
     match pushed_entry s e a with
     | Some entry =>
       context a' =
         Some {| chat_history :=
                   Some (default [] (history_of a) ++ [entry]) |}
     | None => a' = a
     end).
Proof.
  intros Hp. destruct (writes_history s e) eqn:Hw.
  2:{ exists a. split; [by apply quiet_event_keeps_objects|].
      split; [by destruct a|]. split; [done|]. split; [done|].
      intros _. by rewrite quiet_event_pushes_nothing. }
  destruct e as [rt|x| | |x| | | |i| | | | | |res|rid r|t]; try done.
  - destruct (sendMessage_object s p a Hp) as (a' & H1 & H2 & H3 & H4).
    exists a'. split; [done|]. split; [done|]. split; [done|]. by split.
  - cbn [step]. unfold button_click.
    destruct (sendMessage_object s p a Hp) as (a' & H1 & H2 & H3 & H4).
    unfold pushed_entry in *.
    destruct (is_empty (trim (newMessage s))) eqn:Ee; simpl.
    { exists a. split; [done|]. split; [by destruct a|]. split; [done|].
      split; [done|]. intros _. by destruct (canSendMessage s). }
    destruct (canSendMessage s); simpl.
    + exists a'. split; [done|]. split; [done|]. split; [done|]. by split.
    + exists a. split; [done|]. split; [by destruct a|]. by repeat split.
  - cbn [step]. unfold input_keyup_enter.
    destruct (sendMessage_object s p a Hp) as (a' & H1 & H2 & H3 & H4).
    unfold pushed_entry in *.
    destruct (canSendMessage s).
    + exists a'. split; [done|]. split; [done|]. split; [done|]. by split.
    + exists a. split; [done|]. split; [by destruct a|]. by repeat split.
  - simpl in Hw. destruct r as [b|l|reply|d]; try done.
    destruct (pending s !! rid) as [[|x|x|x|x|x m|x u]|] eqn:Er; try done.
    destruct (reply_object s rid x m reply p a Er Hp)
      as (a' & H1 & H2 & H3 & H4).
    exists a'. split; [done|]. split; [done|]. split; [done|]. by split.
Qed.

Lemma snapshot_fields_never_mutated_witness :
  let s := idle_session in
  let s2 := selectAgent "B" idle_session in
  heap s !! 0 = Some agentA /\
  (exists a', heap (step s CallSendMessage) !! 0 = Some a' /\
     with_context None a' = agentA /\
     context a' = Some {| chat_history := Some [entry user "hi" 0%Z] |}) /\
  heap s2 !! 0 = Some agentA /\
  heap (step s2 (Arrive 1 (AgentBody agentB))) !! 0 = Some agentA.
Proof.
  intros s s2.
  assert (H0 : heap s !! 0 = Some agentA) by reflexivity.
  assert (H2 : heap s2 !! 0 = Some agentA) by reflexivity.
  assert (Hs : selectedAgent s = Some 0) by reflexivity.
  split; [exact H0|]. split; [|split; [exact H2|]].
  - destruct (snapshot_fields_never_mutated s CallSendMessage 0 agentA H0)
      as (a' & Ha' & Hf & _ & _ & Hpush).
    exists a'. split; [exact Ha'|]. split; [exact Hf|].
    exact (Hpush Hs).
  - destruct (snapshot_fields_never_mutated s2 (Arrive 1 (AgentBody agentB))
                0 agentA H2) as (a' & Ha' & _ & Heq & _).
    rewrite Ha', (Heq eq_refl). reflexivity.
Defined.

(** ** Request identifiers are never reused *)

Lemma evolves_refl s : evolves s s.
Proof. split; [lia|]. intros; by left. Qed.

Lemma evolves_trans s1 s2 s3 : evolves s1 s2 -> evolves s2 s3 -> evolves s1 s3.
Proof.
  intros [H1 H1'] [H2 H2']. split; [lia|].
  intros r rq Hr. destruct (H2' r rq Hr) as [Hr2|?]; [|right; lia].
  destruct (H1' r rq Hr2) as [?|?]; [by left|right; lia].
Qed.

(** Same request table and counter: nothing sent, nothing answered. *)
Lemma evolves_same s s' :
  pending s' = pending s -> nextReq s' = nextReq s -> evolves s s'.
Proof. intros Hp Hn. split; [lia|]. intros r rq. rewrite Hp. by left. Qed.

Lemma evolves_http_send rq s : evolves s (http_send rq s).
Proof.
  split; [simpl; lia|]. intros r rq'. simpl.
  destruct (decide (nextReq s = r)) as [<-|Hne].
  - right. lia.
  - rewrite lookup_insert_ne by done. by left.
Qed.

Lemma evolves_delete rid s : evolves s (set_pending (delete rid (pending s)) s).
Proof.
  split; [simpl; lia|]. intros r rq. simpl.
  intros [_ H]%lookup_delete_Some. by left.
Qed.

Lemma evolves_http_abort rid s : evolves s (http_abort rid s).
Proof.
  unfold http_abort. destruct (pending s !! rid); [|apply evolves_refl].
  eapply evolves_trans; [apply evolves_delete|]. by apply evolves_same.
Qed.

Lemma evolves_abort_inner sub s : evolves s (abort_inner sub s).
Proof.
  unfold abort_inner.
  destruct (sub_inner sub); [apply evolves_http_abort|apply evolves_refl].
Qed.

Lemma evolves_unsubscribe sub s : evolves s (unsubscribe sub s).
Proof.
  unfold unsubscribe. destruct (sub_closed sub).
  - by apply evolves_same.
  - eapply evolves_trans; [|apply evolves_abort_inner]. by apply evolves_same.
Qed.

Lemma evolves_stopStatusPolling s : evolves s (stopStatusPolling s).
Proof.
  unfold stopStatusPolling.
  destruct (statusSubscription s) as [sub|]; [|apply evolves_refl].
  eapply evolves_trans; [apply evolves_unsubscribe|]. by apply evolves_same.
Qed.

Lemma evolves_startStatusPolling x s : evolves s (startStatusPolling x s).
Proof.
  unfold startStatusPolling.
  eapply evolves_trans; [apply evolves_stopStatusPolling|]. by apply evolves_same.
Qed.

Lemma evolves_selectAgent_next p a s : evolves s (selectAgent_next p a s).
Proof.
  unfold selectAgent_next.
  eapply evolves_trans; [|apply evolves_startStatusPolling].
  apply evolves_same; by destruct (history_of a).
Qed.

Lemma evolves_interval_emit s : evolves s (interval_emit s).
Proof.
  unfold interval_emit.
  destruct (statusSubscription s) as [sub|]; [|apply evolves_refl].
  destruct (sub_timer sub); [|apply evolves_refl].
  destruct (still_selected _ _); [|by apply evolves_same].
  eapply evolves_trans; [apply evolves_abort_inner|].
  eapply evolves_trans; [apply evolves_http_send|]. by apply evolves_same.
Qed.

Lemma evolves_fire n t s : evolves s (fire n t s).
Proof.
  revert s. induction n as [|n IH]; intros s; simpl; [apply evolves_refl|].
  destruct (due t s); [|apply evolves_refl].
  eapply evolves_trans; [|apply IH].
  eapply evolves_trans; [|apply evolves_interval_emit]. by apply evolves_same.
Qed.

Lemma evolves_advance t s : evolves s (advance t s).
Proof.
  unfold advance. eapply evolves_trans; [apply evolves_fire|].
  by apply evolves_same.
Qed.

Lemma evolves_sendMessage s : evolves s (sendMessage s).
Proof.
  unfold sendMessage. destruct (selected s) as [[p a]|]; [|apply evolves_refl].
  destruct (is_empty _); [apply evolves_refl|].
  eapply evolves_trans; [|apply evolves_http_send]. by apply evolves_same.
Qed.

Lemma evolves_sendMessage_next reply s : evolves s (sendMessage_next reply s).
Proof.
  unfold sendMessage_next. apply evolves_same; simpl.
  - destruct (selected _) as [[p a]|]; [|done]. by destruct (history_of a).
  - destruct (selected _) as [[p a]|]; [|done]. by destruct (history_of a).
Qed.

Lemma evolves_deliver rid r s : evolves s (deliver rid r s).
Proof.
  unfold deliver. destruct (pending s !! rid) as [rq|]; [|apply evolves_refl].
  pose proof (evolves_delete rid s) as Hd.
  destruct rq as [|x|x|x|x|x m|x u], r as [a|l|reply|d]; cbn [alloc]; cbv zeta;
    try apply evolves_refl;
    (eapply evolves_trans; [exact Hd|]);
    try (by apply evolves_same).
  - eapply evolves_trans; [|apply evolves_selectAgent_next]. by apply evolves_same.
  - destruct (owns rid _); [|apply evolves_refl].
    apply evolves_same; simpl; unfold poll_next; simpl;
      by destruct (selectedAgent s).
  - destruct (owns rid _); [|apply evolves_refl]. by apply evolves_same.
  - apply evolves_sendMessage_next.
Qed.

Lemma evolves_startAgent s : evolves s (startAgent s).
Proof.
  unfold startAgent. destruct (selected s) as [[? ?]|];
    [apply evolves_http_send|apply evolves_refl].
Qed.

Lemma evolves_stopAgent s : evolves s (stopAgent s).
Proof.
  unfold stopAgent. destruct (selected s) as [[? ?]|];
    [apply evolves_http_send|apply evolves_refl].
Qed.

Lemma evolves_step s e : evolves s (step s e).
Proof.
  destruct e as [rt|x| | |x| | | |i| | | | | |res|rid r|t]; simpl.
  - unfold ngOnInit, loadAgents.
    destruct rt as [x|]; [|apply evolves_http_send].
    destruct (is_empty x); [apply evolves_http_send|].
    eapply evolves_trans; apply evolves_http_send.
  - apply evolves_http_send.
  - apply evolves_startAgent.
  - apply evolves_stopAgent.
  - by apply evolves_same.
  - apply evolves_sendMessage.
  - unfold openEditDialog. destruct (selectedAgent s); [|apply evolves_refl].
    by apply evolves_same.
  - apply evolves_stopStatusPolling.
  - unfold select_option. destruct (agents s !! i); [|apply evolves_refl].
    case_bool_decide; [apply evolves_refl|].
    destruct (heap s !! n); [|apply evolves_refl].
    eapply evolves_trans; [|apply evolves_http_send]. by apply evolves_same.
  - unfold menu_start. destruct (selected s) as [[? ?]|]; [|apply evolves_refl].
    destruct (status_eqb _ _); [apply evolves_refl|apply evolves_startAgent].
  - unfold menu_stop. destruct (selected s) as [[? ?]|]; [|apply evolves_refl].
    destruct (status_eqb _ _); [apply evolves_stopAgent|apply evolves_refl].
  - unfold menu_edit, openEditDialog.
    destruct (selected s) as [[? ?]|]; [|apply evolves_refl].
    destruct (selectedAgent s); [|apply evolves_refl]. by apply evolves_same.
  - unfold button_click. destruct (_ || _); [apply evolves_refl|].
    apply evolves_sendMessage.
  - unfold input_keyup_enter. destruct (canSendMessage s); [|apply evolves_refl].
    apply evolves_sendMessage.
  - unfold dialog_afterClosed. destruct (openDialogs s); [apply evolves_refl|].
    destruct res as [u|]; [|by apply evolves_same]. cbv zeta.
    destruct (selected _) as [[? b]|]; [|by apply evolves_same].
    destruct (is_empty _); [by apply evolves_same|].
    eapply evolves_trans; [|apply evolves_http_send]. by apply evolves_same.
  - apply evolves_deliver.
  - apply evolves_advance.
Qed.

Lemma evolves_run es s : evolves s (run es s).
Proof.
  revert s. induction es as [|e es IH]; intros s; [apply evolves_refl|].
  eapply evolves_trans; [apply evolves_step|apply IH].
Qed.

(** ** Reachable states and their invariant *)

Lemma reachable_run es s : reachable s -> reachable (run es s).
Proof.
  revert s. induction es as [|e es IH]; intros s Hs; [done|].
  apply IH. by constructor.
Qed.

Lemma owns_Some rid s sub :
  owns rid s = Some sub <->
  statusSubscription s = Some sub /\ sub_inner sub = Some rid /\
  sub_closed sub = false.
Proof.
  unfold owns. split.
  - destruct (statusSubscription s) as [sub'|]; [|done].
    destruct (sub_inner sub') as [r|] eqn:Ei; [|done].
    destruct (Nat.eqb_spec r rid) as [->|Hne];
      destruct (sub_closed sub') eqn:Ec; simpl; try done.
    by intros [= <-].
  - intros (-> & -> & ->). by rewrite Nat.eqb_refl.
Qed.

Lemma wf_same_parts s s' :
  statusSubscription s' = statusSubscription s -> pending s' = pending s ->
  nextReq s' = nextReq s -> wf s -> wf s'.
Proof. unfold wf. by intros -> -> ->. Qed.

Lemma wf_delete rid s : wf s -> wf (set_pending (delete rid (pending s)) s).
Proof.
  intros (H1 & H2 & H3). split; [done|]. split; simpl.
  - intros r rq [_ Hr]%lookup_delete_Some. by apply H2.
  - intros r rq [_ Hr]%lookup_delete_Some. by eapply H3.
Qed.

Lemma wf_http_send rq s :
  is_poll_request rq = false -> wf s -> wf (http_send rq s).
Proof.
  intros Hrq (H1 & H2 & H3). split; [done|]. split; simpl.
  - intros r rq' [[<- <-]|[Hne Hr]]%lookup_insert_Some Hp; [congruence|].
    by eapply H2.
  - intros r rq' [[<- <-]|[Hne Hr]]%lookup_insert_Some; [lia|].
    apply H3 in Hr. lia.
Qed.

Lemma pending_http_abort rid s :
  pending (http_abort rid s) = delete rid (pending s).
Proof.
  unfold http_abort. destruct (pending s !! rid) eqn:E; [done|].
  by rewrite delete_id.
Qed.

(** After [stopStatusPolling] no poll request is in flight. *)
Lemma wf_stopStatusPolling s :
  wf s ->
  wf (stopStatusPolling s) /\
  forall rid rq, pending (stopStatusPolling s) !! rid = Some rq ->
    is_poll_request rq = false.
Proof.
  intros (H1 & H2 & H3).
  assert (Hno : forall rid rq, pending (stopStatusPolling s) !! rid = Some rq ->
            is_poll_request rq = false).
  { intros rid rq. unfold stopStatusPolling.
    destruct (statusSubscription s) as [sub|] eqn:Es.
    - unfold unsubscribe. simpl. destruct (sub_closed sub) eqn:Ec; simpl.
      + intros Hr. destruct (is_poll_request rq) eqn:Ep; [|done].
        destruct (H2 rid rq Hr Ep) as (sub' & [= <-] & _ & ?). congruence.
      + unfold abort_inner. destruct (sub_inner sub) as [r|] eqn:Ei.
        * rewrite pending_http_abort. simpl.
          intros [Hne Hr]%lookup_delete_Some.
          destruct (is_poll_request rq) eqn:Ep; [|done].
          destruct (H2 rid rq Hr Ep) as (sub' & [= <-] & ? & ?). congruence.
        * simpl. intros Hr. destruct (is_poll_request rq) eqn:Ep; [|done].
          destruct (H2 rid rq Hr Ep) as (sub' & [= <-] & ? & ?). congruence.
    - intros Hr. destruct (is_poll_request rq) eqn:Ep; [|done].
      destruct (H2 rid rq Hr Ep) as (sub' & [=] & _). }
  split; [|done]. split; [|split].
  - by rewrite stopStatusPolling_sub.
  - intros rid rq Hr Hp. apply Hno in Hr. congruence.
  - intros rid rq Hr.
    destruct (evolves_stopStatusPolling s) as [_ He].
    destruct (stopStatusPolling_fields s) as (_ & _ & _ & _ & _ & Hn & _).
    destruct (He rid rq Hr) as [Hr'|?]; [|lia]. rewrite Hn. by eapply H3.
Qed.

Lemma wf_startStatusPolling x s : wf s -> wf (startStatusPolling x s).
Proof.
  intros Hwf. destruct (wf_stopStatusPolling s Hwf) as [(_ & _ & H3) Hno].
  unfold startStatusPolling. split; [|split]; simpl.
  - by intros sub [= <-].
  - intros rid rq Hr Hp. apply Hno in Hr. congruence.
  - done.
Qed.

Lemma wf_interval_emit s : wf s -> wf (interval_emit s).
Proof.
  intros Hwf. pose proof Hwf as (H1 & H2 & H3). unfold interval_emit.
  destruct (statusSubscription s) as [sub|] eqn:Es; [|done].
  destruct (sub_timer sub) as [t|] eqn:Et; [|done].
  assert (Hopen : sub_closed sub = false).
  { destruct (sub_closed sub) eqn:Ec; [|done].
    specialize (H1 sub eq_refl Ec). congruence. }
  destruct (still_selected _ _).
  - assert (Hp : pending (abort_inner sub s) =
                 match sub_inner sub with
                 | Some r => delete r (pending s)
                 | None => pending s
                 end).
    { unfold abort_inner. destruct (sub_inner sub); [|done].
      apply pending_http_abort. }
    destruct (abort_inner_fields sub s) as (_ & _ & _ & _ & _ & Hn & _).
    split; [|split]; simpl.
    + intros sub' [= <-]. simpl. congruence.
    + intros rid rq. rewrite Hn.
      intros [[<- <-]|[Hne Hr]]%lookup_insert_Some Hpoll.
      { eexists. split; [done|]. by simpl. }
      exfalso. rewrite Hp in Hr. destruct (sub_inner sub) as [r|] eqn:Ei.
      * apply lookup_delete_Some in Hr as [Hne' Hr].
        destruct (H2 rid rq Hr Hpoll) as (sub' & [= <-] & ? & ?). congruence.
      * destruct (H2 rid rq Hr Hpoll) as (sub' & [= <-] & ? & ?). congruence.
    + intros rid rq. rewrite Hn.
      intros [[<- <-]|[Hne Hr]]%lookup_insert_Some; [lia|].
      rewrite Hp in Hr. destruct (sub_inner sub) as [r|].
      * apply lookup_delete_Some in Hr as [_ Hr]. apply H3 in Hr. lia.
      * apply H3 in Hr. lia.
  - split; [|split]; simpl; [by intros sub' [= <-]| |done].
    intros rid rq Hr Hpoll.
    destruct (H2 rid rq Hr Hpoll) as (sub' & [= <-] & Hi & Hc).
    eexists. split; [done|]. simpl. by rewrite Hi.
Qed.

Lemma wf_fire n t s : wf s -> wf (fire n t s).
Proof.
  revert s. induction n as [|n IH]; intros s Hwf; simpl; [done|].
  destruct (due t s); [|done].
  apply IH, wf_interval_emit. by eapply wf_same_parts; [..|exact Hwf].
Qed.

Lemma wf_advance t s : wf s -> wf (advance t s).
Proof.
  intros Hwf. unfold advance.
  by eapply wf_same_parts; [..|apply (wf_fire (emissions_until t s) t s Hwf)].
Qed.

Lemma sendMessage_next_parts reply s :
  statusSubscription (sendMessage_next reply s) = statusSubscription s /\
  pending (sendMessage_next reply s) = pending s /\
  nextReq (sendMessage_next reply s) = nextReq s.
Proof.
  unfold sendMessage_next. simpl.
  destruct (selected _) as [[p a]|]; [|done]. by destruct (history_of a).
Qed.

Lemma poll_next_parts p s :
  statusSubscription (poll_next p s) = statusSubscription s /\
  pending (poll_next p s) = pending s /\
  nextReq (poll_next p s) = nextReq s.
Proof. unfold poll_next. by destruct (selectedAgent s). Qed.

Lemma wf_deliver rid r s : wf s -> wf (deliver rid r s).
Proof.
  intros Hwf. unfold deliver.
  destruct (pending s !! rid) as [rq|] eqn:Erq; [|done].
  pose proof (wf_delete rid s Hwf) as Hd.
  set (s' := set_pending (delete rid (pending s)) s) in *.
  destruct rq as [|x|x|x|x|x m|x u], r as [a|l|reply|d]; cbn [alloc]; cbv zeta;
    try done;
    try (by eapply wf_same_parts; [..|exact Hd]).
  - unfold selectAgent_next. apply wf_startStatusPolling.
    eapply wf_same_parts; [..|exact Hd]; by destruct (history_of a).
  - destruct (owns rid s') as [sub|] eqn:Eo; [|done].
    apply owns_Some in Eo as (Es & Ei & Ec).
    destruct Hd as (H1 & H2 & H3).
    destruct (poll_next_parts (length (heap s')) (set_heap (heap s' ++ [a]) s'))
      as (_ & Hp & Hn).
    split; [|split]; cbn [statusSubscription pending nextReq set_statusSubscription].
    + intros sub' [= <-]. simpl. destruct (sub_timer sub); [|done]. congruence.
    + rewrite Hp. intros r rq Hr Hpoll.
      destruct (H2 r rq Hr Hpoll) as (sub' & Es' & Hi' & _).
      assert (r = rid) as -> by congruence.
      simpl in Hr. by rewrite lookup_delete_eq in Hr.
    + rewrite Hp, Hn. exact H3.
  - destruct (owns rid s') as [sub|] eqn:Eo; [|done].
    apply owns_Some in Eo as (Es & Ei & Ec).
    destruct Hd as (H1 & H2 & H3).
    split; [|split]; simpl.
    + by intros sub' [= <-].
    + intros r rq Hr Hpoll.
      destruct (H2 r rq Hr Hpoll) as (sub' & Es' & Hi' & _).
      assert (r = rid) as -> by congruence.
      simpl in Hr. by rewrite lookup_delete_eq in Hr.
    + exact H3.
  - destruct (sendMessage_next_parts reply s') as (? & ? & ?).
    by eapply wf_same_parts; [..|exact Hd].
Qed.

Lemma wf_startAgent s : wf s -> wf (startAgent s).
Proof.
  intros Hwf. unfold startAgent. destruct (selected s) as [[? ?]|]; [|done].
  by apply wf_http_send.
Qed.

Lemma wf_stopAgent s : wf s -> wf (stopAgent s).
Proof.
  intros Hwf. unfold stopAgent. destruct (selected s) as [[? ?]|]; [|done].
  by apply wf_http_send.
Qed.

Lemma wf_sendMessage s : wf s -> wf (sendMessage s).
Proof.
  intros Hwf. unfold sendMessage. destruct (selected s) as [[p a]|]; [|done].
  destruct (is_empty _); [done|].
  apply wf_http_send; [done|]. by eapply wf_same_parts; [..|exact Hwf].
Qed.

Lemma wf_step s e : wf s -> wf (step s e).
Proof.
  intros Hwf. destruct e as [rt|x| | |x| | | |i| | | | | |res|rid r|t]; simpl.
  - unfold ngOnInit, loadAgents.
    destruct rt as [x|]; [|by apply wf_http_send].
    destruct (is_empty x); [by apply wf_http_send|].
    apply wf_http_send; [done|]. by apply wf_http_send.
  - by apply wf_http_send.
  - by apply wf_startAgent.
  - by apply wf_stopAgent.
  - by eapply wf_same_parts; [..|exact Hwf].
  - by apply wf_sendMessage.
  - unfold openEditDialog. destruct (selectedAgent s); [|done].
    by eapply wf_same_parts; [..|exact Hwf].
  - by apply wf_stopStatusPolling.
  - unfold select_option. destruct (agents s !! i); [|done].
    case_bool_decide; [done|]. destruct (heap s !! n); [|done].
    apply wf_http_send; [done|]. by eapply wf_same_parts; [..|exact Hwf].
  - unfold menu_start. destruct (selected s) as [[? ?]|]; [|done].
    destruct (status_eqb _ _); [done|by apply wf_startAgent].
  - unfold menu_stop. destruct (selected s) as [[? ?]|]; [|done].
    destruct (status_eqb _ _); [by apply wf_stopAgent|done].
  - unfold menu_edit, openEditDialog.
    destruct (selected s) as [[? ?]|]; [|done].
    destruct (selectedAgent s); [|done].
    by eapply wf_same_parts; [..|exact Hwf].
  - unfold button_click. destruct (_ || _); [done|]. by apply wf_sendMessage.
  - unfold input_keyup_enter. destruct (canSendMessage s); [|done].
    by apply wf_sendMessage.
  - unfold dialog_afterClosed. destruct (openDialogs s) as [|k]; [done|].
    assert (Hwf' : wf (set_openDialogs k s))
      by (by eapply wf_same_parts; [..|exact Hwf]).
    destruct res as [u|]; [|done]. cbv zeta.
    destruct (selected _) as [[? b]|].
    + destruct (is_empty _).
      * by eapply wf_same_parts; [..|exact Hwf].
      * by apply wf_http_send.
    + by eapply wf_same_parts; [..|exact Hwf].
  - by apply wf_deliver.
  - by apply wf_advance.
Qed.

Lemma reachable_wf s : reachable s -> wf s.
Proof.
  induction 1 as [|s e _ IH]; [|by apply wf_step].
  by split; [|split].
Qed.

(** ** Stale poll results *)

Lemma no_poll_after_selectAgent_next p a s :
  wf s ->
  forall rid rq, pending (selectAgent_next p a s) !! rid = Some rq ->
    is_poll_request rq = false.
Proof.
  intros Hwf rid rq. unfold selectAgent_next, startStatusPolling.
  cbn [pending set_statusSubscription].
  apply wf_stopStatusPolling.
  eapply wf_same_parts; [..|exact Hwf]; by destruct (history_of a).
Qed.

(** A request that is not in flight and whose identifier is already used
    never comes back. *)
Lemma answered_request_stays_answered es s rid :
  rid < nextReq s -> pending s !! rid = None ->
  pending (run es s) !! rid = None.
Proof.
  intros Hlt Hnone. destruct (evolves_run es s) as [_ He].
  destruct (pending (run es s) !! rid) as [rq|] eqn:E; [|done].
  destruct (He rid rq E) as [?|?]; [congruence|lia].
Qed.

(** C2, as stated, fails.
    (1) In [picked_X] the user chooses Y in the selector: the binding writes
    Y into [selectedAgent], so the selection has changed from X to Y, and
    [selectAgent] starts fetching Y (request 3).  The poll for X is still
    subscribed and its handler only checks that some agent is selected:
    when the poll resolves before the fetch, X's stale snapshot is applied
    over Y.
    (2) In [polling_X] the late answer to W's start command arrives and
    replaces the held X by W; the poll for X then resolves and X's snapshot
    is applied over W. *)
Lemma stale_poll_applied :
  (id <$> snapshot picked_X = Some "X" /\
   pending picked_X !! 2 = Some (PollFetch "X") /\
   let s1 := step picked_X (PickAgent 1) in
   id <$> snapshot s1 = Some "Y" /\
   pending s1 !! 3 = Some (SelectFetch "Y") /\
   let s2 := deliver 2 (AgentBody (mk_agent "X" COMPLETED None)) s1 in
   snapshot s2 = Some (mk_agent "X" COMPLETED None)) /\
  (id <$> snapshot polling_X = Some "X" /\
   pending polling_X !! 3 = Some (PollFetch "X") /\
   let s1 := deliver 1 (AgentBody (mk_agent "W" RUNNING None)) polling_X in
   id <$> snapshot s1 = Some "W" /\
   let s2 := deliver 3 (AgentBody (mk_agent "X" COMPLETED None)) s1 in
   snapshot s2 = Some (mk_agent "X" COMPLETED None)).
Proof. vm_compute. by repeat split. Qed.

(** C2, amended.  Suppression is by unsubscription, not by a check on
    arrival.  In every reachable state, when the selection changes through
    a successful [selectAgent] response, a poll in flight at that moment is
    aborted with its subscription: whatever happens afterwards, it is never
    in flight again and the arrival of its result changes nothing.  Besides,
    no poll result ever changes the displayed transcript.  (A change of
    [selectedAgent] by another path, the selector's binding or a late
    answer to a command, leaves the poll subscribed, and its handler
    applies the result whenever some agent is selected.) *)
Theorem stale_poll_cancelled_by_selection (s : State) (rid prid : nat)
    (agentId x : string) (a : Agent) :
  reachable s ->
  pending s !! rid = Some (SelectFetch agentId) ->
  pending s !! prid = Some (PollFetch x) ->
  let s' := deliver rid (AgentBody a) s in
  (forall es r,
     pending (run es s') !! prid = None /\
     deliver prid r (run es s') = run es s') /\
  (forall r, messages (deliver prid r s) = messages s).
Proof.
  intros Hreach Hrid Hprid s'. pose proof (reachable_wf s Hreach) as Hwf.
  assert (Hlt : prid < nextReq s) by (destruct Hwf as (_ & _ & H3); eauto).
  assert (Hnone : pending s' !! prid = None /\ prid < nextReq s').
  { destruct (evolves_deliver rid (AgentBody a) s) as [Hn He]. fold s' in Hn, He.
    split; [|lia].
    destruct (pending s' !! prid) as [rq|] eqn:E; [|done].
    assert (Hnp : is_poll_request rq = false).
    { revert E. subst s'. unfold deliver. rewrite Hrid. cbn [alloc]. cbv zeta.
      apply no_poll_after_selectAgent_next.
      eapply wf_same_parts; [..|exact (wf_delete rid s Hwf)]; done. }
    destruct (He prid rq E) as [E'|?]; [|lia].
    rewrite Hprid in E'. by injection E' as <-. }
  destruct Hnone as [Hnone Hlt']. split.
  - intros es r.
    pose proof (answered_request_stays_answered es s' prid Hlt' Hnone) as Hp.
    split; [done|]. unfold deliver. by rewrite Hp.
  - intros r. unfold deliver. rewrite Hprid.
    destruct r as [b|l|reply|d]; cbn [alloc]; cbv zeta; try done.
    + destruct (owns prid _); [|done]. simpl. unfold poll_next. simpl.
      by destruct (selectedAgent s).
    + by destruct (owns prid _).
Qed.

Lemma reachable_reselecting : reachable reselecting.
Proof.
  apply (reachable_step polling_X (CallSelectAgent "W")).
  apply (reachable_run
           [CallSelectAgent "W"; Arrive 0 (AgentBody agentW); CallStartAgent;
            CallSelectAgent "X"; Arrive 2 (AgentBody agentX); Clock 5000]
           init).
  constructor.
Qed.

Lemma stale_poll_cancelled_by_selection_witness :
  reachable reselecting /\
  pending reselecting !! 4 = Some (SelectFetch "W") /\
  pending reselecting !! 3 = Some (PollFetch "X") /\
  deliver 3 (AgentBody agentX)
    (run [Clock 20000] (deliver 4 (AgentBody agentW) reselecting)) =
  run [Clock 20000] (deliver 4 (AgentBody agentW) reselecting).
Proof.
  assert (H4 : pending reselecting !! 4 = Some (SelectFetch "W"))
    by (vm_compute; reflexivity).
  assert (H3 : pending reselecting !! 3 = Some (PollFetch "X"))
    by (vm_compute; reflexivity).
  split; [exact reachable_reselecting|]. split; [exact H4|]. split; [exact H3|].
  destruct (stale_poll_cancelled_by_selection reselecting 4 3 "W" "X" agentW
                         reachable_reselecting H4 H3) as [H _].
  destruct (H [Clock 20000] (AgentBody agentX)) as [_ H'].
  exact H'.
Defined.

(** ** Poll failures *)

Lemma poll_times_http_abort rid s : poll_times (http_abort rid s) = poll_times s.
Proof.
  unfold http_abort. destruct (pending s !! rid); [|done].
  rewrite poll_times_emit. simpl. by rewrite app_nil_r.
Qed.

Lemma poll_times_abort_inner sub s :
  poll_times (abort_inner sub s) = poll_times s.
Proof.
  unfold abort_inner. destruct (sub_inner sub); [|done].
  apply poll_times_http_abort.
Qed.

Lemma poll_times_stopStatusPolling s :
  poll_times (stopStatusPolling s) = poll_times s.
Proof.
  unfold stopStatusPolling. destruct (statusSubscription s) as [sub|]; [|done].
  change (poll_times (unsubscribe sub s) = poll_times s).
  unfold unsubscribe. destruct (sub_closed sub).
  - rewrite poll_times_emit. simpl. by rewrite app_nil_r.
  - rewrite poll_times_abort_inner, poll_times_emit. simpl. by rewrite app_nil_r.
Qed.

Lemma poll_times_http_send rq s :
  is_poll_request rq = false -> poll_times (http_send rq s) = poll_times s.
Proof.
  intros Hrq. unfold http_send. rewrite poll_times_emit.
  destruct rq; try done; simpl; by rewrite app_nil_r.
Qed.

Lemma no_timer_due t s : no_timer s -> due t s = None.
Proof.
  intros H. unfold due. destruct (statusSubscription s) as [sub|] eqn:E; [|done].
  by rewrite (H sub E).
Qed.

Lemma no_timer_advance t s :
  no_timer s -> advance t s = set_now (Z.max (now s) t) s.
Proof.
  intros H. unfold advance, emissions_until. by rewrite (no_timer_due t s H).
Qed.

Lemma quiet_refl s : quiet s s.
Proof. done. Qed.

Lemma quiet_trans s1 s2 s3 : quiet s1 s2 -> quiet s2 s3 -> quiet s1 s3.
Proof. intros [? ?] [? ?]. split; congruence. Qed.

Lemma quiet_same s s' :
  statusSubscription s' = statusSubscription s -> log s' = log s ->
  quiet s s'.
Proof. intros Hs Hl. split; [done|]. unfold poll_times. by rewrite Hl. Qed.

Lemma quiet_emit e s : is_poll e = false -> quiet s (emit e s).
Proof.
  intros He. split; [done|]. rewrite poll_times_emit, He. apply app_nil_r.
Qed.

Lemma quiet_http_send rq s :
  is_poll_request rq = false -> quiet s (http_send rq s).
Proof. intros Hrq. split; [done|]. by apply poll_times_http_send. Qed.

(** Peels the effects a handler logs, outermost first. *)
Ltac quiet_handler :=
  repeat (eapply quiet_trans; [|by apply quiet_emit]);
  first [apply quiet_refl | by apply quiet_same].

Lemma quiet_startAgent s : quiet s (startAgent s).
Proof.
  unfold startAgent. destruct (selected s) as [[? ?]|]; [|done].
  by apply quiet_http_send.
Qed.

Lemma quiet_stopAgent s : quiet s (stopAgent s).
Proof.
  unfold stopAgent. destruct (selected s) as [[? ?]|]; [|done].
  by apply quiet_http_send.
Qed.

Lemma quiet_sendMessage s : quiet s (sendMessage s).
Proof.
  unfold sendMessage. destruct (selected s) as [[p a]|]; [|done].
  destruct (is_empty _); [done|].
  eapply quiet_trans; [|by apply quiet_http_send]. by apply quiet_same.
Qed.

Lemma quiet_sendMessage_next reply s : quiet s (sendMessage_next reply s).
Proof.
  unfold sendMessage_next. apply quiet_same; simpl;
    (destruct (selected _) as [[p a]|]; [|done]; by destruct (history_of a)).
Qed.

Lemma quiet_no_timer s s' :
  quiet s s' -> no_timer s ->
  no_timer s' /\ poll_times s' = poll_times s.
Proof. intros [Hs Hp] Hnt. split; [|done]. intros sub. rewrite Hs. apply Hnt. Qed.

Lemma no_timer_deliver rid r s :
  no_timer s -> restarts_polling s (Arrive rid r) = false ->
  no_timer (deliver rid r s) /\ poll_times (deliver rid r s) = poll_times s.
Proof.
  intros Hnt. unfold deliver, restarts_polling.
  destruct (pending s !! rid) as [rq|]; [|done].
  set (s' := set_pending (delete rid (pending s)) s).
  assert (Hq : quiet s s') by (by apply quiet_same).
  destruct rq as [|x|x|x|x|x m|x u], r as [a|l|reply|d]; cbn [alloc]; cbv zeta;
    try done; intros _;
    try (apply (quiet_no_timer s); [|done];
         eapply quiet_trans; [exact Hq|];
         first [ apply quiet_sendMessage_next
               | unfold loadAgents_next, loadAgents_error, selectAgent_error,
                   startAgent_next, startAgent_error, stopAgent_next,
                   stopAgent_error, sendMessage_error, updateAgent_next,
                   updateAgent_error;
                 quiet_handler ]).
  - destruct (owns rid s') as [sub|] eqn:Eo; [|done].
    apply owns_Some in Eo as (Es & _). split.
    + intros sub' [= <-]. simpl. apply (Hnt sub Es).
    + unfold poll_next. simpl. by destruct (selectedAgent s).
  - destruct (owns rid s') as [sub|] eqn:Eo; [|done]. split.
    + by intros sub' [= <-].
    + change (poll_times (poll_error s') = poll_times s).
      unfold poll_error. rewrite poll_times_emit. simpl. by rewrite app_nil_r.
Qed.

Lemma quiet_step s e :
  match e with
  | CallNgOnDestroy | Arrive _ _ | Clock _ => False
  | _ => True
  end ->
  quiet s (step s e).
Proof.
  destruct e as [rt|x| | |x| | | |i| | | | | |res|rid r|t]; try done;
    intros _; simpl.
  - unfold ngOnInit, loadAgents.
    destruct rt as [x|]; [|by apply quiet_http_send].
    destruct (is_empty x); [by apply quiet_http_send|].
    eapply quiet_trans; by apply quiet_http_send.
  - by apply quiet_http_send.
  - apply quiet_startAgent.
  - apply quiet_stopAgent.
  - apply quiet_sendMessage.
  - unfold openEditDialog. destruct (selectedAgent s); [|done].
    by apply quiet_same.
  - unfold select_option. destruct (agents s !! i); [|done].
    case_bool_decide; [done|]. destruct (heap s !! n); [|done].
    eapply quiet_trans; [|by apply quiet_http_send]. by apply quiet_same.
  - unfold menu_start. destruct (selected s) as [[? ?]|]; [|done].
    destruct (status_eqb _ _); [done|apply quiet_startAgent].
  - unfold menu_stop. destruct (selected s) as [[? ?]|]; [|done].
    destruct (status_eqb _ _); [apply quiet_stopAgent|done].
  - unfold menu_edit, openEditDialog.
    destruct (selected s) as [[? ?]|]; [|done].
    destruct (selectedAgent s); [|done]. by apply quiet_same.
  - unfold button_click. destruct (_ || _); [done|]. apply quiet_sendMessage.
  - unfold input_keyup_enter. destruct (canSendMessage s); [|done].
    apply quiet_sendMessage.
  - unfold dialog_afterClosed. destruct (openDialogs s) as [|k]; [done|].
    destruct res as [u|]; [|by apply quiet_same]. cbv zeta.
    destruct (selected _) as [[? b]|].
    + destruct (is_empty _).
      * unfold missing_agent_id. quiet_handler.
      * eapply quiet_trans; [|by apply quiet_http_send]. by apply quiet_same.
    + unfold missing_agent_id. quiet_handler.
Qed.

Lemma no_timer_step s e :
  no_timer s -> restarts_polling s e = false ->
  no_timer (step s e) /\ poll_times (step s e) = poll_times s.
Proof.
  intros Hnt Hre.
  destruct e as [rt|x| | |x| | | |i| | | | | |res|rid r|t];
    try (apply (quiet_no_timer s); [|done]; by apply quiet_step).
  - split.
    + intros sub. simpl. unfold ngOnDestroy.
      by rewrite stopStatusPolling_sub.
    + apply poll_times_stopStatusPolling.
  - by apply no_timer_deliver.
  - simpl. by rewrite no_timer_advance.
Qed.

Lemma no_timer_run es s :
  no_timer s -> no_restart es s = true -> poll_times (run es s) = poll_times s.
Proof.
  revert s. induction es as [|e es IH]; intros s Hnt Hes; [done|].
  simpl in Hes. apply andb_true_iff in Hes as [He Hes].
  apply negb_true_iff in He.
  destruct (no_timer_step s e Hnt He) as [Hnt' Hp].
  simpl. rewrite (IH _ Hnt' Hes). done.
Qed.

(** C3, as stated, fails.  A is selected and its first poll, sent at
    5000 ms, fails.  The error ends the observable: one minute later no
    further poll has been sent, whereas with the poll just left unanswered
    the interval goes on and eleven more are sent. *)
Lemma failed_poll_ends_polling :
  poll_times first_poll = [5000%Z] /\
  pending first_poll !! 1 = Some (PollFetch "A") /\
  poll_times (run [Arrive 1 (HttpError None); Clock 60000] first_poll) =
    [5000%Z] /\
  length (poll_times (run [Clock 60000] first_poll)) = 12.
Proof. vm_compute. by repeat split. Qed.

(** C3, amended.  In every reachable state, the failure of the poll in
    flight is logged to the console and closes the polling subscription; from
    then on, whatever is called, answered or however long is waited, no poll
    is sent until a snapshot arrives for a [selectAgent] call, which is
    the only event that starts a subscription. *)
Theorem failed_poll_stops_polling (s : State) (rid : nat) (x : string)
    (detail : option string) :
  reachable s ->
  pending s !! rid = Some (PollFetch x) ->
  let s' := deliver rid (HttpError detail) s in
  log s' = log s ++ [ConsoleError "Error polling agent status:"] /\
  sub_closed <$> statusSubscription s' = Some true /\
  forall es, no_restart es s' = true -> poll_times (run es s') = poll_times s'.
Proof.
  intros Hreach Hrid s'.
  destruct (reachable_wf s Hreach) as (_ & H2 & _).
  destruct (H2 rid _ Hrid eq_refl) as (sub & Hs & Hi & Hc).
  assert (Ho : owns rid (set_pending (delete rid (pending s)) s) = Some sub).
  { by apply owns_Some. }
  assert (Hs' : s' = set_statusSubscription (Some (closed_sub sub))
                  (poll_error (set_pending (delete rid (pending s)) s))).
  { subst s'. unfold deliver. by rewrite Hrid, Ho. }
  rewrite Hs'. split; [done|]. split; [done|].
  intros es Hes. apply no_timer_run; [|done]. by intros sub' [= <-].
Qed.

Lemma failed_poll_stops_polling_witness :
  reachable first_poll /\
  pending first_poll !! 1 = Some (PollFetch "A") /\
  no_restart [Clock 60000] (deliver 1 (HttpError None) first_poll) = true /\
  poll_times (run [Clock 60000] (deliver 1 (HttpError None) first_poll)) =
  poll_times (deliver 1 (HttpError None) first_poll).
Proof.
  assert (Hr : reachable first_poll).
  { apply (reachable_run
             [CallSelectAgent "A"; Arrive 0 (AgentBody agentA); Clock 5000]
             init). constructor. }
  assert (H1 : pending first_poll !! 1 = Some (PollFetch "A"))
    by (vm_compute; reflexivity).
  assert (Hn : no_restart [Clock 60000]
                 (deliver 1 (HttpError None) first_poll) = true)
    by (vm_compute; reflexivity).
  split; [exact Hr|]. split; [exact H1|]. split; [exact Hn|].
  destruct (failed_poll_stops_polling first_poll 1 "A" None Hr H1)
    as (_ & _ & H).
  exact (H [Clock 60000] Hn).
Defined.

(** ** The poll schedule *)

Lemma still_selected_same_data x s s' :
  same_data s s' -> still_selected x s' = still_selected x s.
Proof. intros H. unfold still_selected. by rewrite (same_data_selected s s' H). Qed.

(** One emission while the polled agent is still the selected one: a poll
    is sent at the time of the emission and the timer moves one period. *)
Lemma interval_emit_selected s sub tf :
  statusSubscription s = Some sub -> sub_timer sub = Some tf ->
  still_selected (sub_agentId sub) s = true ->
  let s' := interval_emit s in
  poll_times s' = poll_times s ++ [now s] /\
  now s' = now s /\
  still_selected (sub_agentId sub) s' = true /\
  exists sub', statusSubscription s' = Some sub' /\
    sub_agentId sub' = sub_agentId sub /\
    sub_timer sub' = Some (tf + POLL_PERIOD)%Z.
Proof.
  intros Hs Ht Hsel s'.
  assert (Hd : same_data s s') by apply interval_emit_data.
  split; [|split; [|split]].
  - subst s'. unfold interval_emit. rewrite Hs, Ht, Hsel.
    destruct (abort_inner_fields sub s) as (_ & _ & _ & _ & _ & _ & Hn & _).
    change (poll_times (http_send (PollFetch (sub_agentId sub))
                          (abort_inner sub s)) = poll_times s ++ [now s]).
    unfold http_send. rewrite poll_times_emit. simpl.
    change (poll_times (abort_inner sub s) ++ [now (abort_inner sub s)] =
            poll_times s ++ [now s]).
    by rewrite poll_times_abort_inner, Hn.
  - subst s'. unfold interval_emit. rewrite Hs, Ht, Hsel. simpl.
    by destruct (abort_inner_fields sub s) as (_ & _ & _ & _ & _ & _ & Hn & _).
  - by rewrite (still_selected_same_data _ s s' Hd).
  - subst s'. unfold interval_emit. rewrite Hs, Ht, Hsel.
    eexists. split; [done|]. done.
Qed.

Lemma emission_times_S t0 n :
  emission_times t0 (S n) = t0 :: emission_times (t0 + POLL_PERIOD) n.
Proof.
  unfold emission_times. simpl. f_equal; [lia|].
  rewrite <- seq_shift, <- list_fmap_compose.
  apply list_fmap_ext. intros _ k _. simpl. lia.
Qed.

Lemma fire_selected (n : nat) : forall t s sub tf,
  statusSubscription s = Some sub -> sub_timer sub = Some tf ->
  still_selected (sub_agentId sub) s = true ->
  (now s <= tf)%Z ->
  n = 0 \/ (tf + POLL_PERIOD * (Z.of_nat n - 1) <= t)%Z ->
  poll_times (fire n t s) = poll_times s ++ emission_times tf n.
Proof.
  induction n as [|n IH]; intros t s sub tf Hs Ht Hsel Hnow Hdue.
  { simpl. by rewrite app_nil_r. }
  destruct Hdue as [?|Hdue]; [done|].
  assert (Htf : (tf <= t)%Z) by (unfold POLL_PERIOD in *; lia).
  simpl. unfold due. rewrite Hs, Ht.
  destruct (Z.leb_spec tf t); [|lia].
  set (s1 := set_now (Z.max (now s) tf) s).
  destruct (interval_emit_selected s1 sub tf Hs Ht Hsel)
    as (Hp & Hn & Hsel' & sub' & Hs' & Ha & Ht').
  rewrite <- Ha in Hsel'.
  rewrite (IH t (interval_emit s1) sub' (tf + POLL_PERIOD)%Z Hs' Ht' Hsel').
  - rewrite Hp, emission_times_S, <- app_assoc. simpl.
    subst s1. simpl. by rewrite Z.max_r.
  - rewrite Hn. subst s1. simpl. unfold POLL_PERIOD. lia.
  - right. unfold POLL_PERIOD in *. lia.
Qed.

(** C7, as stated, fails.  A's snapshot arrives at time 0 and polling
    starts.  No poll is sent then, nor during the first 4999 ms; the first
    one goes out at 5000 ms, the next ones every 5000 ms. *)
Lemma no_poll_before_first_period :
  now idle_selected = 0%Z /\
  sub_timer <$> statusSubscription idle_selected = Some (Some 5000%Z) /\
  poll_times idle_selected = [] /\
  poll_times (run [Clock 4999] idle_selected) = [] /\
  poll_times (run [Clock 5000] idle_selected) = [5000%Z] /\
  poll_times (run [Clock 15000] idle_selected) = [5000; 10000; 15000]%Z.
Proof. vm_compute. by repeat split. Qed.

(** C7, amended.  Polling is driven by [interval(5000)], which has an
    initial delay of one period.  When polling is started at time [t0] for
    the selected agent and nothing else happens, no poll is sent at [t0]:
    the k-th poll (k = 1, 2, ...) is sent at [t0 + 5000 * k], so that after
    [d] ms exactly [d / 5000] polls have been sent. *)
Theorem poll_schedule (s : State) (agentId : string) (d : Z) :
  still_selected agentId s = true ->
  (0 <= d)%Z ->
  poll_times (advance (now s + d) (startStatusPolling agentId s)) =
  poll_times s ++
  emission_times (now s + POLL_PERIOD) (Z.to_nat (d / POLL_PERIOD)).
Proof.
  intros Hsel Hd.
  set (s0 := startStatusPolling agentId s).
  pose proof (startStatusPolling_fields agentId s) as Hf. fold s0 in Hf.
  pose proof (startStatusPolling_sub agentId s) as Hs. fold s0 in Hs.
  assert (Hn : now s0 = now s) by (by destruct Hf as (_ & _ & _ & _ & _ & _ & ? & _)).
  assert (Hp : poll_times s0 = poll_times s).
  { subst s0. unfold startStatusPolling.
    change (poll_times (stopStatusPolling s) = poll_times s).
    apply poll_times_stopStatusPolling. }
  assert (Hsel0 : still_selected agentId s0 = true).
  { by rewrite (still_selected_same_data _ s s0 (same_fields_data _ _ Hf)). }
  unfold advance.
  change (poll_times (fire (emissions_until (now s + d) s0) (now s + d) s0) =
          poll_times s ++
          emission_times (now s + POLL_PERIOD) (Z.to_nat (d / POLL_PERIOD))).
  assert (Hem : emissions_until (now s + d) s0 = Z.to_nat (d / POLL_PERIOD)).
  { unfold emissions_until, due. rewrite Hs. simpl.
    unfold POLL_PERIOD.
    destruct (Z.leb_spec (now s + 5000) (now s + d)).
    - f_equal. Z.to_euclidean_division_equations. lia.
    - by rewrite Z.div_small by lia. }
  rewrite Hem, <- Hp.
  eapply fire_selected; [exact Hs|done|exact Hsel0|..].
  - rewrite Hn. unfold POLL_PERIOD. lia.
  - unfold POLL_PERIOD.
    destruct (Z.to_nat (d / 5000)) eqn:E; [by left|right].
    rewrite <- E. rewrite Z2Nat.id; Z.to_euclidean_division_equations; lia.
Qed.

Lemma poll_schedule_witness :
  still_selected "A" idle_selected = true /\
  (0 <= 12000)%Z /\
  poll_times (advance (now idle_selected + 12000)
                (startStatusPolling "A" idle_selected)) =
  poll_times idle_selected ++
  emission_times (now idle_selected + POLL_PERIOD)
    (Z.to_nat (12000 / POLL_PERIOD)).
Proof.
  assert (Hs : still_selected "A" idle_selected = true)
    by (vm_compute; reflexivity).
  assert (Hd : (0 <= 12000)%Z) by lia.
  split; [exact Hs|]. split; [exact Hd|].
  exact (poll_schedule idle_selected "A" 12000 Hs Hd).
Defined.

(** Fuel: [advance] leaves no emission due. *)
Lemma fire_all_due n : forall t s,
  match due t s with
  | Some tf => (t < tf + POLL_PERIOD * Z.of_nat n)%Z
  | None => True
  end ->
  due t (fire n t s) = None.
Proof.
  induction n as [|n IH]; intros t s H; simpl.
  - destruct (due t s) as [tf|] eqn:E; [|done]. exfalso.
    unfold due in E. destruct (statusSubscription s) as [sub|]; [|done].
    destruct (sub_timer sub) as [tf'|]; [|done].
    destruct (Z.leb_spec tf' t); [|done]. injection E as ->.
    unfold POLL_PERIOD in *. lia.
  - destruct (due t s) as [tf|] eqn:E; [|done]. apply IH.
    unfold due in E |- *. unfold interval_emit. simpl.
    destruct (statusSubscription s) as [sub|]; [|done].
    destruct (sub_timer sub) as [tf'|]; [|done].
    destruct (Z.leb_spec tf' t); [|done]. injection E as ->.
    destruct (still_selected _ _); simpl; [|done].
    destruct (Z.leb_spec (tf + POLL_PERIOD) t); [|done].
    unfold POLL_PERIOD in *. lia.
Qed.

Lemma advance_settles t s : due t (advance t s) = None.
Proof.
  unfold advance.
  change (due t (fire (emissions_until t s) t s) = None).
  apply fire_all_due. unfold emissions_until.
  destruct (due t s) as [tf|] eqn:E; [|done].
  assert (tf <= t)%Z.
  { unfold due in E. destruct (statusSubscription s) as [sub|]; [|done].
    destruct (sub_timer sub) as [tf'|]; [|done].
    destruct (Z.leb_spec tf' t); [|done]. by injection E as ->. }
  unfold POLL_PERIOD. rewrite Z2Nat.id; Z.to_euclidean_division_equations; lia.
Qed.

(** ** Failure of a selection *)

Lemma session_eq s s' :
  session s = session s' <->
  same_fields s' s /\ statusSubscription s = statusSubscription s' /\
  poll_times s = poll_times s'.
Proof.
  unfold session, same_fields. split.
  - intros [= -> -> -> -> -> -> -> -> -> -> ->]. by repeat split.
  - intros ((-> & -> & -> & -> & -> & -> & -> & -> & ->) & -> & ->). done.
Qed.

Lemma session_poll_sent v x s :
  session (set_statusSubscription v (http_send (PollFetch x) s)) =
  (selectedAgent s, heap s, messages s, newMessage s, isLoading s, v,
   S (nextReq s), now s, poll_times s ++ [now s], agents s, openDialogs s).
Proof.
  unfold session.
  change (poll_times (set_statusSubscription v ?y)) with (poll_times y).
  unfold http_send. by rewrite poll_times_emit.
Qed.

Lemma session_interval_emit s s' :
  session s = session s' -> session (interval_emit s) = session (interval_emit s').
Proof.
  intros H. pose proof H as Heq.
  apply session_eq in H as (Hf & Hs & Hp).
  pose proof (same_fields_selected _ _ Hf) as Hsel.
  unfold interval_emit, still_selected. rewrite Hs, Hsel.
  destruct (statusSubscription s') as [sub|]; [|done].
  destruct (sub_timer sub) as [tf|]; [|done].
  destruct (selected s') as [[p a]|].
  2:{ apply session_eq.
      apply session_eq in Heq as ((? & ? & ? & ? & ? & ? & ? & ? & ?) & ? & ?).
      repeat split; simpl; assumption || reflexivity. }
  destruct (String.eqb (id a) (sub_agentId sub)).
  2:{ apply session_eq.
      apply session_eq in Heq as ((? & ? & ? & ? & ? & ? & ? & ? & ?) & ? & ?).
      repeat split; simpl; assumption || reflexivity. }
  destruct (abort_inner_fields sub s)
    as (A1 & A2 & A3 & A4 & A5 & A6 & A7 & A9 & A10).
  destruct (abort_inner_fields sub s')
    as (B1 & B2 & B3 & B4 & B5 & B6 & B7 & B9 & B10).
  destruct Hf as (F1 & F2 & F3 & F4 & F5 & F6 & F7 & F8 & F9).
  pose proof (poll_times_abort_inner sub s) as A8.
  pose proof (poll_times_abort_inner sub s') as B8.
  cbv zeta. rewrite !session_poll_sent.
  rewrite A1, A2, A3, A4, A5, A6, A7, A8, A9, A10.
  rewrite B1, B2, B3, B4, B5, B6, B7, B8, B9, B10.
  by rewrite F1, F2, F3, F4, F5, F6, F7, F8, F9, Hp.
Qed.

Lemma session_set_now v s s' :
  session s = session s' -> session (set_now v s) = session (set_now v s').
Proof.
  intros ((? & ? & ? & ? & ? & ? & ? & ? & ?) & ? & ?)%session_eq.
  apply session_eq. repeat split; simpl; assumption || reflexivity.
Qed.

Lemma session_due t s s' : session s = session s' -> due t s = due t s'.
Proof. unfold session, due. by intros [= _ _ _ _ _ -> _ _ _ _ _]. Qed.

Lemma session_now s s' : session s = session s' -> now s = now s'.
Proof. unfold session. by intros [= _ _ _ _ _ _ _ -> _ _ _]. Qed.

Lemma session_fire n : forall t s s',
  session s = session s' -> session (fire n t s) = session (fire n t s').
Proof.
  induction n as [|n IH]; intros t s s' H; simpl; [done|].
  rewrite (session_due t s s' H). destruct (due t s'); [|done].
  apply IH, session_interval_emit. rewrite (session_now s s' H).
  by apply session_set_now.
Qed.

Lemma session_advance t s s' :
  session s = session s' -> session (advance t s) = session (advance t s').
Proof.
  intros H. unfold advance, emissions_until.
  rewrite (session_due t s s' H).
  pose proof (session_fire
    (match due t s' with
     | Some tf => Z.to_nat ((t - tf) / POLL_PERIOD + 1)
     | None => 0
     end) t s s' H) as Hfire.
  rewrite (session_now _ _ Hfire). by apply session_set_now.
Qed.

(** C10.  When the fetch of a [selectAgent] call fails, the error handler
    reports the failure and touches nothing else: the held snapshot, the
    transcript, the draft, the busy flag and the polling subscription are
    those from before, no [unsubscribe] happens, and the other requests stay
    in flight.  The poller of the previously selected agent keeps running:
    however long the clock runs from there, the session evolves exactly as
    if the failed call had still been unanswered, poll for poll.  The call
    itself had changed none of these either. *)
Theorem selectAgent_failure_keeps_session (s : State) (rid : nat)
    (agentId : string) (detail : option string) :
  pending s !! rid = Some (SelectFetch agentId) ->
  let s' := deliver rid (HttpError detail) s in
  session s' = session s /\
  count is_unsubscribe s' = count is_unsubscribe s /\
  (forall r, r <> rid -> pending s' !! r = pending s !! r) /\
  (forall t, session (advance t s') = session (advance t s)) /\
  (forall x, session (selectAgent x s) =
             session (set_nextReq (S (nextReq s)) s)).
Proof.
  intros Hrid s'.
  assert (Hs' : s' = selectAgent_error (set_pending (delete rid (pending s)) s)).
  { subst s'. unfold deliver. by rewrite Hrid. }
  assert (Hsess : session s' = session s).
  { rewrite Hs'. unfold session, selectAgent_error.
    rewrite !poll_times_emit. simpl. by rewrite !app_nil_r. }
  split; [done|]. split; [|split; [|split]].
  - rewrite Hs'. unfold selectAgent_error. rewrite !count_emit. simpl.
    unfold count. simpl. lia.
  - intros r Hne. rewrite Hs'. simpl. by rewrite lookup_delete_ne.
  - intros t. by apply session_advance.
  - intros x. unfold session, selectAgent.
    rewrite poll_times_http_send by done. done.
Qed.

Lemma selectAgent_failure_keeps_session_witness :
  pending switching !! 2 = Some (SelectFetch "B") /\
  session (deliver 2 (HttpError None) switching) = session switching /\
  session (advance 20000 (deliver 2 (HttpError None) switching)) =
  session (advance 20000 switching).
Proof.
  assert (H2 : pending switching !! 2 = Some (SelectFetch "B"))
    by (vm_compute; reflexivity).
  destruct (selectAgent_failure_keeps_session switching 2 "B" None H2)
    as (Hs & _ & _ & Ht & _).
  split; [exact H2|]. split; [exact Hs|]. exact (Ht 20000%Z).
Defined.

(** * Further properties *)

(** ** References *)

Lemma same_refs_valid s s' : same_refs s s' -> refs_valid s -> refs_valid s'.
Proof.
  intros (Hs & Ha & Hl) [H1 H2]. split.
  - intros p. rewrite Hs, Hl. apply H1.
  - intros p. rewrite Ha, Hl. apply H2.
Qed.

Lemma same_fields_refs s s' : same_fields s s' -> same_refs s s'.
Proof.
  intros (? & _ & _ & _ & Hh & _ & _ & ? & _). unfold same_refs.
  by rewrite Hh.
Qed.

Lemma same_refs_refl s : same_refs s s.
Proof. done. Qed.

Lemma same_refs_trans s1 s2 s3 :
  same_refs s1 s2 -> same_refs s2 s3 -> same_refs s1 s3.
Proof. intros (? & ? & ?) (? & ? & ?). repeat split; congruence. Qed.

Lemma same_refs_http_send rq s : same_refs s (http_send rq s).
Proof. done. Qed.

Lemma same_refs_startAgent s : same_refs s (startAgent s).
Proof. unfold startAgent. by destruct (selected s) as [[? ?]|]. Qed.

Lemma same_refs_stopAgent s : same_refs s (stopAgent s).
Proof. unfold stopAgent. by destruct (selected s) as [[? ?]|]. Qed.

Lemma same_refs_sendMessage s : same_refs s (sendMessage s).
Proof.
  unfold sendMessage. destruct (selected s) as [[p a]|]; [|done].
  destruct (is_empty _); [done|]. repeat split. simpl.
  apply length_insert.
Qed.

Lemma same_refs_sendMessage_next reply s :
  same_refs s (sendMessage_next reply s).
Proof.
  unfold sendMessage_next. simpl.
  match goal with |- context [selected ?s0] =>
    assert (Hsel : selected s0 = selected s) by done; rewrite Hsel
  end.
  destruct (selected s) as [[p a]|]; [|done].
  destruct (history_of a); [|done]. repeat split. simpl.
  apply length_insert.
Qed.

Lemma same_refs_interval_emit s : same_refs s (interval_emit s).
Proof.
  unfold interval_emit.
  destruct (statusSubscription s) as [sub|]; [|done].
  destruct (sub_timer sub); [|done].
  destruct (still_selected _ _); [|done].
  destruct (same_fields_refs _ _ (abort_inner_fields sub s)) as (? & ? & ?).
  by repeat split.
Qed.

Lemma same_refs_fire n t s : same_refs s (fire n t s).
Proof.
  revert s. induction n as [|n IH]; intros s; simpl; [done|].
  destruct (due t s) as [tf|]; [|done].
  eapply same_refs_trans; [|apply IH].
  eapply same_refs_trans; [|apply same_refs_interval_emit]. done.
Qed.

Lemma same_refs_advance t s : same_refs s (advance t s).
Proof.
  unfold advance.
  destruct (same_refs_fire (emissions_until t s) t s) as (? & ? & ?).
  by repeat split.
Qed.

Lemma same_refs_stopStatusPolling s : same_refs s (stopStatusPolling s).
Proof. apply same_fields_refs, stopStatusPolling_fields. Qed.

Lemma same_refs_dialog_afterClosed res s :
  same_refs s (dialog_afterClosed res s).
Proof.
  unfold dialog_afterClosed. destruct (openDialogs s); [done|].
  destruct res; [|done]. cbv zeta.
  destruct (selected _) as [[? b]|]; [|done]. by destruct (is_empty _).
Qed.

(** The events that keep the references and the size of the heap: all but
    the choice of an agent in the selector and the arrival of a response. *)
Lemma same_refs_step s e :
  match e with PickAgent _ | Arrive _ _ => False | _ => True end ->
  same_refs s (step s e).
Proof.
  destruct e as [rt|x| | |x| | | |i| | | | | |res|rid r|t]; try done;
    intros _; simpl.
  - unfold ngOnInit. destruct rt as [x|]; [|done]. by destruct (is_empty x).
  - apply same_refs_startAgent.
  - apply same_refs_stopAgent.
  - apply same_refs_sendMessage.
  - unfold openEditDialog. by destruct (selectedAgent s).
  - apply same_refs_stopStatusPolling.
  - unfold menu_start. destruct (selected s) as [[? ?]|]; [|done].
    destruct (status_eqb _ _); [done|apply same_refs_startAgent].
  - unfold menu_stop. destruct (selected s) as [[? ?]|]; [|done].
    destruct (status_eqb _ _); [apply same_refs_stopAgent|done].
  - unfold menu_edit, openEditDialog.
    destruct (selected s) as [[? ?]|]; [|done]. by destruct (selectedAgent s).
  - unfold button_click. destruct (_ || _); [done|].
    apply same_refs_sendMessage.
  - unfold input_keyup_enter. destruct (canSendMessage s); [|done].
    apply same_refs_sendMessage.
  - apply same_refs_dialog_afterClosed.
  - apply same_refs_advance.
Qed.

(** A snapshot stored at a fresh address. *)
Lemma refs_valid_alloc a s f :
  refs_valid s ->
  selectedAgent (f (set_heap (heap s ++ [a]) s)) = Some (length (heap s)) \/
  selectedAgent (f (set_heap (heap s ++ [a]) s)) = selectedAgent s ->
  agents (f (set_heap (heap s ++ [a]) s)) = agents s ->
  heap (f (set_heap (heap s ++ [a]) s)) = heap s ++ [a] ->
  refs_valid (f (set_heap (heap s ++ [a]) s)).
Proof.
  intros [H1 H2] Hsel Hag Hh. split.
  - intros p Hp. rewrite Hh, length_app. simpl.
    destruct Hsel as [Hsel|Hsel]; rewrite Hsel in Hp.
    + injection Hp as <-. lia.
    + apply H1 in Hp. lia.
  - intros p. rewrite Hag, Hh, length_app. intros Hp%H2. lia.
Qed.

Lemma refs_valid_deliver rid r s : refs_valid s -> refs_valid (deliver rid r s).
Proof.
  intros Hv. unfold deliver.
  destruct (pending s !! rid) as [rq|]; [|done].
  set (s' := set_pending (delete rid (pending s)) s).
  assert (Hv' : refs_valid s') by done.
  destruct rq as [|x|x|x|x|x m|x u], r as [a|l|reply|d];
    cbn [alloc]; cbv zeta; try done.
  - destruct Hv' as [H1 H2]. split; simpl.
    + intros p Hp%H1. rewrite length_app. simpl in Hp. lia.
    + intros p [_ Hp]%elem_of_seq. rewrite length_app. simpl in Hp. lia.
  - apply (refs_valid_alloc a s' (selectAgent_next (length (heap s')) a));
      [done|..];
      destruct (selectAgent_next_spec (length (heap s')) a
                  (set_heap (heap s' ++ [a]) s')) as (Hs & Hh & _);
      [by left|..|done].
    unfold selectAgent_next.
    destruct (same_fields_refs _ _
      (startStatusPolling_fields (id a)
         match history_of a with
         | Some h =>
           set_messages (to_message <$> h)
             (set_selectedAgent (Some (length (heap s')))
                (set_heap (heap s' ++ [a]) s'))
         | None =>
           set_messages []
             (set_selectedAgent (Some (length (heap s')))
                (set_heap (heap s' ++ [a]) s'))
         end)) as (_ & -> & _).
    by destruct (history_of a).
  - destruct (owns rid s'); [|done].
    apply (refs_valid_alloc a s'
             (fun s0 => set_statusSubscription _
                          (poll_next (length (heap s')) s0))); [done|..];
      subst s'; unfold poll_next; simpl;
      destruct (selectedAgent s) eqn:E; first [done | by left | by right].
  - by destruct (owns rid s').
  - by apply (refs_valid_alloc a s' (startAgent_next (length (heap s'))));
      [|left|..].
  - by apply (refs_valid_alloc a s' (stopAgent_next (length (heap s'))));
      [|left|..].
  - eapply same_refs_valid; [apply same_refs_sendMessage_next|done].
  - by apply (refs_valid_alloc a s' (updateAgent_next (length (heap s'))));
      [|left|..].
Qed.

Lemma refs_valid_step s e : refs_valid s -> refs_valid (step s e).
Proof.
  intros Hv.
  destruct e as [rt|x| | |x| | | |i| | | | | |res|rid r|t];
    try (eapply same_refs_valid; [by apply same_refs_step|done]).
  - simpl. unfold select_option.
    destruct (agents s !! i) as [p|] eqn:Ei; [|done].
    case_bool_decide; [done|]. destruct (heap s !! p); [|done].
    destruct Hv as [H1 H2]. split; simpl; [|done].
    intros q [= <-]. apply H2. by eapply list_elem_of_lookup_2.
  - by apply refs_valid_deliver.
Qed.

(** X1.  In every state the component can reach, the selection and every
    entry of the agent list refer to an object that exists: a held
    reference is never dangling, so an agent is shown exactly when one is
    selected. *)
Theorem references_never_dangle (s : State) :
  reachable s ->
  (forall p, selectedAgent s = Some p -> is_Some (heap s !! p)) /\
  (forall p, p ∈ agents s -> is_Some (heap s !! p)) /\
  (snapshot s = None <-> selectedAgent s = None).
Proof.
  intros Hr.
  assert (Hv : refs_valid s).
  { induction Hr as [|s e _ IH]; [|by apply refs_valid_step].
    split; [done|]. intros p Hp. by apply elem_of_nil in Hp. }
  destruct Hv as [H1 H2]. split; [|split].
  - intros p Hp. apply lookup_lt_is_Some. by apply H1.
  - intros p Hp. apply lookup_lt_is_Some. by apply H2.
  - unfold snapshot, selected. destruct (selectedAgent s) as [p|] eqn:E.
    + destruct (lookup_lt_is_Some_2 (heap s) p (H1 p eq_refl)) as [a Ha].
      rewrite Ha. simpl. split; done.
    + done.
Qed.

Lemma references_never_dangle_witness :
  reachable picked_X /\
  (forall p, selectedAgent picked_X = Some p ->
     is_Some (heap picked_X !! p)).
Proof.
  assert (Hr : reachable picked_X).
  { apply (reachable_run
             [CallNgOnInit None; Arrive 0 (AgentListBody [agentX; agentY]);
              PickAgent 0; Arrive 1 (AgentBody agentX); Clock 5000] init).
    constructor. }
  split; [exact Hr|]. exact (proj1 (references_never_dangle picked_X Hr)).
Defined.

(** ** The poller and the selection *)

Lemma poller_ok_same s s' :
  statusSubscription s' = statusSubscription s -> pending s' = pending s ->
  (is_Some (selectedAgent s) -> is_Some (selectedAgent s')) ->
  poller_ok s -> poller_ok s'.
Proof.
  intros Hs Hp Hsel [H1 H2]. split.
  - intros sub. rewrite Hs. intros Hsub. by eapply Hsel, H1.
  - intros rid x sub. rewrite Hs, Hp. apply H2.
Qed.

Lemma poller_ok_delete rid s :
  poller_ok s -> poller_ok (set_pending (delete rid (pending s)) s).
Proof.
  intros [H1 H2]. split; [done|]. simpl.
  intros r x sub [_ Hr]%lookup_delete_Some. by eapply H2.
Qed.

Lemma poller_ok_http_send rq s :
  is_poll_request rq = false -> poller_ok s -> poller_ok (http_send rq s).
Proof.
  intros Hrq [H1 H2]. split; [done|]. simpl.
  intros r x sub [[_ ->]|[_ Hr]]%lookup_insert_Some; [done|]. by eapply H2.
Qed.

Lemma poller_ok_startAgent s : poller_ok s -> poller_ok (startAgent s).
Proof.
  intros H. unfold startAgent. destruct (selected s) as [[? ?]|]; [|done].
  by apply poller_ok_http_send.
Qed.

Lemma poller_ok_stopAgent s : poller_ok s -> poller_ok (stopAgent s).
Proof.
  intros H. unfold stopAgent. destruct (selected s) as [[? ?]|]; [|done].
  by apply poller_ok_http_send.
Qed.

Lemma poller_ok_sendMessage s : poller_ok s -> poller_ok (sendMessage s).
Proof.
  intros H. unfold sendMessage. destruct (selected s) as [[p a]|]; [|done].
  destruct (is_empty _); [done|].
  apply poller_ok_http_send; [done|]. by eapply poller_ok_same; [..|exact H].
Qed.

Lemma poller_ok_stopStatusPolling s : poller_ok (stopStatusPolling s).
Proof.
  split.
  - intros sub. by rewrite stopStatusPolling_sub.
  - intros rid x sub _. by rewrite stopStatusPolling_sub.
Qed.

Lemma poller_ok_interval_emit s :
  poller_ok s -> poller_ok (interval_emit s).
Proof.
  intros Hok. pose proof Hok as [H1 H2]. unfold interval_emit.
  destruct (statusSubscription s) as [sub|] eqn:Es; [|done].
  destruct (sub_timer sub) as [t|]; [|done].
  destruct (still_selected _ _).
  - destruct (abort_inner_fields sub s) as (Hsel & _).
    split; simpl.
    + intros sub' _. rewrite Hsel. by eapply H1.
    + intros rid x sub' [[<- [= <-]]|[_ Hr]]%lookup_insert_Some [= <-];
        [done|]. simpl.
      destruct (evolves_abort_inner sub s) as [_ He].
      destruct (He rid _ Hr) as [Hr'|[? ?]]; [by eapply H2|].
      destruct (abort_inner_fields sub s) as (_ & _ & _ & _ & _ & Hn & _).
      lia.
  - split; simpl.
    + intros sub' _. by eapply H1.
    + intros rid x sub' Hr [= <-]. simpl. by eapply H2.
Qed.

Lemma poller_ok_fire n t s : poller_ok s -> poller_ok (fire n t s).
Proof.
  revert s. induction n as [|n IH]; intros s H; simpl; [done|].
  destruct (due t s); [|done].
  apply IH, poller_ok_interval_emit. by eapply poller_ok_same; [..|exact H].
Qed.

Lemma poller_ok_advance t s : poller_ok s -> poller_ok (advance t s).
Proof.
  intros H. unfold advance.
  by eapply poller_ok_same;
    [..|apply (poller_ok_fire (emissions_until t s) t s H)].
Qed.

Lemma poller_ok_deliver rid r s :
  wf s -> poller_ok s -> poller_ok (deliver rid r s).
Proof.
  intros Hwf Hok. unfold deliver.
  destruct (pending s !! rid) as [rq|] eqn:Erq; [|done].
  pose proof (poller_ok_delete rid s Hok) as Hd.
  pose proof (wf_delete rid s Hwf) as Hwd.
  set (s' := set_pending (delete rid (pending s)) s) in *.
  destruct rq as [|x|x|x|x|x m|x u], r as [a|l|reply|d];
    cbn [alloc]; cbv zeta; try done;
    try (by eapply poller_ok_same; [..|exact Hd]).
  - split.
    + intros sub _.
      by destruct (selectAgent_next_spec (length (heap s')) a
                     (set_heap (heap s' ++ [a]) s')) as (-> & _).
    + intros r x' sub Hr _. exfalso.
      apply no_poll_after_selectAgent_next in Hr; [done|].
      by eapply wf_same_parts; [..|exact Hwd].
  - destruct (owns rid s') as [sub|] eqn:Eo; [|done].
    apply owns_Some in Eo as (Es & Ei & Ec).
    destruct Hd as [H1 H2].
    destruct (poll_next_parts (length (heap s'))
                (set_heap (heap s' ++ [a]) s')) as (_ & Hp & _).
    split; cbn [statusSubscription pending set_statusSubscription].
    + intros sub' _. destruct (H1 sub Es) as [q Hq]. unfold poll_next.
      change (selectedAgent (set_heap (heap s' ++ [a]) s'))
        with (selectedAgent s').
      by rewrite Hq.
    + rewrite Hp. intros r x' sub' Hr [= <-]. simpl. by eapply H2.
  - destruct (owns rid s') as [sub|] eqn:Eo; [|done].
    apply owns_Some in Eo as (Es & Ei & Ec).
    destruct Hd as [H1 H2]. split; simpl.
    + intros sub' _. by eapply H1.
    + intros r x' sub' Hr [= <-]. simpl. by eapply H2.
  - destruct (sendMessage_next_parts reply s') as (Hs & Hp & _).
    eapply poller_ok_same; [exact Hs|exact Hp| |exact Hd].
    by destruct (same_refs_sendMessage_next reply s') as (-> & _).
Qed.

Lemma poller_ok_step s e : wf s -> poller_ok s -> poller_ok (step s e).
Proof.
  intros Hwf H. destruct e as [rt|x| | |x| | | |i| | | | | |res|rid r|t]; simpl.
  - unfold ngOnInit, loadAgents.
    destruct rt as [x|]; [|by apply poller_ok_http_send].
    destruct (is_empty x); [by apply poller_ok_http_send|].
    apply poller_ok_http_send; [done|]. by apply poller_ok_http_send.
  - by apply poller_ok_http_send.
  - by apply poller_ok_startAgent.
  - by apply poller_ok_stopAgent.
  - by eapply poller_ok_same; [..|exact H].
  - by apply poller_ok_sendMessage.
  - unfold openEditDialog. destruct (selectedAgent s); [|done].
    by eapply poller_ok_same; [..|exact H].
  - apply poller_ok_stopStatusPolling.
  - unfold select_option. destruct (agents s !! i); [|done].
    case_bool_decide; [done|]. destruct (heap s !! n); [|done].
    apply poller_ok_http_send; [done|]. by eapply poller_ok_same; [..|exact H].
  - unfold menu_start. destruct (selected s) as [[? ?]|]; [|done].
    destruct (status_eqb _ _); [done|by apply poller_ok_startAgent].
  - unfold menu_stop. destruct (selected s) as [[? ?]|]; [|done].
    destruct (status_eqb _ _); [by apply poller_ok_stopAgent|done].
  - unfold menu_edit, openEditDialog.
    destruct (selected s) as [[? ?]|]; [|done].
    destruct (selectedAgent s); [|done].
    by eapply poller_ok_same; [..|exact H].
  - unfold button_click. destruct (_ || _); [done|].
    by apply poller_ok_sendMessage.
  - unfold input_keyup_enter. destruct (canSendMessage s); [|done].
    by apply poller_ok_sendMessage.
  - unfold dialog_afterClosed. destruct (openDialogs s) as [|k]; [done|].
    destruct res as [u|]; [|by eapply poller_ok_same; [..|exact H]].
    cbv zeta. destruct (selected _) as [[? b]|].
    + destruct (is_empty _).
      * by eapply poller_ok_same; [..|exact H].
      * apply poller_ok_http_send; [done|].
        by eapply poller_ok_same; [..|exact H].
    + by eapply poller_ok_same; [..|exact H].
  - by apply poller_ok_deliver.
  - by apply poller_ok_advance.
Qed.

Lemma reachable_poller_ok s : reachable s -> poller_ok s.
Proof.
  induction 1 as [|s e Hr IH]; [by split|].
  apply poller_ok_step; [by apply reachable_wf|done].
Qed.

(** X2.  In every reachable state the answer to the poll in flight is
    applied when it arrives: the guard of the handler, that some agent is
    selected, always holds while a poller exists.  The answer becomes the
    held snapshot whatever is held and whatever the answer holds, the
    transcript stays, and the poll was asking for the agent its
    subscription was started for. *)
Theorem poll_answer_always_applied (s : State) (rid : nat) (x : string)
    (a : Agent) :
  reachable s ->
  pending s !! rid = Some (PollFetch x) ->
  let s' := deliver rid (AgentBody a) s in
  snapshot s' = Some a /\
  messages s' = messages s /\
  pending s' !! rid = None /\
  exists sub, statusSubscription s = Some sub /\ x = sub_agentId sub /\
    statusSubscription s' = Some (inner_complete sub).
Proof.
  intros Hr Hrid s'.
  destruct (reachable_wf s Hr) as (_ & H2 & _).
  destruct (reachable_poller_ok s Hr) as [P1 P2].
  destruct (H2 rid _ Hrid eq_refl) as (sub & Hs & Hi & Hc).
  destruct (P1 sub Hs) as [q Hq].
  assert (Ho : owns rid (set_pending (delete rid (pending s)) s) = Some sub)
    by (by apply owns_Some).
  assert (Hs' : s' =
    set_statusSubscription (Some (inner_complete sub))
      (set_selectedAgent (Some (length (heap s)))
         (set_heap (heap s ++ [a])
            (set_pending (delete rid (pending s)) s)))).
  { subst s'. unfold deliver. rewrite Hrid, Ho. cbn [alloc].
    unfold poll_next. simpl. by rewrite Hq. }
  rewrite Hs'. split; [|split; [done|split]].
  - unfold snapshot, selected. simpl.
    by rewrite lookup_app_r, Nat.sub_diag.
  - simpl. apply lookup_delete_eq.
  - exists sub. split; [done|]. split; [by eapply P2|done].
Qed.

Lemma poll_answer_always_applied_witness :
  reachable picked_X /\
  pending picked_X !! 2 = Some (PollFetch "X") /\
  snapshot (deliver 2 (AgentBody agentY) picked_X) = Some agentY.
Proof.
  assert (Hr : reachable picked_X).
  { apply (reachable_run
             [CallNgOnInit None; Arrive 0 (AgentListBody [agentX; agentY]);
              PickAgent 0; Arrive 1 (AgentBody agentX); Clock 5000] init).
    constructor. }
  assert (H2 : pending picked_X !! 2 = Some (PollFetch "X"))
    by (vm_compute; reflexivity).
  split; [exact Hr|]. split; [exact H2|].
  exact (proj1 (poll_answer_always_applied picked_X 2 "X" agentY Hr H2)).
Defined.

(** X3.  In every reachable state at most one poll is in flight: each
    emission of the interval cancels the poll before it. *)
Theorem one_poll_in_flight (s : State) (r1 r2 : nat) (x1 x2 : string) :
  reachable s ->
  pending s !! r1 = Some (PollFetch x1) ->
  pending s !! r2 = Some (PollFetch x2) ->
  r1 = r2 /\ x1 = x2.
Proof.
  intros Hr H1 H2.
  destruct (reachable_wf s Hr) as (_ & Hown & _).
  destruct (Hown r1 _ H1 eq_refl) as (sub & Hs & Hi & _).
  destruct (Hown r2 _ H2 eq_refl) as (sub' & Hs' & Hi' & _).
  assert (r1 = r2) as -> by congruence.
  split; [done|]. congruence.
Qed.

Lemma one_poll_in_flight_witness :
  reachable picked_X /\
  pending picked_X !! 2 = Some (PollFetch "X") /\
  (2 = 2 /\ "X" = "X").
Proof.
  assert (Hr : reachable picked_X).
  { apply (reachable_run
             [CallNgOnInit None; Arrive 0 (AgentListBody [agentX; agentY]);
              PickAgent 0; Arrive 1 (AgentBody agentX); Clock 5000] init).
    constructor. }
  assert (H2 : pending picked_X !! 2 = Some (PollFetch "X"))
    by (vm_compute; reflexivity).
  split; [exact Hr|]. split; [exact H2|].
  exact (one_poll_in_flight picked_X 2 2 "X" "X" Hr H2 H2).
Defined.

Lemma deliver_keeps_selection rid r s :
  is_Some (selectedAgent s) -> is_Some (selectedAgent (deliver rid r s)).
Proof.
  intros [q Hq]. unfold deliver.
  destruct (pending s !! rid) as [rq|]; [|by exists q].
  destruct rq as [|x|x|x|x|x m|x u], r as [a|l|reply|d];
    cbn [alloc]; cbv zeta; try (by exists q); try (by eexists).
  - by destruct (selectAgent_next_spec
                   (length (heap (set_pending (delete rid (pending s)) s))) a
                   (set_heap
                      (heap (set_pending (delete rid (pending s)) s) ++ [a])
                      (set_pending (delete rid (pending s)) s))) as (-> & _).
  - destruct (owns rid _); [|by exists q].
    unfold poll_next. simpl. by rewrite Hq.
  - destruct (owns rid _); by exists q.
  - destruct (same_refs_sendMessage_next reply
                (set_pending (delete rid (pending s)) s)) as (-> & _).
    by exists q.
Qed.

(** X4.  Once an agent is selected the component never goes back to having
    none: no method, no callback and no binding of the template assigns
    null to the selection, whatever happens afterwards. *)
Theorem selection_never_cleared (es : list Event) (s : State) :
  is_Some (selectedAgent s) -> is_Some (selectedAgent (run es s)).
Proof.
  revert s. induction es as [|e es IH]; intros s Hs; [done|].
  apply IH.
  destruct e as [rt|x| | |x| | | |i| | | | | |res|rid r|t];
    try (match goal with |- is_Some (selectedAgent (step s ?e)) =>
           by destruct (same_refs_step s e I) as (-> & _)
         end).
  - simpl. unfold select_option. destruct (agents s !! i); [|done].
    case_bool_decide; [done|]. by destruct (heap s !! n).
  - by apply deliver_keeps_selection.
Qed.

Lemma selection_never_cleared_witness :
  is_Some (selectedAgent idle_selected) /\
  is_Some (selectedAgent
             (run [CallNgOnDestroy; Arrive 1 (HttpError None); Clock 9000]
                idle_selected)).
Proof.
  assert (H : is_Some (selectedAgent idle_selected)) by (by exists 0).
  split; [exact H|].
  exact (selection_never_cleared
           [CallNgOnDestroy; Arrive 1 (HttpError None); Clock 9000]
           idle_selected H).
Defined.

(** ** The inner request of the subscription *)

Lemma inner_ok_same s s' :
  statusSubscription s' = statusSubscription s -> pending s' = pending s ->
  nextReq s' = nextReq s -> inner_ok s -> inner_ok s'.
Proof. unfold inner_ok. by intros -> -> ->. Qed.

Lemma inner_ok_delete rid s :
  inner_ok s -> inner_ok (set_pending (delete rid (pending s)) s).
Proof.
  intros H sub r Hs Hi. destruct (H sub r Hs Hi) as [Hlt Hp].
  split; [done|]. simpl. intros rq [_ Hr]%lookup_delete_Some. by apply Hp.
Qed.

Lemma inner_ok_http_send rq s : inner_ok s -> inner_ok (http_send rq s).
Proof.
  intros H sub r Hs Hi. destruct (H sub r Hs Hi) as [Hlt Hp].
  split; [simpl; lia|]. simpl. intros rq'.
  rewrite lookup_insert_ne by lia. apply Hp.
Qed.

Lemma inner_ok_no_sub s : statusSubscription s = None -> inner_ok s.
Proof. intros Hs sub r Hsub. congruence. Qed.

Lemma inner_ok_startAgent s : inner_ok s -> inner_ok (startAgent s).
Proof.
  intros H. unfold startAgent. destruct (selected s) as [[? ?]|]; [|done].
  by apply inner_ok_http_send.
Qed.

Lemma inner_ok_stopAgent s : inner_ok s -> inner_ok (stopAgent s).
Proof.
  intros H. unfold stopAgent. destruct (selected s) as [[? ?]|]; [|done].
  by apply inner_ok_http_send.
Qed.

Lemma inner_ok_sendMessage s : inner_ok s -> inner_ok (sendMessage s).
Proof.
  intros H. unfold sendMessage. destruct (selected s) as [[p a]|]; [|done].
  destruct (is_empty _); [done|].
  apply inner_ok_http_send. by eapply inner_ok_same; [..|exact H].
Qed.

Lemma inner_ok_interval_emit s : inner_ok s -> inner_ok (interval_emit s).
Proof.
  intros H. unfold interval_emit.
  destruct (statusSubscription s) as [sub|] eqn:Es; [|done].
  destruct (sub_timer sub) as [t|]; [|done].
  destruct (still_selected _ _).
  - destruct (abort_inner_fields sub s) as (_ & _ & _ & _ & _ & Hn & _).
    intros sub' r [= <-] [= <-]. simpl. rewrite Hn. split; [lia|].
    intros rq. rewrite lookup_insert_eq. by intros [= <-].
  - intros sub' r [= <-] Hi. simpl in *. by apply (H sub r).
Qed.

Lemma inner_ok_fire n t s : inner_ok s -> inner_ok (fire n t s).
Proof.
  revert s. induction n as [|n IH]; intros s H; simpl; [done|].
  destruct (due t s); [|done].
  apply IH, inner_ok_interval_emit. by eapply inner_ok_same; [..|exact H].
Qed.

Lemma inner_ok_advance t s : inner_ok s -> inner_ok (advance t s).
Proof.
  intros H. unfold advance.
  by eapply inner_ok_same;
    [..|apply (inner_ok_fire (emissions_until t s) t s H)].
Qed.

Lemma inner_ok_deliver rid r s : inner_ok s -> inner_ok (deliver rid r s).
Proof.
  intros H. unfold deliver.
  destruct (pending s !! rid) as [rq|] eqn:Erq; [|done].
  pose proof (inner_ok_delete rid s H) as Hd.
  set (s' := set_pending (delete rid (pending s)) s) in *.
  destruct rq as [|x|x|x|x|x m|x u], r as [a|l|reply|d];
    cbn [alloc]; cbv zeta; try done;
    try (by eapply inner_ok_same; [..|exact Hd]).
  - intros sub r.
    destruct (selectAgent_next_spec (length (heap s')) a
                (set_heap (heap s' ++ [a]) s')) as (_ & _ & _ & ->).
    by intros [= <-].
  - destruct (owns rid s') as [sub|]; [|done].
    by intros sub' r [= <-].
  - destruct (owns rid s') as [sub|]; [|done].
    by intros sub' r [= <-].
  - destruct (sendMessage_next_parts reply s') as (? & ? & ?).
    by eapply inner_ok_same; [..|exact Hd].
Qed.

Lemma inner_ok_step s e : inner_ok s -> inner_ok (step s e).
Proof.
  intros H. destruct e as [rt|x| | |x| | | |i| | | | | |res|rid r|t]; simpl.
  - unfold ngOnInit, loadAgents.
    destruct rt as [x|]; [|by apply inner_ok_http_send].
    destruct (is_empty x); [by apply inner_ok_http_send|].
    by do 2 apply inner_ok_http_send.
  - by apply inner_ok_http_send.
  - by apply inner_ok_startAgent.
  - by apply inner_ok_stopAgent.
  - by eapply inner_ok_same; [..|exact H].
  - by apply inner_ok_sendMessage.
  - unfold openEditDialog. destruct (selectedAgent s); [|done].
    by eapply inner_ok_same; [..|exact H].
  - apply inner_ok_no_sub, stopStatusPolling_sub.
  - unfold select_option. destruct (agents s !! i); [|done].
    case_bool_decide; [done|]. destruct (heap s !! n); [|done].
    apply inner_ok_http_send. by eapply inner_ok_same; [..|exact H].
  - unfold menu_start. destruct (selected s) as [[? ?]|]; [|done].
    destruct (status_eqb _ _); [done|by apply inner_ok_startAgent].
  - unfold menu_stop. destruct (selected s) as [[? ?]|]; [|done].
    destruct (status_eqb _ _); [by apply inner_ok_stopAgent|done].
  - unfold menu_edit, openEditDialog.
    destruct (selected s) as [[? ?]|]; [|done].
    destruct (selectedAgent s); [|done].
    by eapply inner_ok_same; [..|exact H].
  - unfold button_click. destruct (_ || _); [done|].
    by apply inner_ok_sendMessage.
  - unfold input_keyup_enter. destruct (canSendMessage s); [|done].
    by apply inner_ok_sendMessage.
  - unfold dialog_afterClosed. destruct (openDialogs s) as [|k]; [done|].
    destruct res as [u|]; [|by eapply inner_ok_same; [..|exact H]].
    cbv zeta. destruct (selected _) as [[? b]|].
    + destruct (is_empty _).
      * by eapply inner_ok_same; [..|exact H].
      * apply inner_ok_http_send. by eapply inner_ok_same; [..|exact H].
    + by eapply inner_ok_same; [..|exact H].
  - by apply inner_ok_deliver.
  - by apply inner_ok_advance.
Qed.

Lemma reachable_inner_ok s : reachable s -> inner_ok s.
Proof.
  induction 1 as [|s e Hr IH]; [by apply inner_ok_no_sub|].
  by apply inner_ok_step.
Qed.

(** Aborting the inner request, stopping the poller and letting the clock
    run remove nothing but polls from the requests in flight. *)
Lemma abort_inner_keeps rid rq sub s :
  inner_ok s -> statusSubscription s = Some sub ->
  pending s !! rid = Some rq -> is_poll_request rq = false ->
  pending (abort_inner sub s) !! rid = Some rq.
Proof.
  intros H Hs Hr Hrq. unfold abort_inner.
  destruct (sub_inner sub) as [r|] eqn:Ei; [|done].
  rewrite pending_http_abort. rewrite lookup_delete_ne; [done|].
  intros ->. destruct (H sub rid Hs Ei) as [_ Hp].
  apply Hp in Hr. congruence.
Qed.

Lemma stopStatusPolling_keeps rid rq s :
  inner_ok s -> pending s !! rid = Some rq -> is_poll_request rq = false ->
  pending (stopStatusPolling s) !! rid = Some rq.
Proof.
  intros H Hr Hrq. unfold stopStatusPolling.
  destruct (statusSubscription s) as [sub|] eqn:Es; [|done].
  cbn [pending set_statusSubscription]. unfold unsubscribe.
  destruct (sub_closed sub); [done|].
  apply abort_inner_keeps; [|done..].
  by eapply inner_ok_same; [..|exact H].
Qed.

Lemma interval_emit_keeps rid rq s :
  inner_ok s -> pending s !! rid = Some rq -> is_poll_request rq = false ->
  (forall r rq', pending s !! r = Some rq' -> r < nextReq s) ->
  pending (interval_emit s) !! rid = Some rq.
Proof.
  intros H Hr Hrq Hlt. unfold interval_emit.
  destruct (statusSubscription s) as [sub|] eqn:Es; [|done].
  destruct (sub_timer sub) as [t|]; [|done].
  destruct (still_selected _ _); [|done].
  destruct (abort_inner_fields sub s) as (_ & _ & _ & _ & _ & Hn & _).
  simpl. rewrite Hn. rewrite lookup_insert_ne.
  - by apply abort_inner_keeps.
  - apply Hlt in Hr. lia.
Qed.

Lemma fire_keeps n : forall t rid rq s,
  wf s -> inner_ok s ->
  pending s !! rid = Some rq -> is_poll_request rq = false ->
  pending (fire n t s) !! rid = Some rq.
Proof.
  induction n as [|n IH]; intros t rid rq s Hwf H Hr Hrq; simpl; [done|].
  destruct (due t s) as [tf|]; [|done].
  set (s1 := set_now (Z.max (now s) tf) s).
  assert (Hwf1 : wf s1) by (by eapply wf_same_parts; [..|exact Hwf]).
  assert (H1 : inner_ok s1) by (by eapply inner_ok_same; [..|exact H]).
  apply IH; [by apply wf_interval_emit|by apply inner_ok_interval_emit| |done].
  apply interval_emit_keeps; [done..|].
  destruct Hwf1 as (_ & _ & H3). exact H3.
Qed.

Lemma advance_keeps t rid rq s :
  wf s -> inner_ok s ->
  pending s !! rid = Some rq -> is_poll_request rq = false ->
  pending (advance t s) !! rid = Some rq.
Proof.
  intros Hwf H Hr Hrq. unfold advance.
  change (pending (fire (emissions_until t s) t s) !! rid = Some rq).
  by apply fire_keeps.
Qed.

(** ** The end of polling *)

Lemma fire_no_due n t s : due t s = None -> fire n t s = s.
Proof. intros H. destruct n; simpl; [done|]. by rewrite H. Qed.

Lemma evolves_answered s s' rid :
  evolves s s' -> rid < nextReq s -> pending s !! rid = None ->
  pending s' !! rid = None.
Proof.
  intros [_ He] Hlt Hnone.
  destruct (pending s' !! rid) as [rq|] eqn:E; [|done].
  destruct (He rid rq E) as [?|?]; [congruence|lia].
Qed.

(** X5.  The poller stops by itself when, at an emission of the interval,
    the held agent is not the one it polls (or none is held): that emission
    sends nothing and ends the interval, a request still in flight is left
    alone, and from then on no poll is sent until a snapshot arrives for a
    [selectAgent] call. *)
Theorem poller_ends_when_selection_differs (s : State) (sub : Subscription)
    (tf t : Z) :
  statusSubscription s = Some sub ->
  sub_timer sub = Some tf ->
  still_selected (sub_agentId sub) s = false ->
  (tf <= t)%Z ->
  let s' := advance t s in
  log s' = log s /\ pending s' = pending s /\
  (exists sub', statusSubscription s' = Some sub' /\
     sub_timer sub' = None /\ sub_inner sub' = sub_inner sub) /\
  forall es, no_restart es s' = true ->
    poll_times (run es s') = poll_times s'.
Proof.
  intros Hs Ht Hsel Hle s'.
  assert (Hdue : due t s = Some tf).
  { unfold due. rewrite Hs, Ht. by destruct (Z.leb_spec tf t); [|lia]. }
  set (sub1 := {| sub_agentId := sub_agentId sub;
                  sub_closed := match sub_inner sub with
                                | Some _ => sub_closed sub
                                | None => true
                                end;
                  sub_timer := None; sub_inner := sub_inner sub |}).
  set (s1 := set_statusSubscription (Some sub1)
               (set_now (Z.max (now s) tf) s)).
  assert (Hs' : s' = set_now (Z.max (now s1) t) s1).
  { subst s'. unfold advance, emissions_until. rewrite Hdue.
    destruct (Z.to_nat ((t - tf) / POLL_PERIOD + 1)) as [|k] eqn:Ek.
    { exfalso. unfold POLL_PERIOD in Ek.
      assert (0 <= (t - tf) / 5000)%Z by (apply Z.div_pos; lia). lia. }
    simpl. rewrite Hdue.
    assert (Hemit : interval_emit (set_now (Z.max (now s) tf) s) = s1).
    { unfold interval_emit. simpl. rewrite Hs, Ht.
      change (still_selected (sub_agentId sub)
                (set_now (Z.max (now s) tf) s))
        with (still_selected (sub_agentId sub) s).
      by rewrite Hsel. }
    rewrite Hemit. by rewrite fire_no_due. }
  rewrite Hs'. split; [done|]. split; [done|]. split.
  - by exists sub1.
  - intros es Hes. apply no_timer_run; [|done]. by intros sub' [= <-].
Qed.

Lemma poller_ends_when_selection_differs_witness :
  let sub := {| sub_agentId := "X"; sub_closed := false;
                sub_timer := Some 10000%Z; sub_inner := Some 2 |} in
  statusSubscription picked_Y = Some sub /\
  still_selected "X" picked_Y = false /\
  (10000 <= 10000)%Z /\
  pending (advance 10000 picked_Y) = pending picked_Y.
Proof.
  intros sub.
  assert (Hs : statusSubscription picked_Y = Some sub)
    by (vm_compute; reflexivity).
  assert (Hsel : still_selected (sub_agentId sub) picked_Y = false)
    by (vm_compute; reflexivity).
  assert (Hle : (10000 <= 10000)%Z) by lia.
  split; [exact Hs|]. split; [exact Hsel|]. split; [exact Hle|].
  destruct (poller_ends_when_selection_differs picked_Y sub 10000 10000
              Hs eq_refl Hsel Hle) as (_ & H & _).
  exact H.
Defined.

(** ** Polls slower than the period *)

Lemma polling_since_same x n s s' :
  statusSubscription s' = statusSubscription s -> pending s' = pending s ->
  nextReq s' = nextReq s -> selected s' = selected s ->
  polling_since x n s -> polling_since x n s'.
Proof.
  intros Hs Hp Hn Hsel (sub & r & ? & ? & ? & ? & ? & ? & Hst).
  exists sub, r. rewrite Hs, Hp, Hn. repeat split; try done.
  unfold still_selected in *. by rewrite Hsel.
Qed.

Lemma polling_since_weaken x n m s :
  n <= m -> polling_since x m s -> polling_since x n s.
Proof.
  intros Hle (sub & r & ? & ? & ? & ? & ? & ? & ?).
  exists sub, r. repeat split; try done. lia.
Qed.

(** An emission while the polled agent is selected: the poll before it is
    aborted and a new one is in flight. *)
Lemma interval_emit_polling s sub tf :
  statusSubscription s = Some sub -> sub_timer sub = Some tf ->
  still_selected (sub_agentId sub) s = true ->
  (forall r, sub_inner sub = Some r -> r < nextReq s) ->
  polling_since (sub_agentId sub) (nextReq s) (interval_emit s) /\
  forall r, sub_inner sub = Some r -> pending (interval_emit s) !! r = None.
Proof.
  intros Hs Ht Hsel Hlt.
  destruct (abort_inner_fields sub s) as (Hse & _ & _ & _ & Hh & Hn & _).
  assert (Hst : still_selected (sub_agentId sub) (interval_emit s) = true).
  { by rewrite (still_selected_same_data _ s _ (interval_emit_data s)). }
  revert Hst. unfold interval_emit. rewrite Hs, Ht, Hsel. intros Hst.
  split.
  - eexists _, (nextReq s). split; [done|]. simpl. rewrite Hn.
    split; [done|]. split; [done|]. split; [lia|]. split; [lia|].
    split; [by rewrite lookup_insert_eq|exact Hst].
  - intros r Hr. simpl. rewrite Hn.
    rewrite lookup_insert_ne by (apply Hlt in Hr; lia).
    unfold abort_inner. rewrite Hr, pending_http_abort.
    apply lookup_delete_eq.
Qed.

Lemma fire_polling k : forall x n t s,
  polling_since x n s -> polling_since x n (fire k t s).
Proof.
  induction k as [|k IH]; intros x n t s Hp; simpl; [done|].
  destruct (due t s) as [tf|] eqn:Ed; [|done].
  apply IH.
  set (s1 := set_now (Z.max (now s) tf) s).
  assert (Hp1 : polling_since x n s1) by (by eapply polling_since_same).
  destruct Hp1 as (sub & r & Hs & Hx & Hi & Hle & Hlt & Hr & Hst).
  assert (Ht : exists tf', sub_timer sub = Some tf').
  { unfold due in Ed. change (statusSubscription s) with
      (statusSubscription s1) in Ed. rewrite Hs in Ed.
    destruct (sub_timer sub) as [tf'|]; [by exists tf'|done]. }
  destruct Ht as [tf' Ht]. subst x.
  destruct (interval_emit_polling s1 sub tf' Hs Ht Hst) as [Hnew _].
  { intros r' Hr'. congruence. }
  eapply polling_since_weaken; [|exact Hnew]. lia.
Qed.

(** X6.  A poll that is still unanswered when the interval emits again is
    cancelled by that emission: once the clock has reached the next tick,
    with the polled agent still selected, the old poll is no longer in
    flight, its answer changes nothing when it arrives, and a newer poll
    for the same agent is in flight instead.  A server that always answers
    more slowly than the period never refreshes the snapshot. *)
Theorem slow_poll_cancelled (s : State) (rid : nat) (x : string)
    (sub : Subscription) (tf t : Z) :
  reachable s ->
  pending s !! rid = Some (PollFetch x) ->
  statusSubscription s = Some sub ->
  sub_timer sub = Some tf ->
  still_selected x s = true ->
  (tf <= t)%Z ->
  let s' := advance t s in
  pending s' !! rid = None /\
  (forall r, deliver rid r s' = s') /\
  exists rid', rid < rid' /\ pending s' !! rid' = Some (PollFetch x).
Proof.
  intros Hr Hrid Hs Ht Hsel Hle s'.
  destruct (reachable_wf s Hr) as (_ & Hown & Hbound).
  destruct (reachable_poller_ok s Hr) as [_ Hx].
  destruct (Hown rid _ Hrid eq_refl) as (sub0 & Hs0 & Hi & _).
  assert (sub0 = sub) as -> by congruence.
  assert (x = sub_agentId sub) as -> by (by eapply Hx).
  pose proof (Hbound rid _ Hrid) as Hlt.
  assert (Hdue : due t s = Some tf).
  { unfold due. rewrite Hs, Ht. by destruct (Z.leb_spec tf t); [|lia]. }
  set (s0 := set_now (Z.max (now s) tf) s).
  destruct (interval_emit_polling s0 sub tf Hs Ht Hsel) as [Hnew Hold].
  { intros r' Hr'. assert (r' = rid) as -> by congruence. exact Hlt. }
  set (s1 := interval_emit s0) in *.
  assert (Hfire : exists k, s' = set_now (Z.max (now (fire k t s1)) t)
                                   (fire k t s1)).
  { subst s'. unfold advance, emissions_until. rewrite Hdue.
    destruct (Z.to_nat ((t - tf) / POLL_PERIOD + 1)) as [|k] eqn:Ek.
    { exfalso. unfold POLL_PERIOD in Ek.
      assert (0 <= (t - tf) / 5000)%Z by (apply Z.div_pos; lia). lia. }
    exists k. simpl. by rewrite Hdue. }
  destruct Hfire as [k Hs'].
  assert (Hnone : pending s' !! rid = None).
  { rewrite Hs'. simpl.
    apply (evolves_answered s1); [apply evolves_fire| |by apply Hold].
    destruct (evolves_interval_emit s0) as [Hn _]. fold s1 in Hn.
    change (nextReq s0) with (nextReq s) in Hn. lia. }
  split; [done|]. split.
  - intros r. unfold deliver. by rewrite Hnone.
  - destruct (fire_polling k (sub_agentId sub) (nextReq s) t s1 Hnew)
      as (sub' & r' & _ & _ & _ & Hge & _ & Hp & _).
    exists r'. split; [lia|]. by rewrite Hs'.
Qed.

Lemma slow_poll_cancelled_witness :
  let sub := {| sub_agentId := "X"; sub_closed := false;
                sub_timer := Some 10000%Z; sub_inner := Some 2 |} in
  reachable picked_X /\
  pending picked_X !! 2 = Some (PollFetch "X") /\
  statusSubscription picked_X = Some sub /\
  still_selected "X" picked_X = true /\
  (10000 <= 21000)%Z /\
  pending (advance 21000 picked_X) !! 2 = None.
Proof.
  intros sub.
  assert (Hr : reachable picked_X).
  { apply (reachable_run
             [CallNgOnInit None; Arrive 0 (AgentListBody [agentX; agentY]);
              PickAgent 0; Arrive 1 (AgentBody agentX); Clock 5000] init).
    constructor. }
  assert (H2 : pending picked_X !! 2 = Some (PollFetch "X"))
    by (vm_compute; reflexivity).
  assert (Hs : statusSubscription picked_X = Some sub)
    by (vm_compute; reflexivity).
  assert (Hsel : still_selected "X" picked_X = true)
    by (vm_compute; reflexivity).
  assert (Hle : (10000 <= 21000)%Z) by lia.
  split; [exact Hr|]. split; [exact H2|]. split; [exact Hs|].
  split; [exact Hsel|]. split; [exact Hle|].
  destruct (slow_poll_cancelled picked_X 2 "X" sub 10000 21000
              Hr H2 Hs eq_refl Hsel Hle) as (H & _).
  exact H.
Defined.

(** ** Sending a message and its answer *)

Lemma snapshot_selected s a :
  snapshot s = Some a ->
  exists p, selected s = Some (p, a) /\ selectedAgent s = Some p /\
    heap s !! p = Some a.
Proof.
  unfold snapshot, selected. destruct (selectedAgent s) as [p|]; [|done].
  destruct (heap s !! p) as [b|] eqn:E; [|done]. simpl. intros [= <-].
  by exists p.
Qed.










Lemma selectAgent_next_keeps p a rid rq s :
  inner_ok s -> pending s !! rid = Some rq -> is_poll_request rq = false ->
  pending (selectAgent_next p a s) !! rid = Some rq /\
  now (selectAgent_next p a s) = now s /\
  poll_times (selectAgent_next p a s) = poll_times s.
Proof.
  intros H Hr Hrq. unfold selectAgent_next, startStatusPolling.
  cbn [pending now set_statusSubscription].
  set (s1 := match history_of a with
             | Some h => set_messages (to_message <$> h)
                           (set_selectedAgent (Some p) s)
             | None => set_messages [] (set_selectedAgent (Some p) s)
             end).
  assert (H1 : inner_ok s1)
    by (eapply inner_ok_same; [..|exact H]; subst s1;
        by destruct (history_of a)).
  assert (Hr1 : pending s1 !! rid = Some rq)
    by (subst s1; by destruct (history_of a)).
  split; [by apply stopStatusPolling_keeps|]. split.
  - destruct (stopStatusPolling_fields s1) as (_ & _ & _ & _ & _ & _ & -> & _).
    subst s1. by destruct (history_of a).
  - change (poll_times (stopStatusPolling s1) = poll_times s).
    rewrite poll_times_stopStatusPolling. subst s1.
    by destruct (history_of a).
Qed.



(** ** Destroying the component *)

(** X10.  [ngOnDestroy()] cancels the poll in flight and nothing else: in
    every reachable state, the requests in flight after it are exactly
    those in flight before it that are not polls.  A selection, a command,
    a chat message or an update already sent will still be answered, and
    its callback will still run. *)
Theorem destroy_cancels_only_the_poll (s : State) (rid : nat)
    (rq : Request) :
  reachable s ->
  pending (ngOnDestroy s) !! rid = Some rq <->
  pending s !! rid = Some rq /\ is_poll_request rq = false.
Proof.
  intros Hr. unfold ngOnDestroy. split.
  - intros H. split.
    + destruct (evolves_stopStatusPolling s) as [_ He].
      destruct (He rid rq H) as [?|[? Hlt]]; [done|].
      destruct (stopStatusPolling_fields s)
        as (_ & _ & _ & _ & _ & Hn & _).
      rewrite Hn in Hlt. lia.
    + by apply (proj2 (wf_stopStatusPolling s (reachable_wf s Hr)) rid).
  - intros [H Hrq]. apply stopStatusPolling_keeps; [|done..].
    by apply reachable_inner_ok.
Qed.

Lemma destroy_cancels_only_the_poll_witness :
  let s := selectAgent "Y" picked_X in
  reachable s /\
  pending s !! 2 = Some (PollFetch "X") /\
  pending (ngOnDestroy s) !! 2 <> Some (PollFetch "X") /\
  pending (ngOnDestroy s) !! 3 = Some (SelectFetch "Y").
Proof.
  intros s.
  assert (Hr : reachable s).
  { apply (reachable_run
             [CallNgOnInit None; Arrive 0 (AgentListBody [agentX; agentY]);
              PickAgent 0; Arrive 1 (AgentBody agentX); Clock 5000;
              CallSelectAgent "Y"] init).
    constructor. }
  assert (H2 : pending s !! 2 = Some (PollFetch "X"))
    by (vm_compute; reflexivity).
  assert (H3 : pending s !! 3 = Some (SelectFetch "Y"))
    by (vm_compute; reflexivity).
  split; [exact Hr|]. split; [exact H2|]. split.
  - intros H.
    destruct (proj1 (destroy_cancels_only_the_poll s 2 (PollFetch "X") Hr) H)
      as [_ Hp].
    discriminate Hp.
  - exact (proj2 (destroy_cancels_only_the_poll s 3 (SelectFetch "Y") Hr)
             (conj H3 eq_refl)).
Defined.

(** X11.  A selection in flight survives [ngOnDestroy()]: when its
    snapshot arrives after the component was destroyed, it is applied and
    a new polling subscription is started, which nothing stops any more;
    its first poll goes out one period later. *)
Theorem selection_outlives_destroy (s : State) (rid : nat) (x : string)
    (a : Agent) :
  reachable s ->
  pending s !! rid = Some (SelectFetch x) ->
  let s2 := deliver rid (AgentBody a) (ngOnDestroy s) in
  snapshot s2 = Some a /\
  statusSubscription s2 =
    Some {| sub_agentId := id a; sub_closed := false;
            sub_timer := Some (now s + POLL_PERIOD)%Z; sub_inner := None |} /\
  poll_times (advance (now s + POLL_PERIOD) s2) =
    poll_times s ++ [(now s + POLL_PERIOD)%Z].
Proof.
  intros Hr Hrid. set (s1 := ngOnDestroy s). intros s2.
  assert (Hr1 : reachable s1) by apply (reachable_step s CallNgOnDestroy Hr).
  assert (Hp1 : pending s1 !! rid = Some (SelectFetch x)).
  { apply stopStatusPolling_keeps; [by apply reachable_inner_ok|done..]. }
  assert (Hnow1 : now s1 = now s).
  { by destruct (stopStatusPolling_fields s) as (_ & _ & _ & _ & _ & _ & ? & _). }
  assert (Hpt1 : poll_times s1 = poll_times s)
    by apply poll_times_stopStatusPolling.
  set (s0 := set_heap (heap s1 ++ [a])
               (set_pending (delete rid (pending s1)) s1)).
  assert (Hs2 : s2 = selectAgent_next (length (heap s1)) a s0).
  { subst s2. unfold deliver. by rewrite Hp1. }
  destruct (selectAgent_next_spec (length (heap s1)) a s0)
    as (Hsel & Hheap & _ & Hsub).
  rewrite <- Hs2 in Hsel, Hheap, Hsub.
  assert (Hdata : now s2 = now s /\ poll_times s2 = poll_times s).
  { rewrite Hs2. unfold selectAgent_next.
    set (sm := match history_of a with
               | Some h => set_messages (to_message <$> h)
                             (set_selectedAgent (Some (length (heap s1))) s0)
               | None => set_messages []
                           (set_selectedAgent (Some (length (heap s1))) s0)
               end).
    destruct (startStatusPolling_fields (id a) sm)
      as (_ & _ & _ & _ & _ & _ & -> & _).
    unfold startStatusPolling.
    change (now sm = now s /\
            poll_times (stopStatusPolling sm) = poll_times s).
    rewrite poll_times_stopStatusPolling. subst sm.
    destruct (history_of a); by rewrite <- Hnow1, <- Hpt1. }
  destruct Hdata as [Hnow2 Hpt2].
  assert (Hsnap : snapshot s2 = Some a).
  { unfold snapshot, selected. rewrite Hsel, Hheap. subst s0. simpl.
    rewrite lookup_app_r by done. by rewrite Nat.sub_diag. }
  assert (Hsub2 : statusSubscription s2 =
            Some {| sub_agentId := id a; sub_closed := false;
                    sub_timer := Some (now s + POLL_PERIOD)%Z;
                    sub_inner := None |}).
  { rewrite Hsub. subst s0. simpl. by rewrite Hnow1. }
  clear Hsub.
  split; [done|]. split; [done|].
  assert (Hst : still_selected (id a) s2 = true).
  { unfold still_selected, selected. rewrite Hsel, Hheap. subst s0. simpl.
    rewrite lookup_app_r by done. rewrite Nat.sub_diag. simpl.
    apply String.eqb_refl. }
  unfold advance. change (poll_times (set_now ?v ?y)) with (poll_times y).
  assert (Hem : emissions_until (now s + POLL_PERIOD) s2 = 1).
  { unfold emissions_until, due. rewrite Hsub2. simpl.
    destruct (Z.leb_spec (now s + POLL_PERIOD) (now s + POLL_PERIOD));
      [|lia].
    by rewrite Z.sub_diag. }
  rewrite Hem.
  rewrite (fire_selected 1 (now s + POLL_PERIOD) s2 _
             (now s + POLL_PERIOD) Hsub2 eq_refl Hst).
  - rewrite Hpt2. unfold emission_times. simpl. f_equal. f_equal. lia.
  - rewrite Hnow2. unfold POLL_PERIOD. lia.
  - right. simpl. lia.
Qed.

Lemma selection_outlives_destroy_witness :
  reachable switching /\
  pending switching !! 2 = Some (SelectFetch "B") /\
  snapshot (deliver 2 (AgentBody agentB) (ngOnDestroy switching)) =
    Some agentB.
Proof.
  assert (Hr : reachable switching).
  { apply (reachable_run
             [CallSelectAgent "A"; Arrive 0 (AgentBody agentA); Clock 5000;
              CallSelectAgent "B"] init).
    constructor. }
  assert (H2 : pending switching !! 2 = Some (SelectFetch "B"))
    by (vm_compute; reflexivity).
  split; [exact Hr|]. split; [exact H2|].
  destruct (selection_outlives_destroy switching 2 "B" agentB Hr H2)
    as (H & _).
  exact H.
Defined.

(** ** Failures that are only reported *)

(** X12.  When loading the agent list, a start or stop command or an update
    fails, the component only reports it: a snack bar is opened and the
    request is no longer in flight, but no field of the component changes
    and the poller goes on exactly as before, however long the clock
    runs. *)
Theorem failed_request_only_reported (s : State) (rid : nat) (rq : Request)
    (detail : option string) :
  pending s !! rid = Some rq ->
  failure_only_reported rq = true ->
  let s' := deliver rid (HttpError detail) s in
  session s' = session s /\
  pending s' = delete rid (pending s) /\
  count is_snack s' = S (count is_snack s) /\
  forall t, session (advance t s') = session (advance t s).
Proof.
  intros Hrid Hrq s'.
  assert (H : session s' = session s /\
              pending s' = delete rid (pending s) /\
              count is_snack s' = S (count is_snack s)).
  { subst s'. unfold deliver. rewrite Hrid.
    destruct rq as [|x|x|x|x|x m|x u]; try done;
      unfold loadAgents_error, startAgent_error, stopAgent_error,
        updateAgent_error; cbv zeta;
      (split; [|split; [done|]]).
    all: try (unfold session; rewrite !poll_times_emit; simpl;
              by rewrite !app_nil_r).
    all: rewrite !count_emit; simpl; unfold count; simpl; lia. }
  destruct H as (Hs & Hp & Hc). split; [done|]. split; [done|].
  split; [done|]. intros t. by apply session_advance.
Qed.

Lemma failed_request_only_reported_witness :
  let s := startAgent idle_selected in
  pending s !! 1 = Some (StartCommand "A") /\
  failure_only_reported (StartCommand "A") = true /\
  session (deliver 1 (HttpError None) s) = session s.
Proof.
  intros s.
  assert (H1 : pending s !! 1 = Some (StartCommand "A"))
    by (vm_compute; reflexivity).
  split; [exact H1|]. split; [reflexivity|].
  destruct (failed_request_only_reported s 1 (StartCommand "A") None H1
              eq_refl) as (H & _).
  exact H.
Defined.

(** ** Requests in flight *)

Lemma http_send_keeps rq' rid s :
  rid < nextReq s -> pending (http_send rq' s) !! rid = pending s !! rid.
Proof. intros H. simpl. rewrite lookup_insert_ne; [done|lia]. Qed.

Lemma sendMessage_keeps rid s :
  rid < nextReq s -> pending (sendMessage s) !! rid = pending s !! rid.
Proof.
  intros H. unfold sendMessage. destruct (selected s) as [[p a]|]; [|done].
  destruct (is_empty _); [done|]. simpl. rewrite lookup_insert_ne; [done|lia].
Qed.

Lemma deliver_keeps rid' r rid rq s :
  inner_ok s -> rid' <> rid ->
  pending s !! rid = Some rq -> is_poll_request rq = false ->
  pending (deliver rid' r s) !! rid = Some rq.
Proof.
  intros H Hne Hr Hrq. unfold deliver.
  destruct (pending s !! rid') as [rq'|] eqn:E; [|done].
  pose proof (inner_ok_delete rid' s H) as Hd.
  set (s' := set_pending (delete rid' (pending s)) s) in *.
  assert (Hr' : pending s' !! rid = Some rq).
  { subst s'. simpl. by rewrite lookup_delete_ne. }
  destruct rq' as [|x|x|x|x|x m|x u], r as [a|l|reply|d];
    cbn [alloc]; cbv zeta; try done.
  - apply selectAgent_next_keeps; [|done..].
    by eapply inner_ok_same; [..|exact Hd].
  - destruct (owns rid' s'); [|done].
    cbn [pending set_statusSubscription].
    destruct (poll_next_parts (length (heap s'))
                (set_heap (heap s' ++ [a]) s')) as (_ & -> & _).
    done.
  - by destruct (owns rid' s').
  - by destruct (sendMessage_next_parts reply s') as (_ & -> & _).
Qed.

Lemma step_keeps e rid rq s :
  wf s -> inner_ok s ->
  pending s !! rid = Some rq -> is_poll_request rq = false ->
  answers rid e = false ->
  pending (step s e) !! rid = Some rq.
Proof.
  intros Hwf H Hr Hrq He.
  assert (Hlt : rid < nextReq s).
  { destruct Hwf as (_ & _ & H3). by eapply H3. }
  destruct e as [rt|x| | |x| | | |i| | | | | |res|rid' r|t]; cbn [step].
  - unfold ngOnInit, loadAgents.
    destruct rt as [x|]; [|by rewrite http_send_keeps].
    destruct (is_empty x); [by rewrite http_send_keeps|].
    unfold selectAgent. rewrite http_send_keeps; [|simpl; lia].
    by rewrite http_send_keeps.
  - unfold selectAgent. by rewrite http_send_keeps.
  - unfold startAgent. destruct (selected s) as [[? ?]|]; [|done].
    by rewrite http_send_keeps.
  - unfold stopAgent. destruct (selected s) as [[? ?]|]; [|done].
    by rewrite http_send_keeps.
  - done.
  - by rewrite sendMessage_keeps.
  - unfold openEditDialog. by destruct (selectedAgent s).
  - by apply stopStatusPolling_keeps.
  - unfold select_option. destruct (agents s !! i); [|done].
    case_bool_decide; [done|]. destruct (heap s !! n); [|done].
    unfold selectAgent. by rewrite http_send_keeps.
  - unfold menu_start. destruct (selected s) as [[? ?]|] eqn:E; [|done].
    destruct (status_eqb _ _); [done|].
    unfold startAgent. rewrite E. by rewrite http_send_keeps.
  - unfold menu_stop. destruct (selected s) as [[? ?]|] eqn:E; [|done].
    destruct (status_eqb _ _); [|done].
    unfold stopAgent. rewrite E. by rewrite http_send_keeps.
  - unfold menu_edit, openEditDialog.
    destruct (selected s) as [[? ?]|]; [|done].
    by destruct (selectedAgent s).
  - unfold button_click. destruct (_ || _); [done|].
    by rewrite sendMessage_keeps.
  - unfold input_keyup_enter. destruct (canSendMessage s); [|done].
    by rewrite sendMessage_keeps.
  - unfold dialog_afterClosed. destruct (openDialogs s) as [|k]; [done|].
    destruct res as [u|]; [|done].
    cbv zeta. destruct (selected _) as [[? b]|]; [|done].
    destruct (is_empty _); [done|]. by rewrite http_send_keeps.
  - simpl in He. apply deliver_keeps; [done| |done..].
    by apply Nat.eqb_neq.
  - by apply advance_keeps.
Qed.

(** X13.  A request other than a poll is never cancelled: once sent, it
    stays in flight, whatever the component does and however long it takes,
    until its response arrives.  Only polls are ever aborted. *)
Theorem request_stays_until_answered (es : list Event) (s : State)
    (rid : nat) (rq : Request) :
  reachable s ->
  pending s !! rid = Some rq -> is_poll_request rq = false ->
  forallb (fun e => negb (answers rid e)) es = true ->
  pending (run es s) !! rid = Some rq.
Proof.
  revert s. induction es as [|e es IH]; intros s Hr Hp Hrq Hes; [done|].
  simpl in Hes. apply andb_true_iff in Hes as [He Hes].
  apply negb_true_iff in He.
  apply (IH (step s e)); [by apply reachable_step| |done..].
  apply step_keeps; [by apply reachable_wf|by apply reachable_inner_ok|done..].
Qed.

Lemma request_stays_until_answered_witness :
  reachable polling_X /\
  pending polling_X !! 1 = Some (StartCommand "W") /\
  pending
    (run [CallNgOnDestroy; CallSelectAgent "W"; Arrive 4 (AgentBody agentW);
          Clock 20000] polling_X) !! 1 = Some (StartCommand "W").
Proof.
  assert (Hr : reachable polling_X).
  { apply (reachable_run
             [CallSelectAgent "W"; Arrive 0 (AgentBody agentW);
              CallStartAgent; CallSelectAgent "X";
              Arrive 2 (AgentBody agentX); Clock 5000] init).
    constructor. }
  assert (H1 : pending polling_X !! 1 = Some (StartCommand "W"))
    by (vm_compute; reflexivity).
  split; [exact Hr|]. split; [exact H1|].
  exact (request_stays_until_answered
           [CallNgOnDestroy; CallSelectAgent "W"; Arrive 4 (AgentBody agentW);
            Clock 20000] polling_X 1 (StartCommand "W") Hr H1 eq_refl eq_refl).
Defined.

(** ** The busy flag *)

Lemma isLoading_deliver rid r s rq :
  pending s !! rid = Some rq ->
  (forall x m, rq <> ChatPost x m) ->
  isLoading (deliver rid r s) = isLoading s.
Proof.
  intros Hr Hrq. unfold deliver. rewrite Hr.
  set (s' := set_pending (delete rid (pending s)) s).
  destruct rq as [|x|x|x|x|x m|x u], r as [a|l|reply|d];
    cbn [alloc]; cbv zeta; try done.
  - unfold selectAgent_next.
    set (sm := match history_of a with
               | Some h => set_messages (to_message <$> h) _
               | None => set_messages [] _
               end).
    destruct (startStatusPolling_fields (id a) sm)
      as (_ & _ & _ & -> & _).
    subst sm. by destruct (history_of a).
  - destruct (owns rid s'); [|done]. unfold poll_next. simpl.
    by destruct (selectedAgent s).
  - by destruct (owns rid s').
  - by destruct (Hrq x m).
  - by destruct (Hrq x m).
Qed.

Lemma isLoading_deliver_chat rid r s x m :
  pending s !! rid = Some (ChatPost x m) ->
  deliver rid r s = s \/ isLoading (deliver rid r s) = false.
Proof.
  intros Hr. unfold deliver. rewrite Hr.
  destruct r as [a|l|reply|d]; [by left|by left|by right|by right].
Qed.

Lemma sendMessage_busy s :
  (isLoading s = true -> chat_in_flight s) ->
  isLoading (sendMessage s) = true -> chat_in_flight (sendMessage s).
Proof.
  intros IH. unfold sendMessage.
  destruct (selected s) as [[p a]|]; [|done].
  destruct (is_empty _); [done|]. intros _.
  exists (nextReq s), (id a), (trim (newMessage s)). simpl.
  by rewrite lookup_insert_eq.
Qed.

Lemma busy_step s e :
  wf s -> inner_ok s ->
  (isLoading s = true -> chat_in_flight s) ->
  isLoading (step s e) = true -> chat_in_flight (step s e).
Proof.
  intros Hwf H IH.
  assert (Hkeep : (forall r, answers r e = false) ->
                  isLoading (step s e) = isLoading s ->
                  isLoading (step s e) = true -> chat_in_flight (step s e)).
  { intros He Hl Hb. rewrite Hl in Hb.
    destruct (IH Hb) as (rid & x & m & Hp). exists rid, x, m.
    by apply step_keeps. }
  destruct e as [rt|x| | |x| | | |i| | | | | |res|rid r|t]; cbn [step] in *.
  - apply Hkeep; [done|]. unfold ngOnInit, loadAgents.
    destruct rt as [x|]; [|done]. by destruct (is_empty x).
  - by apply Hkeep.
  - apply Hkeep; [done|]. unfold startAgent.
    by destruct (selected s) as [[? ?]|].
  - apply Hkeep; [done|]. unfold stopAgent.
    by destruct (selected s) as [[? ?]|].
  - by apply Hkeep.
  - by apply sendMessage_busy.
  - apply Hkeep; [done|]. unfold openEditDialog.
    by destruct (selectedAgent s).
  - apply Hkeep; [done|]. unfold ngOnDestroy.
    by destruct (stopStatusPolling_fields s) as (_ & _ & _ & -> & _).
  - apply Hkeep; [done|]. unfold select_option.
    destruct (agents s !! i); [|done].
    case_bool_decide; [done|]. by destruct (heap s !! n).
  - apply Hkeep; [done|]. unfold menu_start.
    destruct (selected s) as [[? ?]|] eqn:E; [|done].
    destruct (status_eqb _ _); [done|]. unfold startAgent. by rewrite E.
  - apply Hkeep; [done|]. unfold menu_stop.
    destruct (selected s) as [[? ?]|] eqn:E; [|done].
    destruct (status_eqb _ _); [|done]. unfold stopAgent. by rewrite E.
  - apply Hkeep; [done|]. unfold menu_edit, openEditDialog.
    destruct (selected s) as [[? ?]|]; [|done].
    by destruct (selectedAgent s).
  - unfold button_click. destruct (_ || _); [done|].
    by apply sendMessage_busy.
  - unfold input_keyup_enter. destruct (canSendMessage s); [|done].
    by apply sendMessage_busy.
  - apply Hkeep; [done|]. unfold dialog_afterClosed.
    destruct (openDialogs s) as [|k]; [done|].
    destruct res as [u|]; [|done].
    cbv zeta. destruct (selected _) as [[? b]|]; [|done].
    by destruct (is_empty _).
  - destruct (pending s !! rid) as [rq|] eqn:E.
    + destruct rq as [|x|x|x|x|x m|x u].
      6:{ destruct (isLoading_deliver_chat rid r s x m E) as [-> | ->];
            [done|discriminate]. }
      all: rewrite (isLoading_deliver rid r s _ E) by done.
      all: intros Hb; destruct (IH Hb) as (rid0 & x0 & m0 & Hp).
      all: exists rid0, x0, m0.
      all: apply deliver_keeps; [done| |done..].
      all: intros ->; congruence.
    + unfold deliver. by rewrite E.
  - apply Hkeep; [done|].
    by destruct (advance_data t s) as (_ & _ & _ & -> & _).
Qed.

(** X14.  The busy flag is never left raised without a request behind it:
    in every reachable state in which [isLoading] is true, a chat message
    is in flight, and its response, reply or failure, lowers the flag. *)
Theorem busy_flag_has_request (s : State) :
  reachable s -> isLoading s = true ->
  chat_in_flight s /\
  forall rid x m, pending s !! rid = Some (ChatPost x m) ->
    (forall reply, isLoading (deliver rid (ChatBody reply) s) = false) /\
    (forall detail, isLoading (deliver rid (HttpError detail) s) = false).
Proof.
  intros Hr Hb. split.
  - revert Hb. induction Hr as [|s e Hr IH]; [done|].
    apply busy_step; [by apply reachable_wf|by apply reachable_inner_ok|done].
  - intros rid x m Hp. unfold deliver. rewrite Hp. by split.
Qed.

Lemma busy_flag_has_request_witness :
  reachable chatting /\ isLoading chatting = true /\ chat_in_flight chatting.
Proof.
  assert (Hr : reachable chatting).
  { apply (reachable_run
             [CallSelectAgent "B"; Arrive 0 (AgentBody agentB);
              Draft "hi"; CallSendMessage] init).
    constructor. }
  assert (Hb : isLoading chatting = true) by (vm_compute; reflexivity).
  split; [exact Hr|]. split; [exact Hb|].
  destruct (busy_flag_has_request chatting Hr Hb) as [H _]. exact H.
Defined.

(** ** The displayed transcript *)

Lemma messages_sendMessage s :
  messages (sendMessage s) = messages s \/
  exists m, messages (sendMessage s) = messages s ++ [m].
Proof.
  unfold sendMessage. destruct (selected s) as [[p a]|]; [|by left].
  destruct (is_empty _); [by left|]. right. by eexists.
Qed.

Lemma messages_deliver rid r s :
  restarts_polling s (Arrive rid r) = false ->
  messages (deliver rid r s) = messages s \/
  exists m, messages (deliver rid r s) = messages s ++ [m].
Proof.
  simpl. unfold deliver.
  destruct (pending s !! rid) as [rq|]; [|by left].
  set (s' := set_pending (delete rid (pending s)) s).
  destruct rq as [|x|x|x|x|x m|x u], r as [a|l|reply|d];
    cbn [alloc]; cbv zeta; intros Hn; try done; try (by left).
  - destruct (owns rid s'); [|by left]. unfold poll_next. simpl.
    left. by destruct (selectedAgent s).
  - destruct (owns rid s'); by left.
  - right. unfold sendMessage_next. simpl.
    eexists. destruct (selected _) as [[p a]|]; [|done].
    by destruct (history_of a).
Qed.

Lemma messages_step s e :
  restarts_polling s e = false ->
  messages (step s e) = messages s \/
  exists m, messages (step s e) = messages s ++ [m].
Proof.
  intros Hn.
  destruct e as [rt|x| | |x| | | |i| | | | | |res|rid r|t]; cbn [step].
  - unfold ngOnInit, loadAgents. left.
    destruct rt as [x|]; [|done]. by destruct (is_empty x).
  - by left.
  - unfold startAgent. left. by destruct (selected s) as [[? ?]|].
  - unfold stopAgent. left. by destruct (selected s) as [[? ?]|].
  - by left.
  - apply messages_sendMessage.
  - unfold openEditDialog. left. by destruct (selectedAgent s).
  - left. unfold ngOnDestroy.
    by destruct (stopStatusPolling_fields s) as (_ & -> & _).
  - unfold select_option. left. destruct (agents s !! i); [|done].
    case_bool_decide; [done|]. by destruct (heap s !! n).
  - unfold menu_start. left. destruct (selected s) as [[? ?]|] eqn:E; [|done].
    destruct (status_eqb _ _); [done|]. unfold startAgent. by rewrite E.
  - unfold menu_stop. left. destruct (selected s) as [[? ?]|] eqn:E; [|done].
    destruct (status_eqb _ _); [|done]. unfold stopAgent. by rewrite E.
  - unfold menu_edit, openEditDialog. left.
    destruct (selected s) as [[? ?]|]; [|done].
    by destruct (selectedAgent s).
  - unfold button_click. destruct (_ || _); [by left|].
    apply messages_sendMessage.
  - unfold input_keyup_enter. destruct (canSendMessage s); [|by left].
    apply messages_sendMessage.
  - unfold dialog_afterClosed. left. destruct (openDialogs s) as [|k]; [done|].
    destruct res as [u|]; [|done].
    cbv zeta. destruct (selected _) as [[? b]|]; [|done].
    by destruct (is_empty _).
  - by apply messages_deliver.
  - left. by destruct (advance_data t s) as (_ & -> & _).
Qed.

(** X15.  Between two selections the displayed transcript only grows: as
    long as no snapshot arrives for a [selectAgent] call, whatever else
    happens (polls, commands, updates, list loads, failures, the clock,
    destruction) leaves every message displayed where it is, and each
    event appends at most one message. *)
Theorem transcript_only_grows (es : list Event) (s : State) :
  no_restart es s = true ->
  exists l, messages (run es s) = messages s ++ l /\ length l <= length es.
Proof.
  revert s. induction es as [|e es IH]; intros s Hes.
  { exists []. by rewrite app_nil_r. }
  simpl in Hes. apply andb_true_iff in Hes as [He Hes].
  apply negb_true_iff in He.
  destruct (IH (step s e) Hes) as (l & Hl & Hlen).
  change (run (e :: es) s) with (run es (step s e)). rewrite Hl.
  destruct (messages_step s e He) as [->|[m ->]].
  - exists l. split; [done|]. simpl. lia.
  - exists (m :: l). split; [by rewrite <- app_assoc|]. simpl. lia.
Qed.

Lemma transcript_only_grows_witness :
  no_restart [Arrive 3 (HttpError None); Clock 5000; CallNgOnDestroy]
    chatting = true /\
  exists l,
    messages (run [Arrive 3 (HttpError None); Clock 5000; CallNgOnDestroy]
                chatting) = messages chatting ++ l /\
    length l <= 3.
Proof.
  assert (H : no_restart [Arrive 3 (HttpError None); Clock 5000;
                          CallNgOnDestroy] chatting = true)
    by (vm_compute; reflexivity).
  split; [exact H|].
  exact (transcript_only_grows
           [Arrive 3 (HttpError None); Clock 5000; CallNgOnDestroy]
           chatting H).
Defined.

(** ** The list of agents *)

Lemma reachable_refs_valid s : reachable s -> refs_valid s.
Proof.
  induction 1 as [|s e Hr IH]; [|by apply refs_valid_step].
  split; [done|]. intros p Hp. by apply elem_of_nil in Hp.
Qed.

(** X16.  When the list of agents arrives, the selector offers exactly the
    agents received, in the order received, and neither the selection nor
    the transcript changes.  Choosing an offered agent shows the listed
    object at once, before any response, keeps the transcript displayed,
    and asks the server for that agent. *)
Theorem loaded_list_is_offered (s : State) (rid : nat) (l : list Agent) :
  reachable s ->
  pending s !! rid = Some ListFetch ->
  let s' := deliver rid (AgentListBody l) s in
  (forall i, agents s' !! i ≫= (heap s' !!.) = l !! i) /\
  selectedAgent s' = selectedAgent s /\ messages s' = messages s /\
  forall i a, l !! i = Some a ->
    let s2 := select_option i s' in
    snapshot s2 = Some a /\ messages s2 = messages s /\
    pending s2 !! nextReq s = Some (SelectFetch (id a)).
Proof.
  intros Hr Hp s'.
  assert (Hs' : s' = loadAgents_next (seq (length (heap s)) (length l))
                       (set_heap (heap s ++ l)
                          (set_pending (delete rid (pending s)) s))).
  { subst s'. unfold deliver. by rewrite Hp. }
  assert (Hag : forall i a, l !! i = Some a ->
            agents s' !! i = Some (length (heap s) + i) /\
            heap s' !! (length (heap s) + i) = Some a).
  { intros i a Hi. rewrite Hs'. simpl. split.
    - apply lookup_seq. split; [done|]. by eapply lookup_lt_Some.
    - rewrite lookup_app_r by lia.
      by replace (length (heap s) + i - length (heap s)) with i by lia. }
  split; [|split; [by rewrite Hs'|split; [by rewrite Hs'|]]].
  - intros i. destruct (l !! i) as [a|] eqn:Hi.
    + destruct (Hag i a Hi) as [-> Hh]. simpl. exact Hh.
    + assert (Hn : agents s' !! i = None).
      { rewrite Hs'. simpl. apply lookup_ge_None.
        rewrite length_seq. by apply lookup_ge_None. }
      by rewrite Hn.
  - intros i a Hi s2. destruct (Hag i a Hi) as [Ha Hh].
    assert (Hsel : selectedAgent s' <> Some (length (heap s) + i)).
    { rewrite Hs'. simpl. intros Hq.
      destruct (reachable_refs_valid s Hr) as [H1 _].
      apply H1 in Hq. lia. }
    assert (Hs2 : s2 = selectAgent (id a)
                    (set_selectedAgent (Some (length (heap s) + i)) s')).
    { subst s2. unfold select_option. rewrite Ha.
      rewrite bool_decide_eq_false_2 by done. by rewrite Hh. }
    rewrite Hs2. split; [|split].
    + unfold snapshot, selected. simpl. by rewrite Hh.
    + simpl. by rewrite Hs'.
    + simpl. rewrite Hs'. simpl. by rewrite lookup_insert_eq.
Qed.

Lemma loaded_list_is_offered_witness :
  let s := ngOnInit None init in
  reachable s /\ pending s !! 0 = Some ListFetch /\
  snapshot (select_option 1 (deliver 0 (AgentListBody [agentX; agentY]) s))
    = Some agentY.
Proof.
  intros s.
  assert (Hr : reachable s).
  { apply (reachable_run [CallNgOnInit None] init). constructor. }
  assert (H0 : pending s !! 0 = Some ListFetch) by (vm_compute; reflexivity).
  split; [exact Hr|]. split; [exact H0|].
  destruct (loaded_list_is_offered s 0 [agentX; agentY] Hr H0)
    as (_ & _ & _ & H).
  destruct (H 1 agentY eq_refl) as (H1 & _). exact H1.
Defined.

(** ** Saving from the edit dialog *)

Lemma or_undefined_Some v :
  is_empty v = false -> EditAgentDialogComponent.or_undefined v = Some v.
Proof. unfold EditAgentDialogComponent.or_undefined. by intros ->. Qed.

Lemma valid_parts v :
  EditAgentDialogComponent.valid v = true ->
  is_empty (EditAgentDialogComponent.f_name v) = false /\
  is_empty (EditAgentDialogComponent.f_description v) = false /\
  is_empty (EditAgentDialogComponent.f_prompt v) = false /\
  EditAgentDialogComponent.f_tools v <> [].
Proof.
  unfold EditAgentDialogComponent.valid,
    EditAgentDialogComponent.required_text,
    EditAgentDialogComponent.required_list.
  intros H.
  apply andb_true_iff in H as [H H4]. apply andb_true_iff in H as [H H3].
  apply andb_true_iff in H as [H1 H2]. apply andb_true_iff in H4 as [H4 _].
  apply negb_true_iff in H1, H2, H3, H4.
  repeat split; try done.
  intros E. by rewrite E in H4.
Qed.

(** X17.  The dialog never hands over a partial update.  While the form is
    invalid (an empty name, description or prompt, or no tool), saving
    leaves the dialog open and only marks the controls as touched; an
    update it closes with carries the name, the description, the prompt,
    the tools and the flag of the form, the texts not empty and at least
    one tool, and never a status. *)
Theorem saved_update_is_complete (d : EditAgentDialogComponent.t) :
  EditAgentDialogComponent.closed d = None ->
  let d' := EditAgentDialogComponent.onSubmit d in
  let v := EditAgentDialogComponent.form d in
  (EditAgentDialogComponent.valid v = false ->
   EditAgentDialogComponent.closed d' = None /\
   EditAgentDialogComponent.touched d' = true) /\
  forall u, EditAgentDialogComponent.closed d' = Some (Some u) ->
    is_empty (id (EditAgentDialogComponent.data d)) = false /\
    u_name u = Some (EditAgentDialogComponent.f_name v) /\
    EditAgentDialogComponent.f_name v <> EmptyString /\
    u_description u = Some (EditAgentDialogComponent.f_description v) /\
    EditAgentDialogComponent.f_description v <> EmptyString /\
    u_prompt u = Some (EditAgentDialogComponent.f_prompt v) /\
    EditAgentDialogComponent.f_prompt v <> EmptyString /\
    u_tools u = Some (EditAgentDialogComponent.f_tools v) /\
    EditAgentDialogComponent.f_tools v <> [] /\
    u_hitl_enabled u = Some (EditAgentDialogComponent.f_hitl_enabled v) /\
    u_status u = None.
Proof.
  intros Hc d' v. subst d' v. unfold EditAgentDialogComponent.onSubmit.
  destruct (EditAgentDialogComponent.valid _) eqn:Hv.
  - split; [done|]. intros u.
    destruct (is_empty (id _)) eqn:Hid; [done|]. cbv zeta. simpl.
    intros [= <-]. simpl.
    destruct (valid_parts _ Hv) as (H1 & H2 & H3 & H4).
    rewrite !or_undefined_Some by done.
    repeat split; try done.
    all: intros E; by rewrite E in *.
  - split; [by intros _|]. intros u. simpl. by rewrite Hc.
Qed.

Lemma saved_update_is_complete_witness :
  let d := EditAgentDialogComponent.setValue filled_form
             (EditAgentDialogComponent.new agentY) in
  EditAgentDialogComponent.closed d = None /\
  forall u,
    EditAgentDialogComponent.closed (EditAgentDialogComponent.onSubmit d) =
      Some (Some u) ->
    u_status u = None.
Proof.
  intros d.
  assert (Hc : EditAgentDialogComponent.closed d = None) by reflexivity.
  split; [exact Hc|]. intros u Hu.
  destruct (saved_update_is_complete d Hc) as [_ H].
  destruct (H u Hu) as (_ & _ & _ & _ & _ & _ & _ & _ & _ & _ & Hs).
  exact Hs.
Defined.

(** X18.  An update is addressed to the agent held when the dialog closes,
    not to the agent the dialog was opened for: submitting a valid form
    while [b] is held sends the values of the form to [b], whatever the
    data of the dialog are, and changes neither the held snapshot nor the
    transcript. *)
Theorem update_goes_to_held_agent (d : EditAgentDialogComponent.t)
    (s : State) (b : Agent) (n : nat) :
  snapshot s = Some b -> is_empty (id b) = false ->
  openDialogs s = S n ->
  EditAgentDialogComponent.valid (EditAgentDialogComponent.form d) = true ->
  is_empty (id (EditAgentDialogComponent.data d)) = false ->
  let s' := submit_dialog d s in
  exists u,
    pending s' !! nextReq s = Some (UpdatePut (id b) u) /\
    u_name u = Some (EditAgentDialogComponent.f_name
                       (EditAgentDialogComponent.form d)) /\
    u_description u = Some (EditAgentDialogComponent.f_description
                              (EditAgentDialogComponent.form d)) /\
    u_prompt u = Some (EditAgentDialogComponent.f_prompt
                         (EditAgentDialogComponent.form d)) /\
    u_tools u = Some (EditAgentDialogComponent.f_tools
                        (EditAgentDialogComponent.form d)) /\
    u_hitl_enabled u = Some (EditAgentDialogComponent.f_hitl_enabled
                               (EditAgentDialogComponent.form d)) /\
    openDialogs s' = n /\ snapshot s' = Some b /\ messages s' = messages s.
Proof.
  intros Hb Hid Ho Hv Hd s'. subst s'.
  unfold submit_dialog, EditAgentDialogComponent.onSubmit.
  rewrite Hv, Hd. cbv zeta. cbn [EditAgentDialogComponent.closed
                                 EditAgentDialogComponent.close].
  destruct (valid_parts _ Hv) as (H1 & H2 & H3 & H4).
  rewrite !or_undefined_Some by done.
  destruct (snapshot_selected s b Hb) as (p & Hsel & Hp & Hh).
  unfold dialog_afterClosed. rewrite Ho. cbv zeta.
  assert (Hsel' : selected (set_openDialogs n s) = Some (p, b)) by done.
  rewrite Hsel', Hid.
  eexists. split; [simpl; by rewrite lookup_insert_eq|].
  repeat split; try done.
Qed.

Lemma update_goes_to_held_agent_witness :
  let d := EditAgentDialogComponent.setValue filled_form
             (EditAgentDialogComponent.new agentY) in
  snapshot editing_Y = Some agentX /\
  id (EditAgentDialogComponent.data d) = "Y" /\
  exists u,
    pending (submit_dialog d editing_Y) !! nextReq editing_Y =
      Some (UpdatePut (id agentX) u) /\
    u_name u = Some (EditAgentDialogComponent.f_name
                       (EditAgentDialogComponent.form d)).
Proof.
  intros d.
  assert (Hb : snapshot editing_Y = Some agentX) by (vm_compute; reflexivity).
  assert (Ho : openDialogs editing_Y = 1) by (vm_compute; reflexivity).
  split; [exact Hb|]. split; [reflexivity|].
  destruct (update_goes_to_held_agent d editing_Y agentX 0 Hb eq_refl Ho
              eq_refl eq_refl) as (u & Hp & Hn & _).
  exists u. split; [exact Hp|exact Hn].
Defined.

(** ** The calls of the service *)

Lemma adds_named_same s s' : pending s' = pending s -> adds_named s s'.
Proof. intros E r rq. rewrite E. by left. Qed.

Lemma adds_named_trans s1 s2 s3 :
  adds_named s1 s2 -> adds_named s2 s3 -> adds_named s1 s3.
Proof.
  intros H1 H2 r rq Hp. destruct (H2 r rq Hp) as [?|?]; [|by right].
  by apply H1.
Qed.

Lemma adds_named_quiet s s' :
  evolves s s' -> nextReq s' = nextReq s -> adds_named s s'.
Proof.
  intros [_ He] Hn r rq Hp. destruct (He r rq Hp) as [?|[? ?]]; [by left|].
  lia.
Qed.

Lemma adds_named_http_send rq s : named rq -> adds_named s (http_send rq s).
Proof.
  intros Hrq r rq'. simpl.
  intros [[_ <-]|[_ ?]]%lookup_insert_Some; [by right|by left].
Qed.

Lemma adds_named_sendMessage s : adds_named s (sendMessage s).
Proof.
  unfold sendMessage. destruct (selected s) as [[p a]|];
    [|by apply adds_named_same].
  destruct (is_empty _); [by apply adds_named_same|].
  intros r rq. simpl.
  intros [[_ <-]|[_ ?]]%lookup_insert_Some; [by right|by left].
Qed.

Lemma adds_named_interval_emit s : adds_named s (interval_emit s).
Proof.
  unfold interval_emit.
  destruct (statusSubscription s) as [sub|]; [|by apply adds_named_same].
  destruct (sub_timer sub); [|by apply adds_named_same].
  destruct (still_selected _ _); [|by apply adds_named_same].
  intros r rq. simpl.
  intros [[_ <-]|[_ Hp]]%lookup_insert_Some; [by right|].
  destruct (abort_inner_fields sub s) as (_ & _ & _ & _ & _ & Hn & _).
  by apply (adds_named_quiet s (abort_inner sub s)
              (evolves_abort_inner sub s) Hn).
Qed.

Lemma adds_named_fire n : forall t s, adds_named s (fire n t s).
Proof.
  induction n as [|n IH]; intros t s; simpl; [by apply adds_named_same|].
  destruct (due t s) as [tf|]; [|by apply adds_named_same].
  eapply adds_named_trans; [|apply IH].
  eapply adds_named_trans; [|apply adds_named_interval_emit].
  by apply adds_named_same.
Qed.

Lemma adds_named_deliver rid r s : adds_named s (deliver rid r s).
Proof.
  apply adds_named_quiet; [apply evolves_deliver|].
  unfold deliver. destruct (pending s !! rid) as [rq|]; [|done].
  set (s' := set_pending (delete rid (pending s)) s).
  destruct rq as [|x|x|x|x|x m|x u], r as [a|l|reply|d];
    cbn [alloc]; cbv zeta; try done.
  - unfold selectAgent_next.
    set (sm := match history_of a with
               | Some h => set_messages (to_message <$> h) _
               | None => set_messages [] _
               end).
    destruct (startStatusPolling_fields (id a) sm)
      as (_ & _ & _ & _ & _ & -> & _).
    subst sm. by destruct (history_of a).
  - destruct (owns rid s'); [|done]. cbn [nextReq set_statusSubscription].
    by destruct (poll_next_parts (length (heap s'))
                   (set_heap (heap s' ++ [a]) s')) as (_ & _ & ->).
  - by destruct (owns rid s').
  - by destruct (sendMessage_next_parts reply s') as (_ & _ & ->).
Qed.

Lemma adds_named_step s e : adds_named s (step s e).
Proof.
  destruct e as [rt|x| | |x| | | |i| | | | | |res|rid r|t]; cbn [step].
  - unfold ngOnInit, loadAgents.
    destruct rt as [x|]; [|by apply adds_named_http_send].
    destruct (is_empty x); [by apply adds_named_http_send|].
    eapply adds_named_trans; by apply adds_named_http_send.
  - by apply adds_named_http_send.
  - unfold startAgent. destruct (selected s) as [[? ?]|];
      [by apply adds_named_http_send|by apply adds_named_same].
  - unfold stopAgent. destruct (selected s) as [[? ?]|];
      [by apply adds_named_http_send|by apply adds_named_same].
  - by apply adds_named_same.
  - apply adds_named_sendMessage.
  - unfold openEditDialog. destruct (selectedAgent s); by apply adds_named_same.
  - apply adds_named_quiet; [apply evolves_stopStatusPolling|].
    unfold ngOnDestroy.
    by destruct (stopStatusPolling_fields s) as (_ & _ & _ & _ & _ & -> & _).
  - unfold select_option. destruct (agents s !! i); [|by apply adds_named_same].
    case_bool_decide; [by apply adds_named_same|].
    destruct (heap s !! n); [|by apply adds_named_same].
    eapply adds_named_trans; [|by apply adds_named_http_send].
    by apply adds_named_same.
  - unfold menu_start. destruct (selected s) as [[? ?]|] eqn:E;
      [|by apply adds_named_same].
    destruct (status_eqb _ _); [by apply adds_named_same|].
    unfold startAgent. rewrite E. by apply adds_named_http_send.
  - unfold menu_stop. destruct (selected s) as [[? ?]|] eqn:E;
      [|by apply adds_named_same].
    destruct (status_eqb _ _); [|by apply adds_named_same].
    unfold stopAgent. rewrite E. by apply adds_named_http_send.
  - unfold menu_edit, openEditDialog.
    destruct (selected s) as [[? ?]|]; [|by apply adds_named_same].
    destruct (selectedAgent s); by apply adds_named_same.
  - unfold button_click. destruct (_ || _); [by apply adds_named_same|].
    apply adds_named_sendMessage.
  - unfold input_keyup_enter.
    destruct (canSendMessage s); [|by apply adds_named_same].
    apply adds_named_sendMessage.
  - unfold dialog_afterClosed.
    destruct (openDialogs s) as [|k]; [by apply adds_named_same|].
    destruct res as [u|]; [|by apply adds_named_same].
    cbv zeta. destruct (selected _) as [[? b]|]; [|by apply adds_named_same].
    destruct (is_empty _) eqn:E; [by apply adds_named_same|].
    eapply adds_named_trans; [|by apply adds_named_http_send].
    by apply adds_named_same.
  - apply adds_named_deliver.
  - unfold advance. eapply adds_named_trans; [apply adds_named_fire|].
    by apply adds_named_same.
Qed.

(** X19.  The component never makes the service throw: every request in
    flight in a reachable state is one [AgentService] returns an
    observable for.  In particular an update is never sent without the
    identifier of its agent, so the guard of [updateAgent] does not
    fire. *)
Theorem service_accepts_every_request (s : State) (rid : nat)
    (rq : Request) (environment_apiUrl : string) :
  reachable s ->
  pending s !! rid = Some rq ->
  is_Some (http_request environment_apiUrl rq).
Proof.
  intros Hr Hp.
  assert (Hn : named rq).
  { revert rid rq Hp. induction Hr as [|s e Hr IH]; intros rid rq Hp.
    - change (pending init) with (∅ : gmap nat Request) in Hp.
      by rewrite lookup_empty in Hp.
    - destruct (adds_named_step s e rid rq Hp) as [?|?]; [|done].
      by eapply IH. }
  destruct rq as [|x|x|x|x|x m|x u]; try (by eexists).
  simpl in Hn. unfold http_request, AgentService.updateAgent.
  rewrite Hn. by eexists.
Qed.

Lemma service_accepts_every_request_witness :
  reachable update_sent /\
  pending update_sent !! 3 =
    Some (UpdatePut "X"
            {| u_name := Some "Y"; u_description := Some "tester";
               u_tools := Some ["search"]; u_prompt := Some "be brief";
               u_hitl_enabled := Some true; u_status := None |}) /\
  is_Some (http_request "/api"
             (UpdatePut "X"
                {| u_name := Some "Y"; u_description := Some "tester";
                   u_tools := Some ["search"]; u_prompt := Some "be brief";
                   u_hitl_enabled := Some true; u_status := None |})).
Proof.
  assert (Hr : reachable update_sent).
  { apply (reachable_run
             [CallNgOnInit None; Arrive 0 (AgentListBody [agentX; agentY]);
              PickAgent 0; PickAgent 1; ClickEdit;
              Arrive 2 (AgentBody agentY); Arrive 1 (AgentBody agentX);
              DialogClosed
                (Some {| u_name := Some "Y"; u_description := Some "tester";
                         u_tools := Some ["search"];
                         u_prompt := Some "be brief";
                         u_hitl_enabled := Some true;
                         u_status := None |})] init).
    constructor. }
  assert (Hp : pending update_sent !! 3 =
            Some (UpdatePut "X"
                    {| u_name := Some "Y"; u_description := Some "tester";
                       u_tools := Some ["search"];
                       u_prompt := Some "be brief";
                       u_hitl_enabled := Some true; u_status := None |}))
    by (vm_compute; reflexivity).
  split; [exact Hr|]. split; [exact Hp|].
  exact (service_accepts_every_request update_sent 3 _ "/api" Hr Hp).
Defined.

Lemma append_nil_clash (a c : string) ch : a = a +:+ String ch c -> False.
Proof. induction a as [|ch' a IH]; simpl; [done|]. intros [= H]. auto. Qed.

Lemma list_of_append (a b : string) :
  Strings.String.list_ascii_of_string (a +:+ b) =
  Strings.String.list_ascii_of_string a ++ Strings.String.list_ascii_of_string b.
Proof. induction a as [|ch a IH]; simpl; [done|]. by rewrite IH. Qed.

Lemma append_inv_tail (a b c : string) : a +:+ c = b +:+ c -> a = b.
Proof.
  intros H. apply (f_equal Strings.String.list_ascii_of_string) in H.
  rewrite !list_of_append in H. apply app_inv_tail in H.
  apply (f_equal Strings.String.string_of_list_ascii) in H.
  by rewrite !Strings.String.string_of_list_ascii_of_string in H.
Qed.

Lemma start_stop_clash (x y : string) : x +:+ "/start" = y +:+ "/stop" -> False.
Proof.
  intros H. apply (f_equal Strings.String.list_ascii_of_string) in H.
  rewrite !list_of_append in H. apply (f_equal (@rev _)) in H.
  rewrite !rev_app_distr in H. simpl in H. discriminate H.
Qed.

(** X20.  The requests of the component are told apart on the wire: two of
    them ask the server for the same thing, by method, URL and body, only
    when they are the same call for the same agent with the same payload, a
    poll counting as the fetch of a selection. *)
Theorem requests_told_apart (environment_apiUrl : string)
    (rq1 rq2 : Request) :
  is_Some (http_request environment_apiUrl rq1) ->
  http_request environment_apiUrl rq1 = http_request environment_apiUrl rq2 ->
  fetch_of rq1 = fetch_of rq2.
Proof.
  intros [h Hh]. rewrite Hh. intros H. symmetry in H. revert Hh H.
  unfold http_request, AgentService.updateAgent, AgentService.getAgents,
    AgentService.getAgent, AgentService.startAgent, AgentService.stopAgent,
    AgentService.sendMessage.
  generalize (AgentService.apiUrl environment_apiUrl). intros root.
  destruct rq1 as [|x|x|x|x|x m|x u], rq2 as [|y|y|y|y|y m'|y u'];
    cbn [fetch_of]; repeat destruct (is_empty _);
    intros Hh H; simplify_eq; try done.
  all: match goal with
       | H : ?r = ?r +:+ _ |- _ =>
         simpl in H; by apply append_nil_clash in H
       | H : ?r +:+ _ = ?r |- _ =>
         simpl in H; symmetry in H; by apply append_nil_clash in H
       | H : _ +:+ _ = _ +:+ _ |- _ =>
         first [ by apply start_stop_clash in H
               | symmetry in H; by apply start_stop_clash in H
               | apply append_inv_tail in H; by subst ]
       end.
Qed.

Lemma requests_told_apart_witness :
  is_Some (http_request "/api" (PollFetch "A")) /\
  http_request "/api" (PollFetch "A") =
    http_request "/api" (SelectFetch "A") /\
  fetch_of (PollFetch "A") = fetch_of (SelectFetch "A").
Proof.
  assert (H1 : is_Some (http_request "/api" (PollFetch "A")))
    by (by eexists).
  split; [exact H1|]. split; [reflexivity|].
  exact (requests_told_apart "/api" (PollFetch "A") (SelectFetch "A") H1
           eq_refl).
Defined.

(** ** Answers to commands and updates *)

(** X21.  The answer to a start command, a stop command or an update
    becomes the held snapshot as it is, whatever agent is held when it
    arrives and whatever agent it describes; a snack bar reports the
    success, and the transcript, the busy flag, the polling subscription
    and the other requests in flight are left as they are. *)
Theorem command_answer_replaces_snapshot (s : State) (rid : nat)
    (rq : Request) (a : Agent) :
  pending s !! rid = Some rq ->
  answer_replaces_snapshot rq = true ->
  let s' := deliver rid (AgentBody a) s in
  snapshot s' = Some a /\
  messages s' = messages s /\ isLoading s' = isLoading s /\
  statusSubscription s' = statusSubscription s /\
  poll_times s' = poll_times s /\
  pending s' = delete rid (pending s) /\
  count is_snack s' = S (count is_snack s).
Proof.
  intros Hp Hrq s'. subst s'. unfold deliver. rewrite Hp.
  destruct rq as [|x|x|x|x|x m|x u]; try done;
    unfold alloc, startAgent_next, stopAgent_next, updateAgent_next;
    cbv zeta; rewrite poll_times_emit, count_emit.
  all: repeat split; try done.
  all: try (unfold snapshot, selected; simpl;
            rewrite lookup_app_r by done; by rewrite Nat.sub_diag).
  all: try (unfold poll_times; simpl; by rewrite app_nil_r).
  all: unfold count; simpl; lia.
Qed.

Lemma command_answer_replaces_snapshot_witness :
  pending polling_X !! 1 = Some (StartCommand "W") /\
  snapshot polling_X = Some agentX /\
  snapshot (deliver 1 (AgentBody agentW) polling_X) = Some agentW.
Proof.
  assert (H1 : pending polling_X !! 1 = Some (StartCommand "W"))
    by (vm_compute; reflexivity).
  assert (H2 : snapshot polling_X = Some agentX)
    by (vm_compute; reflexivity).
  split; [exact H1|]. split; [exact H2|].
  destruct (command_answer_replaces_snapshot polling_X 1 (StartCommand "W")
              agentW H1 eq_refl) as (H & _).
  exact H.
Defined.
